(** * Hotel backend: booking and order pricing, availability and life cycles

    A shallow embedding of the booking controller and its routes, the order
    routes, the payment service, the Booking, Room, Order and Package models
    and the authorization and upload middleware, with the properties of
    their pricing rules, status transitions, validation and access checks.

    Conventions of the embedding.
    - A JavaScript [Number] that carries money or a quantity is an exact
      rational ([Q]); equalities between amounts are stated with [==].
    - A [Date] is its [getTime()] value: milliseconds since the epoch, in [Z].
      [new Date()] and [Date.now()] read a clock that is passed in as [now].
    - A collection of documents is a finite map from the document key to the
      document, and [findById] is a lookup.  [save] first validates the
      document against its schema, then runs the [pre('save')] hooks of the
      schema, then writes; a document that the validation or a unique index
      refuses is not written and [save] throws, which is [None] here.
    - A record carries the paths of its schema that a handler reads or
      writes.  The validators of those paths are embedded; the documents on
      file are taken to satisfy the validators of the paths left out.
    - A handler returns the store it leaves behind together with the HTTP
      response it sends.  It runs at one instant [now]; an exception is
      caught by the handler and answered with 500, the writes made before
      it staying in the store. *)

From Stdlib Require Import ZArith QArith Qround Qabs Lia Lqa.
From stdpp Require Import gmap strings list pretty.

Local Open Scope Z_scope.

(** ** JavaScript values *)

Module Js.

(** Milliseconds since the epoch. *)
Definition Date := Z.

(** [1000 * 3600 * 24] *)
Definition msPerDay : Z := 1000 * 3600 * 24.

(** [Math.ceil(a / b)] on integers with [b > 0]. *)
Definition ceil_div (a b : Z) : Z := - ((- a) / b).

(** [Math.round(x)]: the nearest integer, halves rounded up. *)
Definition round (x : Q) : Z := Qfloor (x + (1 # 2))%Q.

(** [x || d] on a number: [0] is falsy. *)
Definition or_default (x d : Q) : Q := if Qeq_bool x 0%Q then d else x.

(** [x || d] on a number that may be missing from the request body. *)
Definition opt_or_default (x : option Q) (d : Q) : Q :=
  match x with
  | Some v => or_default v d
  | None => d
  end.

(** A number read from a field that the schema may not declare:
    the field can be absent ([undefined]), and arithmetic on an absent
    field gives [NaN]. *)
Inductive Num :=
| Int (z : Z)
| NaN
| Undefined.

(** [a < b]: false as soon as one side is not a number. *)
Definition lt (a b : Num) : bool :=
  match a, b with
  | Int x, Int y => x <? y
  | _, _ => false
  end.

(** [a + b] *)
Definition add (a b : Num) : Num :=
  match a, b with
  | Int x, Int y => Int (x + y)
  | _, _ => NaN
  end.

(** [a - b] *)
Definition sub (a b : Num) : Num :=
  match a, b with
  | Int x, Int y => Int (x - y)
  | _, _ => NaN
  end.

(** [list.includes(s)] on an array of strings. *)
Definition includes (l : list string) (s : string) : bool :=
  existsb (String.eqb s) l.

(** The [required] validator of a [String] path that is always set: the
    empty string is refused. *)
Definition nonEmpty (s : string) : bool := negb (String.eqb s "").

(** The [required] validator of a [String] path that may be unset. *)
Definition required (s : option string) : bool :=
  match s with
  | Some s => nonEmpty s
  | None => false
  end.

(** The [enum] validator of a path that may be unset: a value that is not
    there is let through. *)
Definition enum (values : list string) (s : option string) : bool :=
  match s with
  | Some s => includes values s
  | None => true
  end.

End Js.

(** ** HTTP responses *)

Inductive Response :=
| Failure (code : Z) (error : string)
| Success (code : Z) (message : string).

Definition code_of (r : Response) : Z :=
  match r with
  | Failure c _ => c
  | Success c _ => c
  end.

(** ** The calendar of the runtime

    [Date.prototype.toDateString] renders the calendar day of a date in the
    time zone of the server.  The models take the rendering as a parameter;
    [utc] is the rendering of a server that runs in UTC. *)

Class Calendar := toDateString : Js.Date -> string.

Module Utc.

Definition digit (n : Z) : string :=
  match n with
  | 0 => "0" | 1 => "1" | 2 => "2" | 3 => "3" | 4 => "4"
  | 5 => "5" | 6 => "6" | 7 => "7" | 8 => "8" | _ => "9"
  end.

(** The last [w] decimal digits of [n], zero padded. *)
Fixpoint digits (w : nat) (n : Z) : string :=
  match w with
  | O => ""
  | S w' => digits w' (n / 10) +:+ digit (n mod 10)
  end.

Definition dayName (d : Z) : string :=
  match d with
  | 0 => "Sun" | 1 => "Mon" | 2 => "Tue" | 3 => "Wed"
  | 4 => "Thu" | 5 => "Fri" | _ => "Sat"
  end.

Definition monthName (m : Z) : string :=
  match m with
  | 1 => "Jan" | 2 => "Feb" | 3 => "Mar" | 4 => "Apr" | 5 => "May"
  | 6 => "Jun" | 7 => "Jul" | 8 => "Aug" | 9 => "Sep" | 10 => "Oct"
  | 11 => "Nov" | _ => "Dec"
  end.

(** Year, month and day of the month of a day number (days since
    1970-01-01), in the proleptic Gregorian calendar. *)
Definition civil (days : Z) : Z * Z * Z :=
  let z := days + 719468 in
  let era := z / 146097 in
  let doe := z - era * 146097 in
  let yoe := (doe - doe / 1460 + doe / 36524 - doe / 146096) / 365 in
  let doy := doe - (365 * yoe + yoe / 4 - yoe / 100) in
  let mp := (5 * doy + 2) / 153 in
  let d := doy - (153 * mp + 2) / 5 + 1 in
  let m := if mp <? 10 then mp + 3 else mp - 9 in
  let y := yoe + era * 400 + (if m <=? 2 then 1 else 0) in
  (y, m, d).

Definition dateString (t : Js.Date) : string :=
  let days := t / Js.msPerDay in
  let '(y, m, d) := civil days in
  dayName ((days + 4) mod 7) +:+ " " +:+ monthName m +:+ " "
    +:+ digits 2 d +:+ " " +:+ digits 4 y.

Definition calendar : Calendar := dateString.

End Utc.

(** ** Rooms *)

Module Room.

(** The paths of a room document that the booking controller and the
    virtual field read. *)
Record t := mk {
  roomNumber : string;
  name : string;
  price : Q;
  isAvailable : bool;
  maintenanceStatus : string;
  updatedAt : Js.Date
}.

(** A room document in memory: its paths, and the property [available]
    that the booking controller reads and assigns.  The schema declares no
    such path, so the property is not read from the store and not written
    to it. *)
Record Doc := mkDoc {
  paths : t;
  available : Js.Num
}.

(** [Room.findById]: a document that has just been loaded has no property
    [available]. *)
Definition findById (rooms : gmap string t) (id : string) : option Doc :=
  match rooms !! id with
  | Some room => Some (mkDoc room Js.Undefined)
  | None => None
  end.

(** The assignment [room.available = a], on the object in memory. *)
Definition set_available (a : Js.Num) (room : Doc) : Doc :=
  mkDoc (paths room) a.

Definition maintenanceStatuses : list string :=
  ["good"; "needs_cleaning"; "maintenance_required"; "out_of_order"].

(** The validators of the schema. *)
Definition validate (r : t) : bool :=
  Js.nonEmpty (roomNumber r)
  && Js.nonEmpty (name r)
  && Js.includes maintenanceStatuses (maintenanceStatus r).

(** [RoomSchema.pre('save')] *)
Definition pre_save (now : Js.Date) (r : t) : t :=
  mk (roomNumber r) (name r) (price r) (isAvailable r) (maintenanceStatus r)
     now.

(** [room.save()]: the paths of the schema are written. *)
Definition save (now : Js.Date) (id : string) (room : Doc)
    (rooms : gmap string t) : option (gmap string t) :=
  if negb (validate (paths room)) then None
  else Some (<[id := pre_save now (paths room)]> rooms).

End Room.

(** ** Additional services offered by the hotel *)

Module Service.

Record t := mk {
  name : string;
  category : string;
  price : Q;
  isActive : bool
}.

Definition categories : list string :=
  ["spa"; "gym"; "laundry"; "transport"; "tour"; "dining"; "other"].

(** The validators of the schema. *)
Definition validate (s : t) : bool :=
  Js.nonEmpty (name s)
  && Js.includes categories (category s)
  && Qle_bool 0 (price s).

End Service.

(** ** Packages *)

Module Package.

Record Season := mkSeason {
  seasonName : string;
  seasonStart : option Js.Date;
  seasonEnd : option Js.Date;
  priceModifier : Q
}.

Record t := mk {
  name : string;
  description : string;
  price : Q;
  discountPercentage : Q;
  seasons : list Season;             (* validFor.seasons *)
  startDate : option Js.Date;        (* availability.startDate *)
  endDate : option Js.Date;          (* availability.endDate *)
  blackoutDates : list Js.Date;      (* availability.blackoutDates *)
  isActive : bool
}.

(** [PackageSchema.virtual('effectivePrice')] *)
Definition effectivePrice (p : t) : Q :=
  (price p * (1 - discountPercentage p / 100))%Q.

(** [startDate && checkDate < startDate] *)
Definition before (checkDate : Js.Date) (bound : option Js.Date) : bool :=
  match bound with
  | Some s => checkDate <? s
  | None => false
  end.

(** [endDate && checkDate > endDate] *)
Definition after (checkDate : Js.Date) (bound : option Js.Date) : bool :=
  match bound with
  | Some e => checkDate >? e
  | None => false
  end.

(** [PackageSchema.methods.isAvailable] *)
Definition isAvailable `{Calendar} (p : t) (checkDate : Js.Date) : bool :=
  if negb (isActive p) then false
  else if before checkDate (startDate p) then false
  else if after checkDate (endDate p) then false
  else if existsb (fun date => String.eqb (toDateString date)
                                          (toDateString checkDate))
                  (blackoutDates p) then false
  else true.

(** [checkDate >= season.startDate && checkDate <= season.endDate]; a
    comparison with a missing bound is false. *)
Definition inSeason (checkDate : Js.Date) (season : Season) : bool :=
  match seasonStart season, seasonEnd season with
  | Some s, Some e => (checkDate >=? s) && (checkDate <=? e)
  | _, _ => false
  end.

(** [PackageSchema.methods.getSeasonalPrice] *)
Definition getSeasonalPrice (p : t) (checkDate : Js.Date) : Q :=
  let season := List.find (inSeason checkDate) (seasons p) in
  let basePrice := effectivePrice p in
  match season with
  | Some season => (basePrice * priceModifier season)%Q
  | None => basePrice
  end.

End Package.

(** ** Bookings *)

Module Booking.

(** An entry of [additionalServices]. *)
Record ServiceLine := mkServiceLine {
  serviceId : string;
  serviceName : string;
  serviceType : string;
  servicePrice : Q;                  (* price *)
  serviceQuantity : Q;               (* quantity *)
  scheduledDate : option Js.Date;
  scheduledTime : option string;
  serviceStatus : string             (* status, 'pending' by default *)
}.

(** An item of a food order. *)
Record FoodItem := mkFoodItem {
  menuItemId : string;
  menuItemName : string;
  itemQuantity : Q;                  (* quantity *)
  itemPrice : Q                      (* price *)
}.

(** An entry of [foodOrders]. *)
Record FoodOrder := mkFoodOrder {
  orderId : string;
  items : list FoodItem;
  orderType : option string;
  orderStatus : string;              (* status, 'ordered' by default *)
  orderTotal : Q                     (* totalAmount *)
}.

(** The copy of the selected package kept in the booking. *)
Record PackageData := mkPackageData {
  packageId : string;
  packageName : string;
  packageDescription : string;
  packageDataPrice : Q               (* price *)
}.

Record Pricing := mkPricing {
  roomRate : Q;
  packagePrice : Q;
  servicesTotal : Q;
  foodTotal : Q;
  taxAmount : Q;
  discountAmount : Q;
  totalAmount : Q
}.

Record Payment := mkPayment {
  paymentStatus : string;            (* status, 'pending' by default *)
  paidAmount : Q;
  refundAmount : Q
}.

(** A booking document.  The guest counts, the special requests, the
    service requests and the review are carried by the document but take no
    part in pricing or in the life cycle; they are not represented. *)
Record t := mk {
  user : string;
  bookingNumber : option string;
  room : string;
  checkInDate : Js.Date;
  checkOutDate : Js.Date;
  numberOfNights : Z;
  selectedPackage : option PackageData;
  additionalServices : list ServiceLine;
  foodOrders : list FoodOrder;
  pricing : Pricing;
  payment : Payment;
  status : string;
  actualCheckIn : option Js.Date;
  actualCheckOut : option Js.Date;
  updatedAt : Js.Date
}.

Definition set_additionalServices (l : list ServiceLine) (b : t) : t :=
  mk (user b) (bookingNumber b) (room b) (checkInDate b) (checkOutDate b)
     (numberOfNights b) (selectedPackage b) l (foodOrders b) (pricing b)
     (payment b) (status b) (actualCheckIn b) (actualCheckOut b) (updatedAt b).

Definition set_foodOrders (l : list FoodOrder) (b : t) : t :=
  mk (user b) (bookingNumber b) (room b) (checkInDate b) (checkOutDate b)
     (numberOfNights b) (selectedPackage b) (additionalServices b) l
     (pricing b) (payment b) (status b) (actualCheckIn b) (actualCheckOut b)
     (updatedAt b).

Definition set_pricing (p : Pricing) (b : t) : t :=
  mk (user b) (bookingNumber b) (room b) (checkInDate b) (checkOutDate b)
     (numberOfNights b) (selectedPackage b) (additionalServices b)
     (foodOrders b) p (payment b) (status b) (actualCheckIn b)
     (actualCheckOut b) (updatedAt b).

Definition set_status (s : string) (b : t) : t :=
  mk (user b) (bookingNumber b) (room b) (checkInDate b) (checkOutDate b)
     (numberOfNights b) (selectedPackage b) (additionalServices b)
     (foodOrders b) (pricing b) (payment b) s (actualCheckIn b)
     (actualCheckOut b) (updatedAt b).

Definition set_actualCheckIn (d : Js.Date) (b : t) : t :=
  mk (user b) (bookingNumber b) (room b) (checkInDate b) (checkOutDate b)
     (numberOfNights b) (selectedPackage b) (additionalServices b)
     (foodOrders b) (pricing b) (payment b) (status b) (Some d)
     (actualCheckOut b) (updatedAt b).

Definition set_actualCheckOut (d : Js.Date) (b : t) : t :=
  mk (user b) (bookingNumber b) (room b) (checkInDate b) (checkOutDate b)
     (numberOfNights b) (selectedPackage b) (additionalServices b)
     (foodOrders b) (pricing b) (payment b) (status b) (actualCheckIn b)
     (Some d) (updatedAt b).

(** The pricing record that [calculateTotal] leaves in the booking. *)
Definition calculatePricing (b : t) : Pricing :=
  let roomTotal := (roomRate (pricing b) * inject_Z (numberOfNights b))%Q in
  let packageTotal := Js.or_default (packagePrice (pricing b)) 0%Q in
  let servicesTotal :=
    fold_left (fun sum service =>
                 (sum + servicePrice service * serviceQuantity service)%Q)
              (additionalServices b) 0%Q in
  let foodTotal :=
    fold_left (fun sum order => (sum + orderTotal order)%Q)
              (foodOrders b) 0%Q in
  let subtotal := (roomTotal + packageTotal + servicesTotal + foodTotal)%Q in
  let taxAmount := (subtotal * (18 # 100))%Q in
  let discountAmount := Js.or_default (discountAmount (pricing b)) 0%Q in
  mkPricing (roomRate (pricing b)) (packagePrice (pricing b))
            servicesTotal foodTotal taxAmount
            (Booking.discountAmount (pricing b))
            (subtotal + taxAmount - discountAmount)%Q.

(** [BookingSchema.methods.calculateTotal]: the booking after the call and
    the value the call returns. *)
Definition calculateTotal (b : t) : t * Q :=
  let p := calculatePricing b in
  (set_pricing p b, totalAmount p).

(** The values that the [enum] validators of the schema accept. *)
Definition serviceTypes : list string :=
  ["spa"; "gym"; "laundry"; "transport"; "tour"; "dining"; "other"].

Definition serviceStatuses : list string :=
  ["pending"; "confirmed"; "completed"; "cancelled"].

Definition orderTypes : list string :=
  ["room-service"; "restaurant"; "takeaway"].

Definition orderStatuses : list string :=
  ["ordered"; "preparing"; "ready"; "delivered"; "cancelled"].

Definition paymentStatuses : list string :=
  ["pending"; "paid"; "partially-paid"; "refunded"; "failed"].

Definition statuses : list string :=
  ["confirmed"; "checked-in"; "checked-out"; "cancelled"; "no-show"].

Definition validServiceLine (line : ServiceLine) : bool :=
  Js.includes serviceTypes (serviceType line)
  && Js.includes serviceStatuses (serviceStatus line).

Definition validFoodOrder (order : FoodOrder) : bool :=
  Js.enum orderTypes (orderType order)
  && Js.includes orderStatuses (orderStatus order).

(** The validators of the schema: the booking number is required, and the
    paths with an [enum] hold one of its values. *)
Definition validate (b : t) : bool :=
  Js.required (bookingNumber b)
  && forallb validServiceLine (additionalServices b)
  && forallb validFoodOrder (foodOrders b)
  && Js.includes paymentStatuses (paymentStatus (payment b))
  && Js.includes statuses (status b).

(** The [pre('save')] hooks of the schema that act on a document which has
    passed the validation: the time stamp and the number of nights.  The
    hook between the two gives a booking number to a new document that has
    none ([BookingNumber.generate] below); a document that has passed the
    validation has its number, so that hook finds nothing to do. *)
Definition pre_save (now : Js.Date) (b : t) : t :=
  let timeDiff := checkOutDate b - checkInDate b in
  mk (user b) (bookingNumber b) (room b) (checkInDate b) (checkOutDate b)
     (Js.ceil_div timeDiff (1000 * 3600 * 24))
     (selectedPackage b) (additionalServices b) (foodOrders b) (pricing b)
     (payment b) (status b) (actualCheckIn b) (actualCheckOut b) now.

(** The unique index on [bookingNumber]: another document on file carries
    the number of this one. *)
Definition numberTaken (b : t) (bookings : gmap string t) : bool :=
  existsb (fun entry =>
             bool_decide (bookingNumber (snd entry) = bookingNumber b))
          (map_to_list bookings).

(** [booking.save()], for a new document ([isNew]) and for one that was
    loaded from the store. *)
Definition save (isNew : bool) (now : Js.Date) (id : string) (b : t)
    (bookings : gmap string t) : option (gmap string t) :=
  if negb (validate b) then None
  else
    let b := pre_save now b in
    if isNew && numberTaken b bookings then None
    else Some (<[id := b]> bookings).

End Booking.

(** ** The authenticated principal of a request ([req.user]) *)

Record Principal := mkPrincipal {
  principalId : string;              (* _id *)
  role : string
}.

(** ** The booking controller *)

Module BookingController.

(** The collections the controller works on. *)
Record Db := mkDb {
  rooms : gmap string Room.t;
  packages : gmap string Package.t;
  services : gmap string Service.t;
  bookings : gmap string Booking.t
}.

Definition set_rooms (r : gmap string Room.t) (db : Db) : Db :=
  mkDb r (packages db) (services db) (bookings db).

Definition set_bookings (b : gmap string Booking.t) (db : Db) : Db :=
  mkDb (rooms db) (packages db) (services db) b.

(** An entry of [additionalServices] in the body of a creation request. *)
Record ServiceRequest := mkServiceRequest {
  serviceId : string;
  quantity : option Q;
  scheduledDate : option Js.Date;
  scheduledTime : option string
}.

(** The body of a creation request; both dates are well-formed. *)
Record CreateBody := mkCreateBody {
  roomId : string;
  checkInDate : Js.Date;
  checkOutDate : Js.Date;
  selectedPackage : option string;
  additionalServices : list ServiceRequest
}.

(** The package part of [createBooking]: the price and the snapshot. *)
Definition packageFor `{Calendar} (db : Db) (selected : option string)
    (checkIn : Js.Date) : Q * option Booking.PackageData :=
  match selected with
  | Some id =>
      match packages db !! id with
      | Some packageObj =>
          if Package.isAvailable packageObj checkIn then
            let packagePrice := Package.getSeasonalPrice packageObj checkIn in
            (packagePrice,
             Some (Booking.mkPackageData id (Package.name packageObj)
                     (Package.description packageObj) packagePrice))
          else (0%Q, None)
      | None => (0%Q, None)
      end
  | None => (0%Q, None)
  end.

(** The loop of [createBooking] over the requested services. *)
Fixpoint servicesWithPricing (db : Db) (requested : list ServiceRequest)
    : list Booking.ServiceLine :=
  match requested with
  | [] => []
  | service :: rest =>
      match services db !! serviceId service with
      | Some serviceObj =>
          if Service.isActive serviceObj then
            Booking.mkServiceLine (serviceId service)
              (Service.name serviceObj) (Service.category serviceObj)
              (Service.price serviceObj)
              (Js.opt_or_default (quantity service) 1%Q)
              (scheduledDate service) (scheduledTime service) "pending"
            :: servicesWithPricing db rest
          else servicesWithPricing db rest
      | None => servicesWithPricing db rest
      end
  end.

(** The document that [createBooking] builds for a request whose dates it
    has accepted, after [booking.calculateTotal()]: [new Booking({...})]
    with the defaults of the schema, and no booking number. *)
Definition newBooking `{Calendar} (now : Js.Date) (user : Principal)
    (body : CreateBody) (db : Db) (room : Room.t) : Booking.t :=
  let checkIn := checkInDate body in
  let checkOut := checkOutDate body in
  let numberOfNights :=
    Js.ceil_div (checkOut - checkIn) (1000 * 60 * 60 * 24) in
  let roomRate := Room.price room in
  let '(packagePrice, packageData) :=
    packageFor db (selectedPackage body) checkIn in
  let booking :=
    Booking.mk (principalId user) None (roomId body) checkIn checkOut
      numberOfNights packageData
      (servicesWithPricing db (additionalServices body)) []
      (Booking.mkPricing roomRate packagePrice 0 0 0 0 0)
      (Booking.mkPayment "pending" 0 0)
      "confirmed" None None now in
  fst (Booking.calculateTotal booking).

(** [createBooking].  [now] is the clock and [newId] the identifier the
    store gives to the new document. *)
Definition createBooking `{Calendar} (now : Js.Date) (newId : string)
    (user : Principal) (body : CreateBody) (db : Db) : Db * Response :=
  let checkIn := checkInDate body in
  let checkOut := checkOutDate body in
  let today := now in
  if checkIn <? today then
    (db, Failure 400 "Check-in date cannot be in the past")
  else if checkOut <=? checkIn then
    (db, Failure 400 "Check-out date must be after check-in date")
  else
    match Room.findById (rooms db) (roomId body) with
    | None => (db, Failure 404 "Room not found")
    | Some room =>
        if Js.lt (Room.available room) (Js.Int 1) then
          (db, Failure 400 "Room is not available")
        else
          let booking := newBooking now user body db (Room.paths room) in
          match Booking.save true now newId booking (bookings db) with
          | None => (db, Failure 500 "Failed to create booking")
          | Some saved =>
              let db := set_bookings saved db in
              let room :=
                Room.set_available
                  (Js.sub (Room.available room) (Js.Int 1)) room in
              match Room.save now (roomId body) room (rooms db) with
              | None => (db, Failure 500 "Failed to create booking")
              | Some saved =>
                  (set_rooms saved db,
                   Success 201 "Booking created successfully")
              end
          end
    end.

(** The access check shared by the handlers that a guest may call. *)
Definition denied (user : Principal) (booking : Booking.t) : bool :=
  String.eqb (role user) "user"
  && negb (String.eqb (Booking.user booking) (principalId user)).

(** The release of the room after a cancellation or a check-out:
    [room.available += 1] and [room.save()] when the room is on file. *)
Definition restoreRoom (now : Js.Date) (booking : Booking.t) (db : Db)
    : option Db :=
  match Room.findById (rooms db) (Booking.room booking) with
  | Some room =>
      let room :=
        Room.set_available (Js.add (Room.available room) (Js.Int 1)) room in
      match Room.save now (Booking.room booking) room (rooms db) with
      | Some saved => Some (set_rooms saved db)
      | None => None
      end
  | None => Some db
  end.

(** [cancelBooking] *)
Definition cancelBooking (now : Js.Date) (user : Principal) (id : string)
    (db : Db) : Db * Response :=
  match bookings db !! id with
  | None => (db, Failure 404 "Booking not found")
  | Some booking =>
      if denied user booking then (db, Failure 403 "Access denied")
      else if negb (Js.includes ["confirmed"; "checked-in"]
                                (Booking.status booking)) then
        (db, Failure 400 "Booking cannot be cancelled in current status")
      else
        let booking := Booking.set_status "cancelled" booking in
        match Booking.save false now id booking (bookings db) with
        | None => (db, Failure 500 "Failed to cancel booking")
        | Some saved =>
            let db := set_bookings saved db in
            match restoreRoom now booking db with
            | None => (db, Failure 500 "Failed to cancel booking")
            | Some db => (db, Success 200 "Booking cancelled successfully")
            end
        end
  end.

(** [checkInBooking] *)
Definition checkInBooking (now : Js.Date) (id : string) (db : Db)
    : Db * Response :=
  match bookings db !! id with
  | None => (db, Failure 404 "Booking not found")
  | Some booking =>
      if negb (String.eqb (Booking.status booking) "confirmed") then
        (db, Failure 400 "Booking must be confirmed to check in")
      else
        let booking := Booking.set_status "checked-in" booking in
        let booking := Booking.set_actualCheckIn now booking in
        match Booking.save false now id booking (bookings db) with
        | None => (db, Failure 500 "Failed to check in guest")
        | Some saved =>
            (set_bookings saved db, Success 200 "Guest checked in successfully")
        end
  end.

(** [checkOutBooking] *)
Definition checkOutBooking (now : Js.Date) (id : string) (db : Db)
    : Db * Response :=
  match bookings db !! id with
  | None => (db, Failure 404 "Booking not found")
  | Some booking =>
      if negb (String.eqb (Booking.status booking) "checked-in") then
        (db, Failure 400 "Guest must be checked in to check out")
      else
        let booking := Booking.set_status "checked-out" booking in
        let booking := Booking.set_actualCheckOut now booking in
        match Booking.save false now id booking (bookings db) with
        | None => (db, Failure 500 "Failed to check out guest")
        | Some saved =>
            let db := set_bookings saved db in
            match restoreRoom now booking db with
            | None => (db, Failure 500 "Failed to check out guest")
            | Some db => (db, Success 200 "Guest checked out successfully")
            end
        end
  end.

End BookingController.

(** ** Restaurant orders *)

Module Order.

Record Item := mkItem {
  menuItemId : string;
  name : string;
  price : Q;
  quantity : Q;
  category : string;
  subtotal : Q
}.

(** An order document.  The two time stamps that the persistence layer
    maintains by itself ([timestamps: true]) are not represented. *)
Record t := mk {
  orderId : string;
  customerId : string;
  customerEmail : string;            (* customerInfo.email *)
  customerName : string;             (* customerInfo.name *)
  customerRoom : option string;      (* customerInfo.roomNumber *)
  items : list Item;
  totalAmount : Q;
  tax : Q;
  deliveryFee : Q;
  finalAmount : Q;
  status : string;
  paymentStatus : string;
  paymentIntentId : string;
  stripePaymentId : option string;
  transactionId : option string;
  deliveryType : string;
  estimatedDeliveryTime : option Js.Date;
  actualDeliveryTime : option Js.Date;
  staffNotes : option string;
  assignedStaff : option string
}.

Definition set_status (s : string) (o : t) : t :=
  mk (orderId o) (customerId o) (customerEmail o) (customerName o)
     (customerRoom o) (items o) (totalAmount o) (tax o) (deliveryFee o)
     (finalAmount o) s (paymentStatus o) (paymentIntentId o)
     (stripePaymentId o) (transactionId o) (deliveryType o)
     (estimatedDeliveryTime o) (actualDeliveryTime o) (staffNotes o)
     (assignedStaff o).

Definition set_paymentStatus (s : string) (o : t) : t :=
  mk (orderId o) (customerId o) (customerEmail o) (customerName o)
     (customerRoom o) (items o) (totalAmount o) (tax o) (deliveryFee o)
     (finalAmount o) (status o) s (paymentIntentId o)
     (stripePaymentId o) (transactionId o) (deliveryType o)
     (estimatedDeliveryTime o) (actualDeliveryTime o) (staffNotes o)
     (assignedStaff o).

Definition set_paymentIntentId (s : string) (o : t) : t :=
  mk (orderId o) (customerId o) (customerEmail o) (customerName o)
     (customerRoom o) (items o) (totalAmount o) (tax o) (deliveryFee o)
     (finalAmount o) (status o) (paymentStatus o) s
     (stripePaymentId o) (transactionId o) (deliveryType o)
     (estimatedDeliveryTime o) (actualDeliveryTime o) (staffNotes o)
     (assignedStaff o).

Definition set_payment_ids (stripe txn : string) (o : t) : t :=
  mk (orderId o) (customerId o) (customerEmail o) (customerName o)
     (customerRoom o) (items o) (totalAmount o) (tax o) (deliveryFee o)
     (finalAmount o) (status o) (paymentStatus o) (paymentIntentId o)
     (Some stripe) (Some txn) (deliveryType o)
     (estimatedDeliveryTime o) (actualDeliveryTime o) (staffNotes o)
     (assignedStaff o).

Definition set_actualDeliveryTime (d : Js.Date) (o : t) : t :=
  mk (orderId o) (customerId o) (customerEmail o) (customerName o)
     (customerRoom o) (items o) (totalAmount o) (tax o) (deliveryFee o)
     (finalAmount o) (status o) (paymentStatus o) (paymentIntentId o)
     (stripePaymentId o) (transactionId o) (deliveryType o)
     (estimatedDeliveryTime o) (Some d) (staffNotes o) (assignedStaff o).

Definition set_staffNotes (n : string) (o : t) : t :=
  mk (orderId o) (customerId o) (customerEmail o) (customerName o)
     (customerRoom o) (items o) (totalAmount o) (tax o) (deliveryFee o)
     (finalAmount o) (status o) (paymentStatus o) (paymentIntentId o)
     (stripePaymentId o) (transactionId o) (deliveryType o)
     (estimatedDeliveryTime o) (actualDeliveryTime o) (Some n)
     (assignedStaff o).

Definition set_assignedStaff (s : string) (o : t) : t :=
  mk (orderId o) (customerId o) (customerEmail o) (customerName o)
     (customerRoom o) (items o) (totalAmount o) (tax o) (deliveryFee o)
     (finalAmount o) (status o) (paymentStatus o) (paymentIntentId o)
     (stripePaymentId o) (transactionId o) (deliveryType o)
     (estimatedDeliveryTime o) (actualDeliveryTime o) (staffNotes o)
     (Some s).

(** [item.subtotal = item.price * item.quantity] *)
Definition with_subtotal (item : Item) : Item :=
  mkItem (menuItemId item) (name item) (price item) (quantity item)
         (category item) (price item * quantity item)%Q.

(** The values that the [enum] validators of the schema accept. *)
Definition statuses : list string :=
  ["pending"; "confirmed"; "preparing"; "ready"; "out_for_delivery";
   "delivered"; "cancelled"].

Definition paymentStatuses : list string :=
  ["pending"; "processing"; "completed"; "failed"; "refunded"].

Definition deliveryTypes : list string :=
  ["room_service"; "pickup"; "dine_in"].

(** The validators of an entry of [items]: a name, a price and a subtotal
    of at least 0 and a quantity of at least 1. *)
Definition validItem (item : Item) : bool :=
  Js.nonEmpty (name item)
  && Qle_bool 0 (price item)
  && Qle_bool 1 (quantity item)
  && Qle_bool 0 (subtotal item).

(** The validators of the schema. *)
Definition validate (o : t) : bool :=
  Js.nonEmpty (orderId o)
  && Js.nonEmpty (customerEmail o)
  && Js.nonEmpty (customerName o)
  && forallb validItem (items o)
  && Qle_bool 0 (totalAmount o)
  && Qle_bool 0 (tax o)
  && Qle_bool 0 (deliveryFee o)
  && Qle_bool 0 (finalAmount o)
  && Js.includes statuses (status o)
  && Js.includes paymentStatuses (paymentStatus o)
  && Js.nonEmpty (paymentIntentId o)
  && Js.includes deliveryTypes (deliveryType o).

(** [orderSchema.pre('save')] *)
Definition pre_save (o : t) : t :=
  let items := map with_subtotal (items o) in
  let totalAmount :=
    fold_left (fun total item => (total + subtotal item)%Q) items 0%Q in
  let finalAmount := (totalAmount + tax o + deliveryFee o)%Q in
  mk (orderId o) (customerId o) (customerEmail o) (customerName o)
     (customerRoom o) items totalAmount (tax o) (deliveryFee o)
     finalAmount (status o) (paymentStatus o) (paymentIntentId o)
     (stripePaymentId o) (transactionId o) (deliveryType o)
     (estimatedDeliveryTime o) (actualDeliveryTime o) (staffNotes o)
     (assignedStaff o).

(** The unique indexes on [orderId] and [paymentIntentId]: the key of this
    document is in use, or a document on file carries its order identifier
    or its payment intent. *)
Definition taken (o : t) (orders : gmap string t) : bool :=
  match orders !! orderId o with
  | Some _ => true
  | None =>
      existsb (fun entry =>
                 String.eqb (orderId (snd entry)) (orderId o)
                 || String.eqb (paymentIntentId (snd entry))
                               (paymentIntentId o))
              (map_to_list orders)
  end.

(** [order.save()], for a new document ([isNew]) and for one that was
    loaded from the store; the collection is keyed by the unique
    [orderId].  The document in memory carries the effect of the hooks as
    well. *)
Definition save (isNew : bool) (o : t) (orders : gmap string t)
    : option (t * gmap string t) :=
  if negb (validate o) then None
  else
    let o := pre_save o in
    if isNew && taken o orders then None
    else Some (o, <[orderId o := o]> orders).

(** [orderSchema.methods.updateStatus] *)
Definition updateStatus (now : Js.Date) (newStatus : string) (o : t)
    (orders : gmap string t) : option (t * gmap string t) :=
  let o := set_status newStatus o in
  let o := if String.eqb newStatus "delivered"
           then set_actualDeliveryTime now o else o in
  save false o orders.

(** [orderSchema.methods.completePayment] *)
Definition completePayment (stripePaymentId transactionId : string) (o : t)
    (orders : gmap string t) : option (t * gmap string t) :=
  let o := set_paymentStatus "completed" o in
  let o := set_payment_ids stripePaymentId transactionId o in
  let o := set_status "confirmed" o in
  save false o orders.

End Order.

(** ** The payment service

    The Stripe client is an external collaborator: a call throws ([None])
    or answers. *)

Record PaymentIntent := mkPaymentIntent {
  intentId : string;                 (* id *)
  clientSecret : string
}.

Record Stripe := mkStripe {
  (* stripe.paymentIntents.create({ amount, currency, metadata }), with the
     order identifier of the metadata *)
  paymentIntentsCreate : Q -> string -> option PaymentIntent;
  (* stripe.paymentIntents.retrieve(id): the status of the intent *)
  paymentIntentsRetrieve : string -> option string
}.

Module PaymentService.

(** [createPaymentIntent(amount, 'inr', { orderId, ... })]: the amount is
    sent in hundredths; an error of the client is thrown again. *)
Definition createPaymentIntent (stripe : Stripe) (amount : Q)
    (orderId : string) : option PaymentIntent :=
  match paymentIntentsCreate stripe (amount * 100)%Q orderId with
  | Some paymentIntent =>
      Some (mkPaymentIntent (intentId paymentIntent)
              (clientSecret paymentIntent))
  | None => None
  end.

(** [confirmPayment(paymentIntentId)]: an error of the client is caught
    and answered with [false]. *)
Definition confirmPayment (stripe : Stripe) (paymentIntentId : string)
    : bool :=
  match paymentIntentsRetrieve stripe paymentIntentId with
  | Some status => String.eqb status "succeeded"
  | None => false
  end.

End PaymentService.

(** ** The order routes *)

Module OrderRoutes.

Record User := mkUser {
  email : string;
  firstName : string;
  lastName : string
}.

Record MenuItem := mkMenuItem {
  menuName : string;                 (* name *)
  menuPrice : Q;                     (* price *)
  menuCategory : string              (* category *)
}.

Record Db := mkDb {
  users : gmap string User;
  menuItems : gmap string MenuItem;
  orders : gmap string Order.t
}.

Definition set_orders (o : gmap string Order.t) (db : Db) : Db :=
  mkDb (users db) (menuItems db) o.

(** An entry of [items] in the body of an order request. *)
Record ItemRequest := mkItemRequest {
  itemId : string;                   (* id *)
  itemName : string;                 (* name *)
  itemQuantity : Q                   (* quantity *)
}.

(** The body of [POST /create-payment-intent].  [items] is [None] when the
    field is missing or is not an array, [totalAmount] when it is missing. *)
Record IntentBody := mkIntentBody {
  items : option (list ItemRequest);
  totalAmount : option Q;
  customerInfo : option (option string);   (* customerInfo.roomNumber *)
  deliveryType : option string
}.

(** The loop over the submitted items: the name of the first item that the
    catalog does not have, or the total and the order items. *)
Fixpoint priceItems (db : Db) (submitted : list ItemRequest)
    (calculatedTotal : Q) (orderItems : list Order.Item)
    : string + Q * list Order.Item :=
  match submitted with
  | [] => inr (calculatedTotal, orderItems)
  | item :: rest =>
      match menuItems db !! itemId item with
      | None => inl (itemName item)
      | Some menuItem =>
          let subtotal := (menuPrice menuItem * itemQuantity item)%Q in
          priceItems db rest (calculatedTotal + subtotal)%Q
            (orderItems ++
             [Order.mkItem (itemId item) (menuName menuItem)
                (menuPrice menuItem) (itemQuantity item)
                (menuCategory menuItem) subtotal])
      end
  end.

(** [Math.abs(calculatedTotal - totalAmount) > 0.01] *)
Definition mismatch (calculatedTotal totalAmount : Q) : bool :=
  negb (Qle_bool (Qabs (calculatedTotal - totalAmount)) (1 # 100)).

(** [POST /create-payment-intent].  [newOrderId] is the identifier that
    [Order.generateOrderId] draws. *)
Definition createPaymentIntentRoute (stripe : Stripe) (now : Js.Date)
    (newOrderId : string) (userId : string) (body : IntentBody) (db : Db)
    : Db * Response :=
  match items body with
  | None | Some [] => (db, Failure 400 "Invalid items data")
  | Some submitted =>
      match totalAmount body with
      | None => (db, Failure 400 "Invalid total amount")
      | Some totalAmount =>
          if Qle_bool totalAmount 0 then
            (db, Failure 400 "Invalid total amount")
          else
            match users db !! userId with
            | None => (db, Failure 404 "User not found")
            | Some user =>
                match priceItems db submitted 0%Q [] with
                | inl name =>
                    (db, Failure 400 ("Menu item " +:+ name +:+ " not found"))
                | inr (calculatedTotal, orderItems) =>
                    if mismatch calculatedTotal totalAmount then
                      (db, Failure 400 "Total amount mismatch")
                    else
                      let deliveryType :=
                        default "room_service" (deliveryType body) in
                      let tax :=
                        inject_Z (Js.round (totalAmount * (1 # 10))) in
                      let deliveryFee :=
                        if String.eqb deliveryType "room_service"
                        then 50%Q else 0%Q in
                      let finalAmount :=
                        (totalAmount + tax + deliveryFee)%Q in
                      match customerInfo body with
                      | None =>
                          (db, Failure 500 "Failed to create payment intent")
                      | Some roomNumber =>
                          let order :=
                            Order.mk newOrderId userId (email user)
                              (firstName user +:+ " " +:+ lastName user)
                              roomNumber orderItems calculatedTotal tax
                              deliveryFee finalAmount "pending" "pending" ""
                              None None deliveryType
                              (Some (now + 30 * 60 * 1000)) None None None in
                          match PaymentService.createPaymentIntent stripe
                                  finalAmount newOrderId with
                          | None =>
                              (db, Failure 500 "Failed to create payment intent")
                          | Some paymentIntent =>
                              let order :=
                                Order.set_paymentIntentId
                                  (intentId paymentIntent) order in
                              match Order.save true order (orders db) with
                              | None =>
                                  (db,
                                   Failure 500 "Failed to create payment intent")
                              | Some (_, saved) =>
                                  (set_orders saved db,
                                   Success 200 (clientSecret paymentIntent))
                              end
                          end
                      end
                end
            end
      end
  end.

(** [Order.findOne({ orderId })]: the document whose [orderId] field is
    the one asked for. *)
Definition findByOrderId (db : Db) (orderId : string) : option Order.t :=
  match orders db !! orderId with
  | Some order =>
      if String.eqb (Order.orderId order) orderId then Some order else None
  | None => None
  end.

(** [Order.findOne({ orderId, customerId: userId })] *)
Definition findOwn (db : Db) (orderId userId : string) : option Order.t :=
  match findByOrderId db orderId with
  | Some order =>
      if String.eqb (Order.customerId order) userId then Some order else None
  | None => None
  end.

(** A string of the request body that is present and not empty. *)
Definition truthy (s : option string) : option string :=
  match s with
  | Some "" => None
  | other => other
  end.

(** [POST /confirm-payment] *)
Definition confirmPaymentRoute (stripe : Stripe) (now : Js.Date)
    (userId : string) (paymentIntentId orderId : option string) (db : Db)
    : Db * Response :=
  match truthy paymentIntentId, truthy orderId with
  | Some paymentIntentId, Some orderId =>
      match findOwn db orderId userId with
      | None => (db, Failure 404 "Order not found or access denied")
      | Some order =>
          let paymentSucceeded :=
            PaymentService.confirmPayment stripe paymentIntentId in
          if negb paymentSucceeded then
            let order := Order.set_paymentStatus "failed" order in
            match Order.save false order (orders db) with
            | None => (db, Failure 500 "Failed to confirm payment")
            | Some (_, saved) =>
                (set_orders saved db,
                 Failure 400 "Payment verification failed")
            end
          else
            match Order.completePayment paymentIntentId
                    ("txn_" +:+ pretty now) order (orders db) with
            | None => (db, Failure 500 "Failed to confirm payment")
            | Some (_, saved) =>
                (set_orders saved db,
                 Success 200
                   "Payment successful! Your order has been confirmed.")
            end
      end
  | _, _ => (db, Failure 400 "Missing payment intent ID or order ID")
  end.

Definition validStatuses : list string :=
  ["pending"; "confirmed"; "preparing"; "ready"; "out_for_delivery";
   "delivered"; "cancelled"].

(** [PUT /:orderId/status] *)
Definition updateStatusRoute (now : Js.Date) (user : Principal)
    (orderId : string) (status : option string) (staffNotes : option string)
    (db : Db) : Db * Response :=
  if negb (Js.includes ["admin"; "staff"; "manager"] (role user)) then
    (db, Failure 403 "Access denied")
  else
    match status with
    | None => (db, Failure 400 "Invalid status")
    | Some status =>
        if negb (Js.includes validStatuses status) then
          (db, Failure 400 "Invalid status")
        else
          match findByOrderId db orderId with
          | None => (db, Failure 404 "Order not found")
          | Some order =>
              match Order.updateStatus now status order (orders db) with
              | None => (db, Failure 500 "Failed to update order status")
              | Some (order, saved) =>
                  let db := set_orders saved db in
                  let order :=
                    match truthy staffNotes with
                    | Some staffNotes => Order.set_staffNotes staffNotes order
                    | None => order
                    end in
                  let order :=
                    Order.set_assignedStaff (principalId user) order in
                  match Order.save false order (orders db) with
                  | None => (db, Failure 500 "Failed to update order status")
                  | Some (_, saved) =>
                      (set_orders saved db,
                       Success 200 ("Order status updated to " +:+ status))
                  end
              end
          end
    end.

(** [DELETE /:orderId] *)
Definition cancelRoute (userId orderId : string) (db : Db) : Db * Response :=
  match findOwn db orderId userId with
  | None => (db, Failure 404 "Order not found")
  | Some order =>
      if negb (Js.includes ["pending"; "confirmed"] (Order.status order)) then
        (db, Failure 400 "Cannot cancel order in current status")
      else
        let order := Order.set_status "cancelled" order in
        let order := Order.set_paymentStatus "refunded" order in
        match Order.save false order (orders db) with
        | None => (db, Failure 500 "Failed to cancel order")
        | Some (_, saved) =>
            (set_orders saved db, Success 200 "Order cancelled successfully")
        end
  end.

End OrderRoutes.


(** ** Line items of a booking *)

Module BookingLines.

(** The body of [POST /:id/services].  A missing [quantity] is 1. *)
Record ServiceBody := mkServiceBody {
  serviceId : string;
  quantity : option Q;
  scheduledDate : option Js.Date;
  scheduledTime : option string
}.

(** [addServiceToBooking] *)
Definition addServiceToBooking (now : Js.Date) (user : Principal)
    (id : string) (body : ServiceBody) (db : BookingController.Db)
    : BookingController.Db * Response :=
  match BookingController.bookings db !! id with
  | None => (db, Failure 404 "Booking not found")
  | Some booking =>
      if BookingController.denied user booking then
        (db, Failure 403 "Access denied")
      else
        match BookingController.services db !! serviceId body with
        | None => (db, Failure 404 "Service not found or not available")
        | Some service =>
            if negb (Service.isActive service) then
              (db, Failure 404 "Service not found or not available")
            else
              let newService :=
                Booking.mkServiceLine (serviceId body) (Service.name service)
                  (Service.category service) (Service.price service)
                  (default 1%Q (quantity body))
                  (scheduledDate body) (scheduledTime body) "pending" in
              let booking :=
                Booking.set_additionalServices
                  (Booking.additionalServices booking ++ [newService])
                  booking in
              let booking := fst (Booking.calculateTotal booking) in
              match Booking.save false now id booking
                      (BookingController.bookings db) with
              | None => (db, Failure 500 "Failed to add service to booking")
              | Some saved =>
                  (BookingController.set_bookings saved db,
                   Success 200 "Service added to booking")
              end
        end
  end.

(** The body of [POST /:id/food-orders]: the items, with the prices the
    caller states, and the kind of order, when the body states one. *)
Record FoodBody := mkFoodBody {
  items : list Booking.FoodItem;
  orderType : option string
}.

(** [items.reduce((sum, item) => sum + (item.price * item.quantity), 0)] *)
Definition foodAmount (items : list Booking.FoodItem) : Q :=
  fold_left (fun sum item =>
               (sum + Booking.itemPrice item * Booking.itemQuantity item)%Q)
            items 0%Q.

(** [addFoodOrder].  [uuid] is the identifier that [generateUUID] draws. *)
Definition addFoodOrder (now : Js.Date) (uuid : string) (user : Principal)
    (id : string) (body : FoodBody) (db : BookingController.Db)
    : BookingController.Db * Response :=
  match BookingController.bookings db !! id with
  | None => (db, Failure 404 "Booking not found")
  | Some booking =>
      if BookingController.denied user booking then
        (db, Failure 403 "Access denied")
      else
        let totalAmount := foodAmount (items body) in
        let foodOrder :=
          Booking.mkFoodOrder uuid (items body) (orderType body) "ordered"
            totalAmount in
        let booking :=
          Booking.set_foodOrders (Booking.foodOrders booking ++ [foodOrder])
            booking in
        let booking := fst (Booking.calculateTotal booking) in
        match Booking.save false now id booking
                (BookingController.bookings db) with
        | None => (db, Failure 500 "Failed to add food order")
        | Some saved =>
            (BookingController.set_bookings saved db,
             Success 200 "Food order added successfully")
        end
  end.

(** The fields of the body of [PUT /:id] that the controller copies, each
    with the type the schema gives it.  [specialRequests], the one field a
    guest may send, is not represented in the booking. *)
Record UpdateBody := mkUpdateBody {
  status : option string;
  actualCheckIn : option Js.Date;
  actualCheckOut : option Js.Date;
  pricing : option Booking.Pricing
}.

(** [Object.assign(booking, updates)] for the fields a staff member may
    send. *)
Definition assignStaffFields (body : UpdateBody) (booking : Booking.t)
    : Booking.t :=
  Booking.mk (Booking.user booking) (Booking.bookingNumber booking)
    (Booking.room booking)
    (Booking.checkInDate booking) (Booking.checkOutDate booking)
    (Booking.numberOfNights booking) (Booking.selectedPackage booking)
    (Booking.additionalServices booking) (Booking.foodOrders booking)
    (default (Booking.pricing booking) (pricing body))
    (Booking.payment booking)
    (default (Booking.status booking) (status body))
    (match actualCheckIn body with
     | Some d => Some d
     | None => Booking.actualCheckIn booking
     end)
    (match actualCheckOut body with
     | Some d => Some d
     | None => Booking.actualCheckOut booking
     end)
    (Booking.updatedAt booking).

(** [updateBooking] *)
Definition updateBooking (now : Js.Date) (user : Principal) (id : string)
    (body : UpdateBody) (db : BookingController.Db)
    : BookingController.Db * Response :=
  match BookingController.bookings db !! id with
  | None => (db, Failure 404 "Booking not found")
  | Some booking =>
      if BookingController.denied user booking then
        (db, Failure 403 "Access denied")
      else
        let updated :=
          if String.eqb (role user) "user" then
            if negb (String.eqb (Booking.status booking) "confirmed") then
              inl (Failure 400 "Cannot modify booking in current status")
            else inr booking
          else inr (assignStaffFields body booking) in
        match updated with
        | inl refusal => (db, refusal)
        | inr booking =>
            match Booking.save false now id booking
                    (BookingController.bookings db) with
            | None => (db, Failure 500 "Failed to update booking")
            | Some saved =>
                (BookingController.set_bookings saved db,
                 Success 200 "Booking updated successfully")
            end
        end
  end.

End BookingLines.

(** ** The virtual fields of a booking and of a room *)

Module BookingViews.

(** [BookingSchema.virtual('daysUntilCheckIn')] *)
Definition daysUntilCheckIn (today : Js.Date) (b : Booking.t) : Z :=
  let timeDiff := Booking.checkInDate b - today in
  Js.ceil_div timeDiff (1000 * 3600 * 24).

(** [BookingSchema.virtual('currentStatus')] *)
Definition currentStatus (today : Js.Date) (b : Booking.t) : string :=
  let checkIn := Booking.checkInDate b in
  let checkOut := Booking.checkOutDate b in
  if String.eqb (Booking.status b) "cancelled" then "cancelled"
  else if String.eqb (Booking.status b) "checked-out" then "completed"
  else if today <? checkIn then "upcoming"
  else if (today >=? checkIn) && (today <=? checkOut) then "current"
  else if (today >? checkOut) && String.eqb (Booking.status b) "confirmed"
  then "overdue"
  else Booking.status b.

(** [RoomSchema.virtual('bookingStatus')] *)
Definition bookingStatus (r : Room.t) : string :=
  if negb (Room.isAvailable r) then "unavailable"
  else if String.eqb (Room.maintenanceStatus r) "out_of_order"
  then "out_of_order"
  else if String.eqb (Room.maintenanceStatus r) "maintenance_required"
  then "maintenance"
  else "available".

End BookingViews.

(** ** The derived prices of a package *)

Module PackageViews.

(** [PackageSchema.virtual('savings')] *)
Definition savings (p : Package.t) : Q :=
  (Package.price p * (Package.discountPercentage p / 100))%Q.

End PackageViews.

(** ** The booking number *)

Module BookingNumber.

(** [s.slice(-n)]: the last [n] characters. *)
Definition sliceLast (n : nat) (s : string) : string :=
  String.substring (String.length s - n) n s.

(** ['0'] repeated [n] times. *)
Fixpoint zeros (n : nat) : string :=
  match n with
  | O => ""
  | S n' => "0" +:+ zeros n'
  end.

(** [s.padStart(w, '0')] *)
Definition padStart (w : nat) (s : string) : string :=
  zeros (w - String.length s) +:+ s.

(** The value of a decimal digit. *)
Definition digitValue (c : Ascii.ascii) : option Z :=
  let n := Z.of_N (Ascii.N_of_ascii c) in
  if (48 <=? n) && (n <=? 57) then Some (n - 48) else None.

(** The number that the leading decimal digits of [s] spell, after the
    digits read so far. *)
Fixpoint parseDigits (s : string) (acc : option Z) : option Z :=
  match s with
  | "" => acc
  | String c rest =>
      match digitValue c with
      | Some d => parseDigits rest (Some (10 * default 0 acc + d))
      | None => acc
      end
  end.

(** [parseInt(s)] on a string without sign or blank; [None] is [NaN]. *)
Definition parseInt (s : string) : option Z := parseDigits s None.

(** [n.toString()] *)
Definition toString (n : option Z) : string :=
  match n with
  | Some z => pretty z
  | None => "NaN"
  end.

(** The fields of [new Date()] in the time zone of the server. *)
Record LocalDate := mkLocalDate {
  getFullYear : Z;
  getMonth : Z;                      (* 0 for January *)
  getDate : Z
}.

(** [GH${year}${month}${day}] *)
Definition dayPrefix (date : LocalDate) : string :=
  let year := sliceLast 2 (pretty (getFullYear date)) in
  let month := padStart 2 (pretty (getMonth date + 1)) in
  let day := padStart 2 (pretty (getDate date)) in
  "GH" +:+ year +:+ month +:+ day.

(** The greater of two booking numbers in the order of the sort. *)
Definition later (a b : string) : string :=
  if String.ltb a b then b else a.

(** [findOne({ bookingNumber: /^prefix/ }).sort({ bookingNumber: -1 })]
    over the booking numbers on file. *)
Fixpoint lastBooking (prefix : string) (numbers : list string)
    : option string :=
  match numbers with
  | [] => None
  | number :: rest =>
      if String.prefix prefix number then
        match lastBooking prefix rest with
        | Some other => Some (later number other)
        | None => Some number
        end
      else lastBooking prefix rest
  end.

(** The number that the [pre('save')] hook gives to a new booking. *)
Definition generate (date : LocalDate) (numbers : list string) : string :=
  let prefix := dayPrefix date in
  let sequence :=
    match lastBooking prefix numbers with
    | Some last =>
        match parseInt (sliceLast 3 last) with
        | Some lastSequence => Some (lastSequence + 1)
        | None => None
        end
    | None => Some 1
    end in
  prefix +:+ padStart 3 (toString sequence).

End BookingNumber.

(** ** Authorization middleware *)

(** What a middleware does with a request: hand it on, or answer. *)
Inductive Middleware :=
| Next
| Reject (code : Z) (error : string).

Module Auth.

(** The names that every object inherits from [Object.prototype]: looking
    one of them up in [roleHierarchy] gives a function or an object, which
    no comparison with a number accepts. *)
Definition inherited : list string :=
  ["constructor"; "__defineGetter__"; "__defineSetter__"; "hasOwnProperty";
   "__lookupGetter__"; "__lookupSetter__"; "isPrototypeOf";
   "propertyIsEnumerable"; "toString"; "valueOf"; "__proto__";
   "toLocaleString"].

(** [roleHierarchy[role] || 0]; [None] when the value is not a number. *)
Definition level (role : string) : option Z :=
  if Js.includes inherited role then None
  else if String.eqb role "user" then Some 1
  else if String.eqb role "staff" then Some 2
  else if String.eqb role "manager" then Some 3
  else if String.eqb role "admin" then Some 4
  else if String.eqb role "ceo" then Some 5
  else Some 0.

(** [a >= b] *)
Definition geq (a b : option Z) : bool :=
  match a, b with
  | Some x, Some y => x >=? y
  | _, _ => false
  end.

(** [authorize(roles)]; the principal is missing when no authentication
    ran before. *)
Definition authorize (roles : list string) (user : option Principal)
    : Middleware :=
  match user with
  | None => Reject 401 "Authentication required"
  | Some user =>
      let allowedRoles := roles in
      let hasDirectRole := Js.includes allowedRoles (role user) in
      let userRoleLevel := level (role user) in
      let hasHigherRole :=
        existsb (fun role => geq userRoleLevel (level role)) allowedRoles in
      if negb hasDirectRole && negb hasHigherRole then
        Reject 403 "Not authorized to access this resource"
      else Next
  end.

Definition authorizeFinancialAccess := authorize ["ceo"].
Definition authorizeOperationalAccess := authorize ["manager"; "admin"; "ceo"].
Definition authorizeStaffManagement := authorize ["admin"; "ceo"].

(** [authorizeUserAccess]; [target] is [req.params.userId || req.params.id]. *)
Definition authorizeUserAccess (user : Principal) (target : option string)
    : Middleware :=
  let own :=
    match target with
    | Some t => String.eqb (principalId user) t
    | None => false
    end in
  if String.eqb (role user) "user" && negb own then
    Reject 403 "Can only access your own data"
  else if String.eqb (role user) "staff" && own then Next
  else if Js.includes ["manager"; "admin"; "ceo"] (role user) then Next
  else Next.

End Auth.

(** ** Upload middleware *)

Module Upload.

Record File := mkFile {
  mimetype : string;
  size : Z
}.

Inductive FileType := IMAGE | VIDEO.

(** [FILE_SIZE_LIMIT] *)
Definition FILE_SIZE_LIMIT (t : FileType) : Z :=
  match t with
  | IMAGE => 5 * 1024 * 1024
  | VIDEO => 10 * 1024 * 1024
  end.

(** [fileType.toLowerCase()] *)
Definition toLowerCase (t : FileType) : string :=
  match t with
  | IMAGE => "image"
  | VIDEO => "video"
  end.

Definition typeOf (file : File) : FileType :=
  if String.prefix "image/" (mimetype file) then IMAGE else VIDEO.

(** [fileFilter]: the type it records in the request, or the refusal. *)
Definition fileFilter (file : File) : string + FileType :=
  if negb (String.prefix "image/" (mimetype file))
     && negb (String.prefix "video/" (mimetype file))
  then inl "Only images and videos are allowed"
  else inr (typeOf file).

(** What [uploadToCloudinary] does: hand the request on with the URL of
    the stored file, or answer. *)
Inductive Outcome :=
| Stored (fileUrl : string)
| Refused (code : Z) (error : string).

(** [uploadToCloudinary].  [uploadFile] is the storage service, which may
    throw; [fileType] is what [fileFilter] recorded, if it ran. *)
Definition uploadToCloudinary (uploadFile : File -> option string)
    (fileType : option FileType) (file : option File) : Outcome :=
  match file with
  | None => Refused 400 "No file uploaded"
  | Some file =>
      let fileType := default (typeOf file) fileType in
      let maxSize := FILE_SIZE_LIMIT fileType in
      if size file >? maxSize then
        Refused 400
          ("File too large. " +:+ toLowerCase fileType
           +:+ " must be less than " +:+ pretty (maxSize / (1024 * 1024))
           +:+ "MB")
      else
        match uploadFile file with
        | Some fileUrl => Stored fileUrl
        | None => Refused 500 "Failed to upload file"
        end
  end.

End Upload.

(** ** Pagination of the booking list *)

Module Paging.

Record Pagination := mkPagination {
  page : Z;
  pages : Z;
  total : Z;
  hasNext : bool;
  hasPrev : bool
}.

(** The [pagination] object of [getAllBookings], for a positive limit. *)
Definition pagination (pageNum limitNum total : Z) : Pagination :=
  mkPagination pageNum (Js.ceil_div total limitNum) total
    (pageNum <? Js.ceil_div total limitNum) (pageNum >? 1).

(** [(pageNum - 1) * limitNum] *)
Definition skip (pageNum limitNum : Z) : Z := (pageNum - 1) * limitNum.

(** [.skip(skip).limit(limitNum)] over the bookings that match, in the
    order of the sort, for a page from 1 on and a positive limit. *)
Definition pageOf {A} (matching : list A) (pageNum limitNum : Z) : list A :=
  take (Z.to_nat limitNum) (drop (Z.to_nat (skip pageNum limitNum)) matching).

End Paging.

(** ** The booking routes

    A route runs [authorize] between the authentication and the handler;
    [user] is the principal that the authentication has established. *)

Module BookingRoutes.

(** A middleware in front of a handler. *)
Definition guarded {Db} (check : Middleware) (handler : Db -> Db * Response)
    (db : Db) : Db * Response :=
  match check with
  | Next => handler db
  | Reject code error => (db, Failure code error)
  end.

(** [router.post('/', auth, authorize(['user']), createBooking)] *)
Definition create `{Calendar} (now : Js.Date) (newId : string)
    (user : Principal) (body : BookingController.CreateBody)
    : BookingController.Db -> BookingController.Db * Response :=
  guarded (Auth.authorize ["user"] (Some user))
          (BookingController.createBooking now newId user body).

(** [router.put('/:id/check-in', auth,
    authorize(['staff', 'manager', 'admin']), checkInBooking)] *)
Definition checkIn (now : Js.Date) (user : Principal) (id : string)
    : BookingController.Db -> BookingController.Db * Response :=
  guarded (Auth.authorize ["staff"; "manager"; "admin"] (Some user))
          (BookingController.checkInBooking now id).

(** [router.put('/:id/check-out', auth,
    authorize(['staff', 'manager', 'admin']), checkOutBooking)] *)
Definition checkOut (now : Js.Date) (user : Principal) (id : string)
    : BookingController.Db -> BookingController.Db * Response :=
  guarded (Auth.authorize ["staff"; "manager"; "admin"] (Some user))
          (BookingController.checkOutBooking now id).

(** [router.put('/:id/cancel', auth, cancelBooking)] *)
Definition cancel (now : Js.Date) (user : Principal) (id : string)
    : BookingController.Db -> BookingController.Db * Response :=
  BookingController.cancelBooking now user id.

End BookingRoutes.

(** * Specification vocabulary *)

(** The sum of a list of amounts. *)
Definition sumQ (l : list Q) : Q := fold_right Qplus 0%Q l.

(** The total of a booking in the words of the pricing rule: room, package,
    services and food, marked up by 18%, less the discount. *)
Definition bookingSubtotal (b : Booking.t) : Q :=
  (Booking.roomRate (Booking.pricing b) * inject_Z (Booking.numberOfNights b)
   + Booking.packagePrice (Booking.pricing b)
   + sumQ (map (fun s => Booking.servicePrice s * Booking.serviceQuantity s)
               (Booking.additionalServices b))
   + sumQ (map Booking.orderTotal (Booking.foodOrders b)))%Q.

Definition bookingTotal (b : Booking.t) : Q :=
  (bookingSubtotal b * (118 # 100)
   - Booking.discountAmount (Booking.pricing b))%Q.

(** An order document as the hooks of a save leave it. *)
Definition persisted (o : Order.t) : Prop := Order.pre_save o = o.

(** Every stored order is as a save leaves it. *)
Definition all_persisted (db : OrderRoutes.Db) : Prop :=
  forall key o, OrderRoutes.orders db !! key = Some o -> persisted o.

(** The price of one submitted item in the catalog: the catalog price times
    the quantity asked for, when the catalog has the item. *)
Definition catalogLine (db : OrderRoutes.Db) (item : OrderRoutes.ItemRequest)
    : option Q :=
  match OrderRoutes.menuItems db !! OrderRoutes.itemId item with
  | Some menuItem =>
      Some (OrderRoutes.menuPrice menuItem * OrderRoutes.itemQuantity item)%Q
  | None => None
  end.

(** The total of the submitted items at catalog prices, when the catalog
    has them all. *)
Fixpoint catalogTotal (db : OrderRoutes.Db)
    (submitted : list OrderRoutes.ItemRequest) : option Q :=
  match submitted with
  | [] => Some 0%Q
  | item :: rest =>
      match catalogLine db item, catalogTotal db rest with
      | Some line, Some total => Some (line + total)%Q
      | _, _ => None
      end
  end.

(** The window of a season contains a date. *)
Definition inWindow (season : Package.Season) (date : Js.Date) : Prop :=
  exists s e,
    Package.seasonStart season = Some s
    /\ Package.seasonEnd season = Some e
    /\ s <= date <= e.

(** Two dates fall on the same calendar day. *)
Definition sameDay `{Calendar} (a b : Js.Date) : Prop :=
  toDateString a = toDateString b.

(** * Sample data *)

Module Sample.

(** Day [n] after the epoch, at midnight UTC. *)
Definition day (n : Z) : Js.Date := n * Js.msPerDay.

Definition guest : Principal := mkPrincipal "u1" "user".
Definition otherGuest : Principal := mkPrincipal "u2" "user".
Definition staff : Principal := mkPrincipal "s1" "staff".

(** Two rooms, at 2400 and at 5200 a night. *)
Definition room101 : Room.t :=
  Room.mk "101" "Deluxe" 2400 true "good" (day 0).

Definition room102 : Room.t :=
  Room.mk "102" "Suite" 5200 true "good" (day 0).

(** A stay of two nights in room 101 by the guest [u1], on file under a
    booking number, in a given status. *)
Definition booked (number status : string) : Booking.t :=
  Booking.mk "u1" (Some number) "r101" (day 20000) (day 20002) 2
    None [] []
    (Booking.mkPricing 2400 0 0 0 864 0 5664)
    (Booking.mkPayment "pending" 0 0)
    status None None (day 19990).

Definition stay : Booking.t := booked "GH240101001" "confirmed".

Definition stayIn (status : string) : Booking.t :=
  booked (if String.eqb status "checked-in" then "GH240101002"
          else if String.eqb status "checked-out" then "GH240101003"
          else "GH240101004")
         status.

Definition hotel : BookingController.Db :=
  BookingController.mkDb
    (<["r101" := room101]> (<["r102" := room102]> ∅))
    ∅ ∅
    (<["b1" := stay]> (<["b2" := stayIn "checked-in"]>
       (<["b3" := stayIn "checked-out"]> (<["b4" := stayIn "cancelled"]> ∅)))).

Definition twoNights (roomId : string) : BookingController.CreateBody :=
  BookingController.mkCreateBody roomId (day 20000) (day 20002) None [].


(** The restaurant: one customer, a short menu and two orders on file. *)
Definition tea : OrderRoutes.MenuItem :=
  OrderRoutes.mkMenuItem "Masala tea" 100 "beverages".

Definition thali : OrderRoutes.MenuItem :=
  OrderRoutes.mkMenuItem "Thali" 105 "mains".

Definition teaOrder (status : string) : Order.t :=
  Order.mk "ORD-1" "u1" "guest@example.com" "Asha Rao" (Some "101")
    [Order.mkItem "m1" "Masala tea" 100 2 "beverages" 200]
    200 20 50 270 status "pending" "pi_1" None None "room_service"
    (Some (day 20000)) None None None.

Definition restaurant (status : string) : OrderRoutes.Db :=
  OrderRoutes.mkDb
    (<["u1" := OrderRoutes.mkUser "guest@example.com" "Asha" "Rao"]> ∅)
    (<["m1" := tea]> (<["m2" := thali]> ∅))
    (<["ORD-1" := teaOrder status]> ∅).

(** A Stripe client that creates every intent, reports [pi_bad] as not
    paid, fails on [pi_down] and reports every other intent as
    succeeded. *)
Definition stripe : Stripe :=
  mkStripe
    (fun _ orderId => Some (mkPaymentIntent ("pi_" +:+ orderId) "secret"))
    (fun id =>
       if String.eqb id "pi_bad" then Some "requires_payment_method"
       else if String.eqb id "pi_down" then None
       else Some "succeeded").

(** One thali, with a total that the client states as 104.995. *)
Definition thaliBody : OrderRoutes.IntentBody :=
  OrderRoutes.mkIntentBody
    (Some [OrderRoutes.mkItemRequest "m2" "Thali" 1])
    (Some (104995 # 1000)) (Some (Some "101")) None.

(** Two teas, with a total that the client states as 150. *)
Definition cheapTeaBody : OrderRoutes.IntentBody :=
  OrderRoutes.mkIntentBody
    (Some [OrderRoutes.mkItemRequest "m1" "Masala tea" 2])
    (Some 150%Q) (Some (Some "101")) None.


(** A package at 1000 with 10% off, on offer from day 19000 to day 21000
    except on day 20000, with two overlapping seasons. *)
Definition monsoon : Package.Season :=
  Package.mkSeason "monsoon" (Some (day 19990)) (Some (day 20010)) (3 # 2).

Definition festival : Package.Season :=
  Package.mkSeason "festival" (Some (day 20005)) (Some (day 20020)) 2.

Definition getaway : Package.t :=
  Package.mk "Weekend getaway" "Two nights with breakfast" 1000 10
    [monsoon; festival] (Some (day 19000)) (Some (day 21000))
    [day 20000 + 3600000] true.

End Sample.

(** * Further vocabulary *)

(** The room of a booking, when it is on file, satisfies the room
    schema. *)
Definition roomReady (db : BookingController.Db) (booking : Booking.t)
    : Prop :=
  forall room,
    BookingController.rooms db !! Booking.room booking = Some room ->
    Room.validate room = true.

(** A room as the store holds it after a handler that ran at [now]: as it
    was, or as it was with a new time stamp. *)
Definition sameRoom (now : Js.Date) (before after : option Room.t) : Prop :=
  after = before \/ after = Room.pre_save now <$> before.

(** Every booking on file satisfies the booking schema. *)
Definition bookingsValid (db : BookingController.Db) : Prop :=
  forall id b,
    BookingController.bookings db !! id = Some b -> Booking.validate b = true.

(** Every room on file satisfies the room schema. *)
Definition roomsValid (db : BookingController.Db) : Prop :=
  forall id r,
    BookingController.rooms db !! id = Some r -> Room.validate r = true.

(** Every order on file satisfies the order schema. *)
Definition ordersValid (db : OrderRoutes.Db) : Prop :=
  forall key o,
    OrderRoutes.orders db !! key = Some o -> Order.validate o = true.

(** The statuses that the booking schema accepts. *)
Definition bookingStatuses : list string :=
  ["confirmed"; "checked-in"; "checked-out"; "cancelled"; "no-show"].

(** A service line is backed by an active service of the catalog, at the
    catalog price. *)
Definition backedLine (db : BookingController.Db) (line : Booking.ServiceLine)
    : Prop :=
  exists service,
    BookingController.services db !! Booking.serviceId line = Some service
    /\ Service.isActive service = true
    /\ Booking.servicePrice line = Service.price service
    /\ Booking.serviceName line = Service.name service.

(** The amount of a list of food items: price times quantity, summed. *)
Definition foodSum (items : list Booking.FoodItem) : Q :=
  sumQ (map (fun item => Booking.itemPrice item * Booking.itemQuantity item)%Q
            items).

(** The stored figures of a booking agree with its dates and its lines: the
    nights are the ceiling of the stay in days, the tax is 18% of the
    subtotal and the total is the one the pricing rule gives. *)
Definition upToDate (b : Booking.t) : Prop :=
  Booking.numberOfNights b
  = Js.ceil_div (Booking.checkOutDate b - Booking.checkInDate b) Js.msPerDay
  /\ (Booking.taxAmount (Booking.pricing b)
      == bookingSubtotal b * (18 # 100))%Q
  /\ (Booking.totalAmount (Booking.pricing b) == bookingTotal b)%Q.

Definition allUpToDate (db : BookingController.Db) : Prop :=
  forall id b, BookingController.bookings db !! id = Some b -> upToDate b.

(** The sequence part of a booking number. *)
Definition threeDigits (k : Z) : string :=
  BookingNumber.padStart 3 (pretty k).

(** The sequences from 0 to 999, for facts that are checked one by one. *)
Definition sequences : list Z := map Z.of_nat (seq 0 1000).

(** The roles of the hierarchy above the guest. *)
Definition deskRoles : list string := ["staff"; "manager"; "admin"; "ceo"].

(** The roles of the hierarchy. *)
Definition knownRoles : list string :=
  ["user"; "staff"; "manager"; "admin"; "ceo"].

(** * Further sample data *)

Module Scenario.

Definition spa : Service.t := Service.mk "Spa" "spa" 1500 true.
Definition closedGym : Service.t := Service.mk "Gym" "gym" 300 false.

(** The sample hotel with the getaway package and two services, one of
    them withdrawn. *)
Definition resort : BookingController.Db :=
  BookingController.mkDb
    (BookingController.rooms Sample.hotel)
    (<["p1" := Sample.getaway]> ∅)
    (<["s1" := spa]> (<["s2" := closedGym]> ∅))
    (BookingController.bookings Sample.hotel).

(** Two nights in room 101 from [checkIn] with the getaway package, the spa
    (no quantity stated), the withdrawn gym and a service that is not on
    file. *)
Definition packageStay (checkIn : Js.Date) : BookingController.CreateBody :=
  BookingController.mkCreateBody "r101" checkIn (checkIn + Sample.day 2)
    (Some "p1")
    [BookingController.mkServiceRequest "s1" None None None;
     BookingController.mkServiceRequest "s2" (Some 2%Q) None None;
     BookingController.mkServiceRequest "s9" (Some 1%Q) None None].

End Scenario.
(** * Properties *)

(** ** Arithmetic of the embedding *)

Lemma fold_left_sumQ {A} (f : A -> Q) (l : list A) (a : Q) :
  (fold_left (fun sum x => sum + f x) l a == a + sumQ (map f l))%Q.
Proof.
  revert a. induction l as [|x l IH]; intros a; simpl.
  - ring.
  - rewrite IH. unfold sumQ. ring.
Qed.

Lemma or_default_zero (x : Q) : (Js.or_default x 0 == x)%Q.
Proof.
  unfold Js.or_default. destruct (Qeq_bool x 0) eqn:E.
  - apply Qeq_bool_eq in E. symmetry. exact E.
  - reflexivity.
Qed.

(** ** Booking pricing *)

Lemma calculatePricing_tax (b : Booking.t) :
  (Booking.taxAmount (Booking.calculatePricing b)
   == bookingSubtotal b * (18 # 100))%Q.
Proof.
  unfold Booking.calculatePricing, bookingSubtotal. simpl.
  rewrite !fold_left_sumQ, or_default_zero. ring.
Qed.

Lemma calculatePricing_total (b : Booking.t) :
  (Booking.totalAmount (Booking.calculatePricing b) == bookingTotal b)%Q.
Proof.
  unfold Booking.calculatePricing, bookingTotal, bookingSubtotal. simpl.
  rewrite !fold_left_sumQ, !or_default_zero. ring.
Qed.

(** C1. [calculateTotal] stores in [pricing.totalAmount], and returns, the
    room rate times the nights plus the package price plus the services
    (price times quantity) plus the food orders, all marked up by 18%, minus
    the discount.  In particular a booking at 2400 a night for 2 nights with
    no package, service, food order or discount has a room total of 4800, a
    tax of 864 and a total of 5664. *)
Theorem calculateTotal_total (b : Booking.t) :
  let b' := fst (Booking.calculateTotal b) in
  (Booking.totalAmount (Booking.pricing b') == bookingTotal b)%Q
  /\ (snd (Booking.calculateTotal b) == bookingTotal b)%Q
  /\ ((Booking.roomRate (Booking.pricing b) == 2400)%Q ->
      Booking.numberOfNights b = 2 ->
      (Booking.packagePrice (Booking.pricing b) == 0)%Q ->
      Booking.additionalServices b = [] ->
      Booking.foodOrders b = [] ->
      (Booking.discountAmount (Booking.pricing b) == 0)%Q ->
      (Booking.roomRate (Booking.pricing b)
       * inject_Z (Booking.numberOfNights b) == 4800)%Q
      /\ (Booking.taxAmount (Booking.pricing b') == 864)%Q
      /\ (Booking.totalAmount (Booking.pricing b') == 5664)%Q).
Proof.
  cbn zeta. unfold Booking.calculateTotal. cbn [fst snd].
  replace (Booking.pricing (Booking.set_pricing (Booking.calculatePricing b) b))
    with (Booking.calculatePricing b) by reflexivity.
  split; [apply calculatePricing_total|].
  split; [apply calculatePricing_total|].
  intros Hrate Hnights Hpkg Hsvc Hfood Hdisc.
  rewrite calculatePricing_tax, calculatePricing_total.
  unfold bookingTotal, bookingSubtotal.
  rewrite Hsvc, Hfood, Hnights, Hrate, Hpkg, Hdisc. cbn [map sumQ fold_right].
  repeat split; reflexivity.
Qed.

Lemma calculateTotal_total_witness :
  (Booking.totalAmount
     (Booking.pricing (fst (Booking.calculateTotal Sample.stay))) == 5664)%Q.
Proof.
  destruct (calculateTotal_total Sample.stay) as (_ & _ & H).
  apply H; reflexivity.
Defined.

(** ** The number of nights *)

Lemma ceil_div_spec (a b : Z) :
  0 < b -> (Js.ceil_div a b - 1) * b < a <= Js.ceil_div a b * b.
Proof.
  intros Hb. unfold Js.ceil_div.
  pose proof (Z.div_mod (- a) b ltac:(lia)) as Hdm.
  pose proof (Z.mod_pos_bound (- a) b Hb) as Hm.
  nia.
Qed.

Lemma ceil_div_pos (a b : Z) : 0 < b -> 0 < a -> 1 <= Js.ceil_div a b.
Proof.
  intros Hb Ha. pose proof (ceil_div_spec a b Hb). nia.
Qed.

(** ** Saving a booking *)

Lemma booking_validate_iff (b : Booking.t) :
  Booking.validate b = true
  <-> Js.required (Booking.bookingNumber b) = true
      /\ forallb Booking.validServiceLine (Booking.additionalServices b) = true
      /\ forallb Booking.validFoodOrder (Booking.foodOrders b) = true
      /\ Js.includes Booking.paymentStatuses
           (Booking.paymentStatus (Booking.payment b)) = true
      /\ Js.includes Booking.statuses (Booking.status b) = true.
Proof. unfold Booking.validate. rewrite !andb_true_iff. tauto. Qed.

Lemma booking_save_loaded now id b bookings :
  Booking.validate b = true ->
  Booking.save false now id b bookings
  = Some (<[id := Booking.pre_save now b]> bookings).
Proof. intros Hv. unfold Booking.save. rewrite Hv. reflexivity. Qed.

Lemma booking_save_refused isNew now id b bookings :
  Booking.validate b = false -> Booking.save isNew now id b bookings = None.
Proof. intros Hv. unfold Booking.save. rewrite Hv. reflexivity. Qed.

Lemma booking_save_Some isNew now id b bookings saved :
  Booking.save isNew now id b bookings = Some saved ->
  Booking.validate b = true
  /\ saved = <[id := Booking.pre_save now b]> bookings.
Proof.
  unfold Booking.save. destruct (Booking.validate b); [|discriminate].
  cbn [negb]. destruct (isNew && _); [discriminate|].
  intros [= <-]. split; reflexivity.
Qed.

Lemma validate_set_status (s : string) (b : Booking.t) :
  Booking.validate b = true ->
  Js.includes Booking.statuses s = true ->
  Booking.validate (Booking.set_status s b) = true.
Proof.
  rewrite !booking_validate_iff. cbn [Booking.set_status Booking.bookingNumber
    Booking.additionalServices Booking.foodOrders Booking.payment
    Booking.status]. tauto.
Qed.

(** ** Saving a room *)

Lemma findById_Some rooms id room :
  Room.findById rooms id = Some room ->
  rooms !! id = Some (Room.paths room) /\ Room.available room = Js.Undefined.
Proof.
  unfold Room.findById. destruct (rooms !! id) as [r|]; [|discriminate].
  intros [= <-]. split; reflexivity.
Qed.

Lemma findById_lookup rooms id :
  Room.findById rooms id
  = (fun r => Room.mkDoc r Js.Undefined) <$> rooms !! id.
Proof. unfold Room.findById. destruct (rooms !! id); reflexivity. Qed.

Lemma restoreRoom_bookings now booking db db' :
  BookingController.restoreRoom now booking db = Some db' ->
  BookingController.bookings db' = BookingController.bookings db.
Proof.
  unfold BookingController.restoreRoom.
  destruct (Room.findById _ _) as [room|]; [|intros [= <-]; reflexivity].
  destruct (Room.save _ _ _ _); [|discriminate].
  intros [= <-]. reflexivity.
Qed.

Lemma restoreRoom_ready now booking db :
  roomReady db booking ->
  BookingController.restoreRoom now booking db
  = Some match BookingController.rooms db !! Booking.room booking with
         | Some room =>
             BookingController.set_rooms
               (<[Booking.room booking := Room.pre_save now room]>
                  (BookingController.rooms db)) db
         | None => db
         end.
Proof.
  intros Hready. unfold BookingController.restoreRoom, Room.findById.
  destruct (BookingController.rooms db !! Booking.room booking) as [room|] eqn:Hroom;
    [|reflexivity].
  unfold Room.save. cbn [Room.set_available Room.paths].
  rewrite (Hready room Hroom). reflexivity.
Qed.

(** ** Booking creation *)

Section CreateBooking.

Context `{Calendar}.

Import BookingController.

Lemma createBooking_rejects_dates now newId user body db :
  checkOutDate body <= checkInDate body ->
  exists msg, createBooking now newId user body db = (db, Failure 400 msg).
Proof.
  intros Hle. unfold createBooking.
  destruct (checkInDate body <? now); [eauto|].
  destruct (Z.leb_spec (checkOutDate body) (checkInDate body)); [eauto|lia].
Qed.

Lemma createBooking_rejects_past now newId user body db :
  checkInDate body < now ->
  createBooking now newId user body db
  = (db, Failure 400 "Check-in date cannot be in the past").
Proof.
  intros Hlt. unfold createBooking.
  destruct (Z.ltb_spec (checkInDate body) now); [reflexivity|lia].
Qed.

(** The document of a creation carries no booking number, and the
    validation refuses it. *)
Lemma newBooking_unnumbered now user body db room :
  Booking.bookingNumber (newBooking now user body db room) = None.
Proof.
  unfold newBooking.
  destruct (packageFor db (selectedPackage body) (checkInDate body)).
  reflexivity.
Qed.

Lemma newBooking_refused now user body db room :
  Booking.validate (newBooking now user body db room) = false.
Proof.
  unfold Booking.validate. rewrite newBooking_unnumbered. reflexivity.
Qed.

(** A request whose dates are accepted, for a room on file, reaches the
    save, which throws. *)
Lemma createBooking_accepted now newId user body db room :
  now <= checkInDate body < checkOutDate body ->
  rooms db !! roomId body = Some room ->
  createBooking now newId user body db
  = (db, Failure 500 "Failed to create booking").
Proof.
  intros [H1 H2] Hroom. unfold createBooking.
  destruct (Z.ltb_spec (checkInDate body) now); [lia|].
  destruct (Z.leb_spec (checkOutDate body) (checkInDate body)); [lia|].
  unfold Room.findById. rewrite Hroom. cbn [Room.available Js.lt Room.paths].
  rewrite booking_save_refused by apply newBooking_refused.
  reflexivity.
Qed.

Lemma createBooking_no_room now newId user body db :
  now <= checkInDate body < checkOutDate body ->
  rooms db !! roomId body = None ->
  createBooking now newId user body db = (db, Failure 404 "Room not found").
Proof.
  intros [H1 H2] Hroom. unfold createBooking.
  destruct (Z.ltb_spec (checkInDate body) now); [lia|].
  destruct (Z.leb_spec (checkOutDate body) (checkInDate body)); [lia|].
  unfold Room.findById. rewrite Hroom. reflexivity.
Qed.

(** The four answers of a creation, none of which changes the store. *)
Lemma createBooking_answers now newId user body db :
  let result := createBooking now newId user body db in
  fst result = db
  /\ In (snd result)
       [Failure 400 "Check-in date cannot be in the past";
        Failure 400 "Check-out date must be after check-in date";
        Failure 404 "Room not found";
        Failure 500 "Failed to create booking"].
Proof.
  cbn zeta.
  destruct (Z.lt_ge_cases (checkInDate body) now) as [Hpast|Hfut].
  { rewrite createBooking_rejects_past by exact Hpast. cbn. auto. }
  destruct (Z.le_gt_cases (checkOutDate body) (checkInDate body)) as [Hord|Hord].
  { unfold createBooking.
    destruct (Z.ltb_spec (checkInDate body) now); [lia|].
    destruct (Z.leb_spec (checkOutDate body) (checkInDate body)); [|lia].
    cbn. auto. }
  destruct (rooms db !! roomId body) as [room|] eqn:Hroom.
  - rewrite (createBooking_accepted now newId user body db room)
      by (try split; assumption || lia). cbn. auto 6.
  - rewrite createBooking_no_room by (try split; assumption || lia).
    cbn. auto.
Qed.

End CreateBooking.

(** C8. The booking document of a creation has [numberOfNights] equal to
    the ceiling of the length of the stay over 86400000 ms, which is at
    least 1, and the save hook computes the same number again; a request
    whose check-out date is not strictly after its check-in date is
    answered with 400 and nothing is persisted.  Every save that stores a
    booking stores it with the number of nights that is the ceiling of the
    length of its stay, and a save of a document that satisfies the schema
    does store it. *)
Theorem createBooking_nights `{Calendar} (now : Js.Date) (newId : string)
    (user : Principal) (body : BookingController.CreateBody)
    (db : BookingController.Db) :
  let result := BookingController.createBooking now newId user body db in
  let stay := BookingController.checkOutDate body
              - BookingController.checkInDate body in
  (stay <= 0 -> fst result = db /\ code_of (snd result) = 400)
  /\ (0 < stay ->
      forall room,
        let b := BookingController.newBooking now user body db room in
        Booking.checkOutDate b - Booking.checkInDate b = stay
        /\ (Booking.numberOfNights b - 1) * 86400000 < stay
           <= Booking.numberOfNights b * 86400000
        /\ 1 <= Booking.numberOfNights b
        /\ Booking.numberOfNights (Booking.pre_save now b)
           = Booking.numberOfNights b)
  /\ (forall isNew id b bookings saved,
        Booking.save isNew now id b bookings = Some saved ->
        exists b',
          saved !! id = Some b'
          /\ Booking.checkInDate b' = Booking.checkInDate b
          /\ Booking.checkOutDate b' = Booking.checkOutDate b
          /\ (Booking.numberOfNights b' - 1) * 86400000
             < Booking.checkOutDate b' - Booking.checkInDate b'
             <= Booking.numberOfNights b' * 86400000)
  /\ (forall id b bookings,
        Booking.validate b = true ->
        is_Some (Booking.save false now id b bookings)).
Proof.
  cbn zeta. split; [|split; [|split]].
  - intros Hle.
    destruct (createBooking_rejects_dates now newId user body db) as [msg ->];
      [lia|]. split; reflexivity.
  - intros Hpos room.
    pose proof (ceil_div_spec (BookingController.checkOutDate body
                               - BookingController.checkInDate body)
                  86400000 ltac:(lia)) as Hc.
    unfold BookingController.newBooking.
    destruct (BookingController.packageFor db
                (BookingController.selectedPackage body)
                (BookingController.checkInDate body)) as [price data].
    cbn [fst Booking.calculateTotal Booking.set_pricing Booking.checkOutDate
         Booking.checkInDate Booking.numberOfNights Booking.pre_save].
    change (1000 * 60 * 60 * 24) with 86400000.
    change (1000 * 3600 * 24) with 86400000.
    split; [reflexivity|]. split; [exact Hc|].
    split; [apply ceil_div_pos; lia|reflexivity].
  - intros isNew id b bookings saved Hsave.
    apply booking_save_Some in Hsave. destruct Hsave as [_ ->].
    eexists. split; [apply lookup_insert_eq|].
    cbn [Booking.pre_save Booking.checkInDate Booking.checkOutDate
         Booking.numberOfNights].
    split; [reflexivity|]. split; [reflexivity|].
    change (1000 * 3600 * 24) with 86400000.
    apply ceil_div_spec; lia.
  - intros id b bookings Hv. rewrite booking_save_loaded by exact Hv. eauto.
Qed.

Lemma createBooking_nights_witness :
  Booking.numberOfNights
    (BookingController.newBooking (H := Utc.calendar) (Sample.day 19999)
       Sample.guest (Sample.twoNights "r101") Sample.hotel Sample.room101)
  = 2
  /\ is_Some (Booking.save false (Sample.day 19999) "b1" Sample.stay
                (BookingController.bookings Sample.hotel)).
Proof.
  destruct (createBooking_nights (H := Utc.calendar) (Sample.day 19999) "b9"
              Sample.guest (Sample.twoNights "r101") Sample.hotel)
    as (_ & Hn & _ & Hs).
  split.
  - destruct (Hn ltac:(vm_compute; reflexivity) Sample.room101)
      as (_ & Hb & _).
    set (n := Booking.numberOfNights _) in *.
    cbn [BookingController.checkOutDate BookingController.checkInDate
         Sample.twoNights] in Hb.
    unfold Sample.day, Js.msPerDay in Hb. lia.
  - apply Hs. reflexivity.
Defined.

(** ** The availability guard *)

(** C2, as the controller behaves.  A creation never answers 'Room is not
    available' and never answers 201: the guard compares a property that
    the room schema does not declare, and the document that reaches the
    save has no booking number.  A request whose dates are accepted, for a
    room on file, is answered with 500; whatever the answer, the store is
    left as it was, so no booking is created and no room is written. *)
Theorem createBooking_never_reserves `{Calendar} (now : Js.Date)
    (newId : string) (user : Principal) (body : BookingController.CreateBody)
    (db : BookingController.Db) :
  let result := BookingController.createBooking now newId user body db in
  fst result = db
  /\ snd result <> Failure 400 "Room is not available"
  /\ code_of (snd result) <> 201
  /\ (now <= BookingController.checkInDate body
          < BookingController.checkOutDate body ->
      is_Some (BookingController.rooms db !! BookingController.roomId body) ->
      snd result = Failure 500 "Failed to create booking")
  /\ (forall room,
        Room.findById (BookingController.rooms db)
          (BookingController.roomId body) = Some room ->
        Js.lt (Room.available room) (Js.Int 1) = false
        /\ Js.sub (Room.available room) (Js.Int 1) = Js.NaN).
Proof.
  cbn zeta.
  destruct (createBooking_answers now newId user body db) as [Hdb Hans].
  split; [exact Hdb|]. split; [|split; [|split]].
  - cbn [In] in Hans.
    destruct Hans as [<-|[<-|[<-|[<-|[]]]]]; discriminate.
  - cbn [In] in Hans.
    destruct Hans as [<-|[<-|[<-|[<-|[]]]]]; discriminate.
  - intros Hacc [room Hroom].
    rewrite (createBooking_accepted now newId user body db room Hacc Hroom).
    reflexivity.
  - intros room Hfind. apply findById_Some in Hfind.
    destruct Hfind as [_ ->]. split; reflexivity.
Qed.

Lemma createBooking_never_reserves_witness :
  BookingController.createBooking (H := Utc.calendar) (Sample.day 19999) "b9"
    Sample.guest (Sample.twoNights "r101") Sample.hotel
  = (Sample.hotel, Failure 500 "Failed to create booking").
Proof.
  pose proof (createBooking_never_reserves (H := Utc.calendar)
                (Sample.day 19999) "b9" Sample.guest
                (Sample.twoNights "r101") Sample.hotel)
    as (Hdb & _ & _ & Hans & _).
  apply injective_projections; cbn [fst snd].
  - exact Hdb.
  - apply Hans.
    + vm_compute. split; [discriminate|reflexivity].
    + eexists. reflexivity.
Defined.

(** ** Cancellation *)

Lemma includes_cancellable (s : string) :
  Js.includes ["confirmed"; "checked-in"] s = true
  <-> s = "confirmed" \/ s = "checked-in".
Proof.
  unfold Js.includes. cbn [existsb]. rewrite !orb_true_iff, !String.eqb_eq.
  intuition discriminate.
Qed.

(** A cancellation that is let through stores the booking as cancelled;
    the answer is 200 when the save of the room goes through. *)
Lemma cancelBooking_accepted now user id db booking :
  BookingController.bookings db !! id = Some booking ->
  BookingController.denied user booking = false ->
  Js.includes ["confirmed"; "checked-in"] (Booking.status booking) = true ->
  Booking.validate booking = true ->
  let result := BookingController.cancelBooking now user id db in
  BookingController.bookings (fst result)
  = <[id := Booking.pre_save now (Booking.set_status "cancelled" booking)]>
      (BookingController.bookings db)
  /\ (roomReady db booking ->
      result
      = (match BookingController.rooms db !! Booking.room booking with
         | Some room =>
             BookingController.set_rooms
               (<[Booking.room booking := Room.pre_save now room]>
                  (BookingController.rooms db))
               (BookingController.set_bookings
                  (<[id := Booking.pre_save now
                             (Booking.set_status "cancelled" booking)]>
                     (BookingController.bookings db)) db)
         | None =>
             BookingController.set_bookings
               (<[id := Booking.pre_save now
                          (Booking.set_status "cancelled" booking)]>
                  (BookingController.bookings db)) db
         end,
         Success 200 "Booking cancelled successfully")).
Proof.
  intros Hb Hd Hs Hv. cbn zeta. unfold BookingController.cancelBooking.
  rewrite Hb, Hd, Hs. cbn [negb].
  rewrite booking_save_loaded by (apply validate_set_status; [exact Hv|reflexivity]).
  split.
  - destruct (BookingController.restoreRoom _ _ _) as [db'|] eqn:Hrestore;
      cbn [fst]; [|reflexivity].
    apply restoreRoom_bookings in Hrestore. exact Hrestore.
  - intros Hready. rewrite restoreRoom_ready by exact Hready.
    cbn [BookingController.rooms BookingController.set_bookings
         Booking.room Booking.set_status].
    destruct (BookingController.rooms db !! Booking.room booking); reflexivity.
Qed.

Lemma cancelBooking_refused now user id db booking :
  BookingController.bookings db !! id = Some booking ->
  Js.includes ["confirmed"; "checked-in"] (Booking.status booking) = false ->
  BookingController.cancelBooking now user id db
  = (db, if BookingController.denied user booking
         then Failure 403 "Access denied"
         else Failure 400 "Booking cannot be cancelled in current status").
Proof.
  intros Hb Hs. unfold BookingController.cancelBooking. rewrite Hb, Hs.
  destruct (BookingController.denied user booking); reflexivity.
Qed.

(** C3, as the controller implements it.  For a booking on file that
    satisfies its schema and whose status is confirmed or checked-in, a
    cancellation that the access check lets through stores the booking with
    the status cancelled and with the payment sub-record as it was; it is
    answered with 200 when the room of the booking, if it is on file,
    satisfies its schema. *)
Theorem cancelBooking_cancels (now : Js.Date) (user : Principal) (id : string)
    (db : BookingController.Db) (booking : Booking.t) :
  let result := BookingController.cancelBooking now user id db in
  BookingController.bookings db !! id = Some booking ->
  BookingController.denied user booking = false ->
  Booking.status booking = "confirmed"
  \/ Booking.status booking = "checked-in" ->
  Booking.validate booking = true ->
  (exists booking',
     BookingController.bookings (fst result) !! id = Some booking'
     /\ Booking.status booking' = "cancelled"
     /\ Booking.payment booking' = Booking.payment booking)
  /\ (roomReady db booking -> code_of (snd result) = 200).
Proof.
  cbn zeta. intros Hb Hd Hs Hv. apply includes_cancellable in Hs.
  destruct (cancelBooking_accepted now user id db booking Hb Hd Hs Hv)
    as [Hsaved Hok].
  split.
  - rewrite Hsaved. eexists. split; [apply lookup_insert_eq|].
    split; reflexivity.
  - intros Hready. rewrite (Hok Hready). reflexivity.
Qed.

Lemma sample_rooms_ready (booking : Booking.t) :
  roomReady Sample.hotel booking.
Proof.
  intros room. unfold Sample.hotel. cbn [BookingController.rooms].
  rewrite !lookup_insert, lookup_empty.
  repeat case_decide; intros [= <-]; reflexivity.
Qed.

Lemma cancelBooking_cancels_witness :
  code_of (snd (BookingController.cancelBooking (Sample.day 19999)
                  Sample.guest "b1" Sample.hotel)) = 200.
Proof.
  refine (proj2
    (cancelBooking_cancels (Sample.day 19999) Sample.guest "b1" Sample.hotel
       Sample.stay _ _ _ _) _).
  - reflexivity.
  - reflexivity.
  - left. reflexivity.
  - reflexivity.
  - apply sample_rooms_ready.
Defined.

(** C3, as stated, fails: the confirmed booking [b1] is cancelled by its
    guest, and its payment is still pending afterwards, not refunded. *)
Lemma cancelBooking_not_refunded :
  let result :=
    BookingController.cancelBooking (Sample.day 19999) Sample.guest "b1"
      Sample.hotel in
  BookingController.bookings Sample.hotel !! "b1" = Some Sample.stay
  /\ Booking.status Sample.stay = "confirmed"
  /\ snd result = Success 200 "Booking cancelled successfully"
  /\ exists booking',
       BookingController.bookings (fst result) !! "b1" = Some booking'
       /\ Booking.status booking' = "cancelled"
       /\ Booking.paymentStatus (Booking.payment booking') = "pending"
       /\ Booking.paymentStatus (Booking.payment booking') <> "refunded".
Proof.
  cbn zeta. split; [reflexivity|]. split; [reflexivity|].
  split; [vm_compute; reflexivity|].
  exists (Booking.pre_save (Sample.day 19999)
            (Booking.set_status "cancelled" Sample.stay)).
  split; [vm_compute; reflexivity|].
  split; [reflexivity|]. split; [reflexivity|discriminate].
Qed.

(** ** The life cycle of a booking *)

Lemma checkInBooking_refused now id db booking :
  BookingController.bookings db !! id = Some booking ->
  Booking.status booking <> "confirmed" ->
  BookingController.checkInBooking now id db
  = (db, Failure 400 "Booking must be confirmed to check in").
Proof.
  intros Hb Hs. unfold BookingController.checkInBooking. rewrite Hb.
  apply String.eqb_neq in Hs. rewrite Hs. reflexivity.
Qed.

Lemma checkOutBooking_refused now id db booking :
  BookingController.bookings db !! id = Some booking ->
  Booking.status booking <> "checked-in" ->
  BookingController.checkOutBooking now id db
  = (db, Failure 400 "Guest must be checked in to check out").
Proof.
  intros Hb Hs. unfold BookingController.checkOutBooking. rewrite Hb.
  apply String.eqb_neq in Hs. rewrite Hs. reflexivity.
Qed.

Lemma checkInBooking_accepted now id db booking :
  BookingController.bookings db !! id = Some booking ->
  Booking.status booking = "confirmed" ->
  BookingController.checkInBooking now id db
  = if Booking.validate booking then
      (BookingController.set_bookings
         (<[id := Booking.pre_save now
                    (Booking.set_actualCheckIn now
                       (Booking.set_status "checked-in" booking))]>
            (BookingController.bookings db)) db,
       Success 200 "Guest checked in successfully")
    else (db, Failure 500 "Failed to check in guest").
Proof.
  intros Hb Hs. unfold BookingController.checkInBooking. rewrite Hb, Hs.
  cbn [String.eqb Ascii.eqb Bool.eqb negb].
  destruct (Booking.validate booking) eqn:Hv.
  - rewrite booking_save_loaded; [reflexivity|].
    apply (validate_set_status "checked-in" booking Hv). reflexivity.
  - rewrite booking_save_refused; [reflexivity|].
    apply not_true_is_false. intros Hv'. apply booking_validate_iff in Hv'.
    cbn [Booking.set_actualCheckIn Booking.set_status Booking.bookingNumber
         Booking.additionalServices Booking.foodOrders Booking.payment
         Booking.status] in Hv'.
    assert (Booking.validate booking = true); [|congruence].
    apply booking_validate_iff. rewrite Hs. intuition.
Qed.

(** A check-out that is let through stores the booking as checked-out; the
    answer is 200 when the save of the room goes through. *)
Lemma checkOutBooking_accepted now id db booking :
  BookingController.bookings db !! id = Some booking ->
  Booking.status booking = "checked-in" ->
  Booking.validate booking = true ->
  let result := BookingController.checkOutBooking now id db in
  let booking' :=
    Booking.pre_save now
      (Booking.set_actualCheckOut now
         (Booking.set_status "checked-out" booking)) in
  BookingController.bookings (fst result)
  = <[id := booking']> (BookingController.bookings db)
  /\ (roomReady db booking ->
      result
      = (match BookingController.rooms db !! Booking.room booking with
         | Some room =>
             BookingController.set_rooms
               (<[Booking.room booking := Room.pre_save now room]>
                  (BookingController.rooms db))
               (BookingController.set_bookings
                  (<[id := booking']> (BookingController.bookings db)) db)
         | None =>
             BookingController.set_bookings
               (<[id := booking']> (BookingController.bookings db)) db
         end,
         Success 200 "Guest checked out successfully")).
Proof.
  intros Hb Hs Hv. cbn zeta. unfold BookingController.checkOutBooking.
  rewrite Hb, Hs. cbn [String.eqb Ascii.eqb Bool.eqb negb].
  rewrite booking_save_loaded
    by (apply (validate_set_status "checked-out" booking Hv); reflexivity).
  split.
  - destruct (BookingController.restoreRoom _ _ _) as [db'|] eqn:Hrestore;
      cbn [fst]; [|reflexivity].
    apply restoreRoom_bookings in Hrestore. exact Hrestore.
  - intros Hready. rewrite restoreRoom_ready by exact Hready.
    cbn [BookingController.rooms BookingController.set_bookings
         Booking.room Booking.set_status Booking.set_actualCheckOut].
    destruct (BookingController.rooms db !! Booking.room booking); reflexivity.
Qed.

Lemma checkOutBooking_unsaved now id db booking :
  BookingController.bookings db !! id = Some booking ->
  Booking.status booking = "checked-in" ->
  Booking.validate booking = false ->
  BookingController.checkOutBooking now id db
  = (db, Failure 500 "Failed to check out guest").
Proof.
  intros Hb Hs Hv. unfold BookingController.checkOutBooking.
  rewrite Hb, Hs. cbn [String.eqb Ascii.eqb Bool.eqb negb].
  rewrite booking_save_refused; [reflexivity|].
  apply not_true_is_false. intros Hv'. apply booking_validate_iff in Hv'.
  cbn [Booking.set_actualCheckOut Booking.set_status Booking.bookingNumber
       Booking.additionalServices Booking.foodOrders Booking.payment
       Booking.status] in Hv'.
  assert (Booking.validate booking = true); [|congruence].
  apply booking_validate_iff. rewrite Hs. intuition.
Qed.

(** C4. Check-in succeeds exactly from confirmed and is refused with 400
    from every other status, cancelled included; check-out succeeds exactly
    from checked-in and is refused with 400 from every other status,
    confirmed included; a cancellation from checked-out (or any status other
    than confirmed and checked-in) is refused.  A refused request leaves the
    store, and so the booking, as it was.  The bookings and rooms on file
    satisfy their schemas, as every document written through them does; a
    booking that does not is not saved, and the store is left as it was
    with the answer 500. *)
Theorem booking_transitions (now : Js.Date) (user : Principal) (id : string)
    (db : BookingController.Db) (booking : Booking.t) :
  let checkedIn := BookingController.checkInBooking now id db in
  let checkedOut := BookingController.checkOutBooking now id db in
  let cancelled := BookingController.cancelBooking now user id db in
  BookingController.bookings db !! id = Some booking ->
  (Booking.status booking = "confirmed" ->
   Booking.validate booking = true ->
     code_of (snd checkedIn) = 200
     /\ exists booking',
          BookingController.bookings (fst checkedIn) !! id = Some booking'
          /\ Booking.status booking' = "checked-in"
          /\ Booking.actualCheckIn booking' = Some now)
  /\ (Booking.status booking <> "confirmed" ->
      checkedIn = (db, Failure 400 "Booking must be confirmed to check in"))
  /\ (Booking.status booking = "checked-in" ->
      Booking.validate booking = true ->
      roomReady db booking ->
      code_of (snd checkedOut) = 200
      /\ exists booking',
           BookingController.bookings (fst checkedOut) !! id = Some booking'
           /\ Booking.status booking' = "checked-out"
           /\ Booking.actualCheckOut booking' = Some now)
  /\ (Booking.status booking <> "checked-in" ->
      checkedOut = (db, Failure 400 "Guest must be checked in to check out"))
  /\ (Booking.status booking <> "confirmed" ->
      Booking.status booking <> "checked-in" ->
      fst cancelled = db
      /\ (snd cancelled = Failure 403 "Access denied"
          \/ snd cancelled
             = Failure 400 "Booking cannot be cancelled in current status"))
  /\ (Booking.validate booking = false ->
      (Booking.status booking = "confirmed" ->
       checkedIn = (db, Failure 500 "Failed to check in guest"))
      /\ (Booking.status booking = "checked-in" ->
          checkedOut = (db, Failure 500 "Failed to check out guest"))).
Proof.
  cbn zeta. intros Hb. split; [|split; [|split; [|split; [|split]]]].
  - intros Hs Hv.
    rewrite (checkInBooking_accepted now id db booking Hb Hs), Hv.
    cbn [fst snd code_of BookingController.bookings
         BookingController.set_bookings].
    split; [reflexivity|].
    eexists. split; [apply lookup_insert_eq|]. split; reflexivity.
  - intros Hs. apply (checkInBooking_refused now id db booking Hb Hs).
  - intros Hs Hv Hready.
    destruct (checkOutBooking_accepted now id db booking Hb Hs Hv)
      as [Hsaved Hok].
    split; [rewrite (Hok Hready); reflexivity|].
    rewrite Hsaved. eexists. split; [apply lookup_insert_eq|].
    split; reflexivity.
  - intros Hs. apply (checkOutBooking_refused now id db booking Hb Hs).
  - intros Hs1 Hs2.
    rewrite (cancelBooking_refused now user id db booking Hb).
    + split; [reflexivity|].
      destruct (BookingController.denied user booking); cbn [snd]; auto.
    + apply not_true_is_false. rewrite includes_cancellable. tauto.
  - intros Hv. split; intros Hs.
    + rewrite (checkInBooking_accepted now id db booking Hb Hs), Hv.
      reflexivity.
    + apply (checkOutBooking_unsaved now id db booking Hb Hs Hv).
Qed.

Lemma booking_transitions_witness :
  BookingController.checkInBooking (Sample.day 20000) "b4" Sample.hotel
  = (Sample.hotel, Failure 400 "Booking must be confirmed to check in")
  /\ BookingController.checkOutBooking (Sample.day 20000) "b1" Sample.hotel
     = (Sample.hotel, Failure 400 "Guest must be checked in to check out")
  /\ fst (BookingController.cancelBooking (Sample.day 20000) Sample.staff "b3"
            Sample.hotel) = Sample.hotel
  /\ code_of (snd (BookingController.checkInBooking (Sample.day 20000) "b1"
                     Sample.hotel)) = 200
  /\ code_of (snd (BookingController.checkOutBooking (Sample.day 20002) "b2"
                     Sample.hotel)) = 200.
Proof.
  split; [|split; [|split; [|split]]].
  - refine (proj1 (proj2
      (booking_transitions (Sample.day 20000) Sample.staff "b4" Sample.hotel
         (Sample.stayIn "cancelled") _)) _); [reflexivity|discriminate].
  - refine (proj1 (proj2 (proj2 (proj2
      (booking_transitions (Sample.day 20000) Sample.staff "b1" Sample.hotel
         Sample.stay _)))) _); [reflexivity|discriminate].
  - refine (proj1 (proj1 (proj2 (proj2 (proj2 (proj2
      (booking_transitions (Sample.day 20000) Sample.staff "b3" Sample.hotel
         (Sample.stayIn "checked-out") _))))) _ _));
      [reflexivity|discriminate|discriminate].
  - refine (proj1 (proj1
      (booking_transitions (Sample.day 20000) Sample.staff "b1" Sample.hotel
         Sample.stay _) _ _)); reflexivity.
  - refine (proj1 (proj1 (proj2 (proj2
      (booking_transitions (Sample.day 20002) Sample.staff "b2" Sample.hotel
         (Sample.stayIn "checked-in") _))) _ _ _));
      [reflexivity|reflexivity|reflexivity|apply sample_rooms_ready].
Defined.

(** ** Saving an order *)

Lemma with_subtotal_idempotent (items : list Order.Item) :
  map Order.with_subtotal (map Order.with_subtotal items)
  = map Order.with_subtotal items.
Proof.
  rewrite map_map. apply map_ext. intros item. reflexivity.
Qed.

Lemma pre_save_idempotent (o : Order.t) :
  Order.pre_save (Order.pre_save o) = Order.pre_save o.
Proof.
  unfold Order.pre_save. cbn [Order.items Order.tax Order.deliveryFee
    Order.orderId Order.customerId Order.customerEmail Order.customerName
    Order.customerRoom Order.status Order.paymentStatus Order.paymentIntentId
    Order.stripePaymentId Order.transactionId Order.deliveryType
    Order.estimatedDeliveryTime Order.actualDeliveryTime Order.staffNotes
    Order.assignedStaff].
  rewrite with_subtotal_idempotent. reflexivity.
Qed.

Lemma subtotals_sum (items : list Order.Item) :
  (sumQ (map Order.subtotal (map Order.with_subtotal items))
   == sumQ (map (fun item => Order.price item * Order.quantity item) items))%Q.
Proof.
  rewrite map_map. reflexivity.
Qed.

Lemma order_validate_iff (o : Order.t) :
  Order.validate o = true
  <-> Js.nonEmpty (Order.orderId o) = true
      /\ Js.nonEmpty (Order.customerEmail o) = true
      /\ Js.nonEmpty (Order.customerName o) = true
      /\ forallb Order.validItem (Order.items o) = true
      /\ Qle_bool 0 (Order.totalAmount o) = true
      /\ Qle_bool 0 (Order.tax o) = true
      /\ Qle_bool 0 (Order.deliveryFee o) = true
      /\ Qle_bool 0 (Order.finalAmount o) = true
      /\ Js.includes Order.statuses (Order.status o) = true
      /\ Js.includes Order.paymentStatuses (Order.paymentStatus o) = true
      /\ Js.nonEmpty (Order.paymentIntentId o) = true
      /\ Js.includes Order.deliveryTypes (Order.deliveryType o) = true.
Proof. unfold Order.validate. rewrite !andb_true_iff. tauto. Qed.

(** The fields of an order after the assignments of the routes. *)
Ltac order_fields :=
  cbn [Order.set_status Order.set_paymentStatus Order.set_paymentIntentId
       Order.set_payment_ids Order.set_actualDeliveryTime Order.set_staffNotes
       Order.set_assignedStaff
       Order.orderId Order.customerId Order.customerEmail Order.customerName
       Order.customerRoom Order.items Order.totalAmount Order.tax
       Order.deliveryFee Order.finalAmount Order.status Order.paymentStatus
       Order.paymentIntentId Order.stripePaymentId Order.transactionId
       Order.deliveryType Order.estimatedDeliveryTime Order.actualDeliveryTime
       Order.staffNotes Order.assignedStaff] in *.

(** An assignment that leaves the validated fields alone, or writes a value
    of the enumeration, keeps an order valid. *)
Ltac order_still_valid Hv :=
  let H := fresh "Hvalid" in
  pose proof (proj1 (order_validate_iff _) Hv) as H;
  apply order_validate_iff; order_fields;
  repeat match goal with
         | |- context [if ?c then _ else _] => destruct c
         | |- context [match ?c with Some _ => _ | None => _ end] => destruct c
         end;
  order_fields; intuition.

Lemma validItem_with_subtotal (item : Order.Item) :
  Order.validItem item = true ->
  Order.validItem (Order.with_subtotal item) = true.
Proof.
  unfold Order.validItem. rewrite !andb_true_iff.
  intros (((Hn & Hp) & Hq) & _).
  cbn [Order.with_subtotal Order.name Order.price Order.quantity
       Order.subtotal].
  repeat split; try assumption.
  apply Qle_bool_iff. apply Qle_bool_iff in Hp, Hq.
  apply Qmult_le_0_compat; [exact Hp|]. lra.
Qed.

Lemma validItems_with_subtotal (items : list Order.Item) :
  forallb Order.validItem items = true ->
  forallb Order.validItem (map Order.with_subtotal items) = true
  /\ (0 <= sumQ (map Order.subtotal (map Order.with_subtotal items)))%Q.
Proof.
  induction items as [|item items IH]; cbn [forallb map sumQ fold_right].
  - intros _. split; [reflexivity|lra].
  - rewrite !andb_true_iff. intros [Hitem Hitems].
    destruct (IH Hitems) as [IHv IHs]. unfold sumQ in IHs.
    pose proof (validItem_with_subtotal item Hitem) as Hw.
    split; [split; assumption|].
    unfold Order.validItem in Hw. rewrite !andb_true_iff in Hw.
    destruct Hw as (_ & Hs). apply Qle_bool_iff in Hs. lra.
Qed.

(** The hooks keep a valid order valid. *)
Lemma validate_pre_save (o : Order.t) :
  Order.validate o = true -> Order.validate (Order.pre_save o) = true.
Proof.
  intros Hv. pose proof (proj1 (order_validate_iff o) Hv)
    as (H1 & H2 & H3 & Hitems & _ & Htax & Hfee & _ & H9 & H10 & H11 & H12).
  destruct (validItems_with_subtotal _ Hitems) as [Hitems' Hsum].
  apply order_validate_iff. unfold Order.pre_save. order_fields.
  assert (Htotal :
    (0 <= fold_left (fun total item => total + Order.subtotal item)
            (map Order.with_subtotal (Order.items o)) 0)%Q).
  { rewrite (fold_left_sumQ Order.subtotal). lra. }
  apply Qle_bool_iff in Htax, Hfee.
  repeat split; try assumption; apply Qle_bool_iff; lra.
Qed.

Lemma order_save_loaded (o : Order.t) (orders : gmap string Order.t) :
  Order.validate o = true ->
  Order.save false o orders
  = Some (Order.pre_save o, <[Order.orderId o := Order.pre_save o]> orders).
Proof. intros Hv. unfold Order.save. rewrite Hv. reflexivity. Qed.

Lemma order_save_new (o : Order.t) (orders : gmap string Order.t) :
  Order.validate o = true ->
  Order.taken o orders = false ->
  Order.save true o orders
  = Some (Order.pre_save o, <[Order.orderId o := Order.pre_save o]> orders).
Proof.
  intros Hv Ht. unfold Order.save. rewrite Hv. cbn [negb andb].
  change (Order.taken (Order.pre_save o) orders) with (Order.taken o orders).
  rewrite Ht. reflexivity.
Qed.

Lemma order_save_refused isNew (o : Order.t) (orders : gmap string Order.t) :
  Order.validate o = false -> Order.save isNew o orders = None.
Proof. intros Hv. unfold Order.save. rewrite Hv. reflexivity. Qed.

Lemma order_save_Some isNew (o o' : Order.t) (orders saved : gmap string Order.t) :
  Order.save isNew o orders = Some (o', saved) ->
  Order.validate o = true
  /\ o' = Order.pre_save o
  /\ saved = <[Order.orderId o := Order.pre_save o]> orders
  /\ (isNew = true -> Order.taken o orders = false).
Proof.
  unfold Order.save. destruct (Order.validate o); [|discriminate].
  cbn [negb].
  change (Order.taken (Order.pre_save o) orders) with (Order.taken o orders).
  destruct isNew, (Order.taken o orders); cbn [andb]; try discriminate;
    intros [= <- <-]; repeat split; congruence.
Qed.

(** C6, as the schema implements it.  Every save that stores an order
    stores it with each item's subtotal equal to its price times its
    quantity, a total equal to the sum of the subtotals, that is of price
    times quantity over the items handed to the save, and a final amount
    equal to total plus tax plus delivery fee.  The save recomputes these
    three from the item list; the tax and the delivery fee are kept as they
    were handed in.  A save stores the order exactly when the order
    satisfies the schema and, if it is new, its identifiers are not in
    use. *)
Theorem order_save_totals (isNew : bool) (o : Order.t)
    (orders : gmap string Order.t) :
  (forall o' saved,
     Order.save isNew o orders = Some (o', saved) ->
     saved !! Order.orderId o = Some o'
     /\ Forall (fun item =>
                  Order.subtotal item
                  = (Order.price item * Order.quantity item)%Q)
               (Order.items o')
     /\ (Order.totalAmount o' == sumQ (map Order.subtotal (Order.items o')))%Q
     /\ (Order.totalAmount o'
         == sumQ (map (fun item => Order.price item * Order.quantity item)
                      (Order.items o)))%Q
     /\ Order.finalAmount o'
        = (Order.totalAmount o' + Order.tax o' + Order.deliveryFee o')%Q
     /\ Order.tax o' = Order.tax o
     /\ Order.deliveryFee o' = Order.deliveryFee o)
  /\ (Order.validate o = true ->
      (isNew = true -> Order.taken o orders = false) ->
      is_Some (Order.save isNew o orders))
  /\ (Order.validate o = false -> Order.save isNew o orders = None)
  /\ (isNew = true -> Order.taken o orders = true ->
      Order.save isNew o orders = None).
Proof.
  split; [|split; [|split]].
  - intros o' saved Hsave. apply order_save_Some in Hsave.
    destruct Hsave as (_ & -> & -> & _).
    split; [apply lookup_insert_eq|].
    unfold Order.pre_save. cbn [Order.items Order.totalAmount
      Order.finalAmount Order.tax Order.deliveryFee].
    split.
    { induction (Order.items o) as [|item items IH]; constructor;
        [reflexivity|exact IH]. }
    split.
    { rewrite (fold_left_sumQ Order.subtotal). ring. }
    split.
    { rewrite (fold_left_sumQ Order.subtotal), subtotals_sum. ring. }
    repeat split.
  - intros Hv Hnew.
    destruct isNew;
      [rewrite order_save_new by auto|rewrite order_save_loaded by auto];
      eauto.
  - apply order_save_refused.
  - intros -> Htaken. unfold Order.save.
    destruct (Order.validate o); [|reflexivity]. cbn [negb andb].
    change (Order.taken (Order.pre_save o) orders) with (Order.taken o orders).
    rewrite Htaken. reflexivity.
Qed.

Lemma order_save_totals_witness :
  is_Some
    (Order.save false (Order.set_status "ready" (Sample.teaOrder "preparing"))
       (OrderRoutes.orders (Sample.restaurant "preparing"))).
Proof.
  refine (proj1 (proj2
    (order_save_totals false
       (Order.set_status "ready" (Sample.teaOrder "preparing"))
       (OrderRoutes.orders (Sample.restaurant "preparing")))) _ _).
  - reflexivity.
  - discriminate.
Defined.

(** ** Order creation *)

(** The loop computes the catalog total, starting from its accumulator. *)
Lemma priceItems_total db submitted acc orderItems :
  match catalogTotal db submitted with
  | Some expected =>
      exists calculatedTotal orderItems',
        OrderRoutes.priceItems db submitted acc orderItems
        = inr (calculatedTotal, orderItems')
        /\ (calculatedTotal == acc + expected)%Q
  | None =>
      exists name,
        OrderRoutes.priceItems db submitted acc orderItems = inl name
  end.
Proof.
  revert acc orderItems.
  induction submitted as [|item rest IH]; intros acc orderItems.
  - cbn. exists acc, orderItems. split; [reflexivity|ring].
  - cbn [catalogTotal OrderRoutes.priceItems]. unfold catalogLine.
    destruct (OrderRoutes.menuItems db !! OrderRoutes.itemId item)
      as [menuItem|]; [|eauto].
    match goal with
    | |- context [OrderRoutes.priceItems db rest ?a ?l] =>
        specialize (IH a l)
    end.
    destruct (catalogTotal db rest) as [expected|]; [|exact IH].
    destruct IH as (calculatedTotal & orderItems' & Heq & Hsum).
    exists calculatedTotal, orderItems'. split; [exact Heq|].
    rewrite Hsum. ring.
Qed.

Lemma mismatch_true (calculatedTotal expected totalAmount : Q) :
  (calculatedTotal == expected)%Q ->
  (1 # 100 < Qabs (expected - totalAmount))%Q ->
  OrderRoutes.mismatch calculatedTotal totalAmount = true.
Proof.
  intros Heq Hgap. unfold OrderRoutes.mismatch.
  apply negb_true_iff, not_true_is_false. intros Hle.
  apply Qle_bool_iff in Hle. rewrite Heq in Hle.
  apply (Qlt_not_le _ _ Hgap). exact Hle.
Qed.

(** C7. The route prices the submitted items at catalog prices and compares
    the result with the total the client states.  Whenever the two differ by
    more than 0.01 the request is refused and no order is created; the
    refusal is the 400 'Total amount mismatch' as soon as the request has
    passed the checks that come first (items present, a positive total, a
    known customer). *)
Theorem createPaymentIntent_mismatch (stripe : Stripe) (now : Js.Date)
    (newOrderId userId : string) (body : OrderRoutes.IntentBody)
    (db : OrderRoutes.Db) (submitted : list OrderRoutes.ItemRequest)
    (totalAmount expected : Q) :
  let result :=
    OrderRoutes.createPaymentIntentRoute stripe now newOrderId userId body db in
  OrderRoutes.items body = Some submitted ->
  OrderRoutes.totalAmount body = Some totalAmount ->
  catalogTotal db submitted = Some expected ->
  (1 # 100 < Qabs (expected - totalAmount))%Q ->
  fst result = db
  /\ (code_of (snd result) = 400 \/ code_of (snd result) = 404)
  /\ (submitted <> [] -> (0 < totalAmount)%Q ->
      is_Some (OrderRoutes.users db !! userId) ->
      snd result = Failure 400 "Total amount mismatch").
Proof.
  cbn zeta. intros Hitems Htotal Hcat Hgap.
  unfold OrderRoutes.createPaymentIntentRoute. rewrite Hitems, Htotal.
  destruct submitted as [|item rest].
  { split; [reflexivity|]. split; [left; reflexivity|]. congruence. }
  destruct (Qle_bool totalAmount 0) eqn:Hpos.
  { split; [reflexivity|]. split; [left; reflexivity|].
    intros _ Hlt _. apply Qle_bool_iff in Hpos.
    exfalso. apply (Qlt_not_le _ _ Hlt). exact Hpos. }
  destruct (OrderRoutes.users db !! userId) as [user|].
  2:{ split; [reflexivity|]. split; [right; reflexivity|].
      intros _ _ [u Hu]. discriminate. }
  pose proof (priceItems_total db (item :: rest) 0%Q []) as Hloop.
  rewrite Hcat in Hloop.
  destruct Hloop as (calculatedTotal & orderItems & -> & Hsum).
  rewrite (mismatch_true calculatedTotal expected totalAmount).
  - split; [reflexivity|]. split; [left; reflexivity|]. reflexivity.
  - rewrite Hsum. ring.
  - exact Hgap.
Qed.

Lemma createPaymentIntent_mismatch_witness :
  OrderRoutes.createPaymentIntentRoute Sample.stripe (Sample.day 20000)
    "ORD-9" "u1" Sample.cheapTeaBody (Sample.restaurant "pending")
  = (Sample.restaurant "pending", Failure 400 "Total amount mismatch").
Proof.
  pose proof (createPaymentIntent_mismatch Sample.stripe (Sample.day 20000)
    "ORD-9" "u1" Sample.cheapTeaBody (Sample.restaurant "pending")
    [OrderRoutes.mkItemRequest "m1" "Masala tea" 2] 150 (100 * 2 + 0)%Q
    eq_refl eq_refl eq_refl eq_refl) as (Hdb & _ & Hmsg).
  apply injective_projections; cbn [fst snd].
  - exact Hdb.
  - apply Hmsg.
    + discriminate.
    + reflexivity.
    + eexists. reflexivity.
Defined.

(** C6, as stated, fails on the tax: one thali at the catalog price of 105
    is ordered with a stated total of 104.995, within the tolerance.  The
    order is created with a total of 105 and a tax of 10, while 10% of its
    total rounds to 11. *)
Lemma order_tax_not_rounded_total :
  let result :=
    OrderRoutes.createPaymentIntentRoute Sample.stripe (Sample.day 20000)
      "ORD-9" "u1" Sample.thaliBody (Sample.restaurant "pending") in
  code_of (snd result) = 200
  /\ exists o,
       OrderRoutes.orders (fst result) !! "ORD-9" = Some o
       /\ (Order.totalAmount o == 105)%Q
       /\ (Order.tax o == 10)%Q
       /\ Js.round (Order.totalAmount o * (1 # 10)) = 11
       /\ ~ (Order.tax o
             == inject_Z (Js.round (Order.totalAmount o * (1 # 10))))%Q.
Proof.
  cbn zeta. split; [vm_compute; reflexivity|].
  eexists. split; [vm_compute; reflexivity|].
  cbn [Order.totalAmount Order.tax].
  split; [reflexivity|]. split; [reflexivity|].
  split; [vm_compute; reflexivity|].
  vm_compute. discriminate.
Qed.

(** ** Payment confirmation and order status *)

Lemma findByOrderId_Some db orderId order :
  OrderRoutes.findByOrderId db orderId = Some order ->
  OrderRoutes.orders db !! orderId = Some order
  /\ Order.orderId order = orderId.
Proof.
  unfold OrderRoutes.findByOrderId.
  destruct (OrderRoutes.orders db !! orderId) as [o|]; [|discriminate].
  destruct (String.eqb_spec (Order.orderId o) orderId); [|discriminate].
  intros [= ->]. split; [reflexivity|assumption].
Qed.

Lemma findOwn_Some db orderId userId order :
  OrderRoutes.findOwn db orderId userId = Some order ->
  OrderRoutes.orders db !! orderId = Some order
  /\ Order.orderId order = orderId
  /\ Order.customerId order = userId.
Proof.
  unfold OrderRoutes.findOwn.
  destruct (OrderRoutes.findByOrderId db orderId) as [o|] eqn:Hfind;
    [|discriminate].
  destruct (String.eqb_spec (Order.customerId o) userId); [|discriminate].
  intros [= ->]. apply findByOrderId_Some in Hfind. tauto.
Qed.

Lemma truthy_nonempty (s : string) :
  s <> "" -> OrderRoutes.truthy (Some s) = Some s.
Proof. destruct s; [congruence|reflexivity]. Qed.

Lemma includes_In (l : list string) (s : string) :
  Js.includes l s = true <-> In s l.
Proof.
  unfold Js.includes. rewrite existsb_exists. split.
  - intros (x & Hin & Heq). apply String.eqb_eq in Heq. subst. exact Hin.
  - intros Hin. exists s. split; [exact Hin|apply String.eqb_refl].
Qed.

(** What a confirmation stores, for an order that satisfies the schema. *)
Lemma confirmPaymentRoute_stores stripe now userId paymentIntentId orderId
    db order :
  paymentIntentId <> "" ->
  orderId <> "" ->
  OrderRoutes.findOwn db orderId userId = Some order ->
  Order.validate order = true ->
  OrderRoutes.confirmPaymentRoute stripe now userId (Some paymentIntentId)
    (Some orderId) db
  = if PaymentService.confirmPayment stripe paymentIntentId then
      (OrderRoutes.set_orders
         (<[orderId :=
              Order.pre_save
                (Order.set_status "confirmed"
                   (Order.set_payment_ids paymentIntentId
                      ("txn_" +:+ pretty now)
                      (Order.set_paymentStatus "completed" order)))]>
            (OrderRoutes.orders db)) db,
       Success 200 "Payment successful! Your order has been confirmed.")
    else
      (OrderRoutes.set_orders
         (<[orderId := Order.pre_save (Order.set_paymentStatus "failed" order)]>
            (OrderRoutes.orders db)) db,
       Failure 400 "Payment verification failed").
Proof.
  intros Hpid Hoid Hfind Hv.
  pose proof (findOwn_Some _ _ _ _ Hfind) as (_ & Hkey & _).
  unfold OrderRoutes.confirmPaymentRoute.
  rewrite (truthy_nonempty _ Hpid), (truthy_nonempty _ Hoid), Hfind.
  cbn zeta.
  destruct (PaymentService.confirmPayment stripe paymentIntentId);
    cbn [negb].
  - unfold Order.completePayment.
    rewrite order_save_loaded by (order_still_valid Hv).
    order_fields. rewrite Hkey. reflexivity.
  - rewrite order_save_loaded by (order_still_valid Hv).
    order_fields. rewrite Hkey. reflexivity.
Qed.

(** A status outside the enumeration of the schema is refused by the save
    of [updateStatus]. *)
Lemma updateStatus_refused now newStatus order orders :
  ~ In newStatus Order.statuses ->
  Order.updateStatus now newStatus order orders = None.
Proof.
  intros Hout. unfold Order.updateStatus. apply order_save_refused.
  apply not_true_is_false. intros Hv. apply order_validate_iff in Hv.
  destruct Hv as (_ & _ & _ & _ & _ & _ & _ & _ & Hs & _).
  apply Hout, includes_In.
  destruct (String.eqb newStatus "delivered"); exact Hs.
Qed.

(** A confirmation that is answered with 500 has stored nothing. *)
Lemma confirmPaymentRoute_500 stripe now userId paymentIntentId orderId db :
  let result :=
    OrderRoutes.confirmPaymentRoute stripe now userId paymentIntentId orderId
      db in
  code_of (snd result) = 500 -> fst result = db.
Proof.
  cbn zeta. unfold OrderRoutes.confirmPaymentRoute. cbn zeta.
  repeat match goal with
         | |- context [match ?x with _ => _ end] => destruct x
         | |- context [if ?x then _ else _] => destruct x
         end;
    cbn [fst snd code_of]; intros Hcode;
    first [reflexivity|discriminate Hcode].
Qed.

(** C5. For an order of the customer that satisfies the schema, as every
    order on file does, a confirmation that the payment service reports as
    succeeded sets the payment status to completed and the status to
    confirmed, whatever the status was; one that it reports as failed,
    which includes an error of the payment provider, sets the payment
    status to failed and leaves the status and every other field of the
    stored order as they were.  [updateStatus] stamps [actualDeliveryTime]
    exactly when the new status is delivered; a confirmation, which never
    sets that status, does not touch the stamp.  A document that the
    schema refuses is not saved: a confirmation that is answered with 500
    leaves the store as it was, and [updateStatus] with a status outside
    the enumeration of the schema stores nothing. *)
Theorem confirmPayment_effects (stripe : Stripe) (now : Js.Date)
    (userId paymentIntentId orderId : string) (db : OrderRoutes.Db)
    (order : Order.t) :
  let result :=
    OrderRoutes.confirmPaymentRoute stripe now userId (Some paymentIntentId)
      (Some orderId) db in
  paymentIntentId <> "" ->
  orderId <> "" ->
  OrderRoutes.findOwn db orderId userId = Some order ->
  (Order.validate order = true ->
   (PaymentService.confirmPayment stripe paymentIntentId = true ->
      code_of (snd result) = 200
      /\ exists order',
           OrderRoutes.orders (fst result) !! orderId = Some order'
           /\ Order.paymentStatus order' = "completed"
           /\ Order.status order' = "confirmed"
           /\ Order.actualDeliveryTime order'
              = Order.actualDeliveryTime order)
   /\ (PaymentService.confirmPayment stripe paymentIntentId = false ->
       code_of (snd result) = 400
       /\ OrderRoutes.orders (fst result) !! orderId
          = Some (Order.set_paymentStatus "failed" (Order.pre_save order))
       /\ (persisted order ->
           OrderRoutes.orders (fst result) !! orderId
           = Some (Order.set_paymentStatus "failed" order)))
   /\ (forall newStatus orders,
         In newStatus OrderRoutes.validStatuses ->
         exists order' saved,
           Order.updateStatus now newStatus order orders
           = Some (order', saved)
           /\ Order.status order' = newStatus
           /\ (newStatus = "delivered" ->
               Order.actualDeliveryTime order' = Some now)
           /\ (newStatus <> "delivered" ->
               Order.actualDeliveryTime order'
               = Order.actualDeliveryTime order)))
  /\ (code_of (snd result) = 500 -> fst result = db)
  /\ (forall newStatus orders,
        ~ In newStatus OrderRoutes.validStatuses ->
        Order.updateStatus now newStatus order orders = None).
Proof.
  cbn zeta. intros Hpid Hoid Hfind. split; [|split].
  - intros Hv.
    rewrite (confirmPaymentRoute_stores stripe now userId paymentIntentId
               orderId db order Hpid Hoid Hfind Hv).
    split; [|split].
    + intros ->.
      cbn [fst snd code_of OrderRoutes.orders OrderRoutes.set_orders].
      split; [reflexivity|].
      eexists. split; [apply lookup_insert_eq|]. repeat split.
    + intros ->.
      cbn [fst snd code_of OrderRoutes.orders OrderRoutes.set_orders].
      split; [reflexivity|]. rewrite lookup_insert_eq.
      split; [reflexivity|].
      intros Hp. unfold persisted in Hp. rewrite <- Hp at 2. reflexivity.
    + intros newStatus orders Hstatus. apply includes_In in Hstatus.
      unfold Order.updateStatus.
      rewrite order_save_loaded.
      * eexists. eexists. split; [reflexivity|].
        split; [|split].
        -- destruct (String.eqb newStatus "delivered"); reflexivity.
        -- intros ->. reflexivity.
        -- intros Hne. apply String.eqb_neq in Hne. rewrite Hne. reflexivity.
      * order_still_valid Hv.
  - apply confirmPaymentRoute_500.
  - intros newStatus orders Hout. apply updateStatus_refused. exact Hout.
Qed.

Lemma confirmPayment_effects_witness :
  OrderRoutes.orders
    (fst (OrderRoutes.confirmPaymentRoute Sample.stripe (Sample.day 20000)
            "u1" (Some "pi_down") (Some "ORD-1")
            (Sample.restaurant "preparing"))) !! "ORD-1"
  = Some (Order.set_paymentStatus "failed" (Sample.teaOrder "preparing")).
Proof.
  refine (proj2 (proj2 (proj1 (proj2 (proj1
    (confirmPayment_effects Sample.stripe (Sample.day 20000) "u1" "pi_down"
       "ORD-1" (Sample.restaurant "preparing") (Sample.teaOrder "preparing")
       _ _ _) _)) _)) _).
  - discriminate.
  - discriminate.
  - reflexivity.
  - reflexivity.
  - reflexivity.
  - reflexivity.
Defined.

(** Every write of the routes goes through [save].  So a property that the
    hooks establish for every order that satisfies the schema holds of the
    orders on file after a route, when it held of them before. *)
Section OrdersAfter.

Variable Inv : Order.t -> Prop.
Hypothesis Hhooks : forall o, Order.validate o = true -> Inv (Order.pre_save o).

Lemma save_keeps isNew (o o' : Order.t) (orders saved : gmap string Order.t) :
  Order.save isNew o orders = Some (o', saved) ->
  (forall key o, orders !! key = Some o -> Inv o) ->
  forall key o, saved !! key = Some o -> Inv o.
Proof.
  intros Hsave Hall. apply order_save_Some in Hsave.
  destruct Hsave as (Hv & -> & -> & _).
  intros key o''. rewrite lookup_insert. case_decide.
  - intros [= <-]. apply Hhooks. exact Hv.
  - apply Hall.
Qed.

Ltac route_cases Hall :=
  repeat first
    [ exact Hall
    | progress cbn [fst OrderRoutes.orders OrderRoutes.set_orders]
    | match goal with
      | |- context [match Order.save ?n ?o ?m with _ => _ end] =>
          let Hsave := fresh "Hsave" in
          destruct (Order.save n o m) as [[? ?]|] eqn:Hsave;
          [apply (save_keeps _ _ _ _ _ Hsave)|]
      | |- context [match ?x with _ => _ end] => destruct x
      | |- context [if ?x then _ else _] => destruct x
      end ].

Lemma createPaymentIntentRoute_keeps stripe now newOrderId userId body db :
  (forall key o, OrderRoutes.orders db !! key = Some o -> Inv o) ->
  forall key o,
    OrderRoutes.orders
      (fst (OrderRoutes.createPaymentIntentRoute stripe now newOrderId userId
              body db)) !! key = Some o -> Inv o.
Proof.
  intros Hall. unfold OrderRoutes.createPaymentIntentRoute. route_cases Hall.
Qed.

Lemma confirmPaymentRoute_keeps stripe now userId paymentIntentId orderId db :
  (forall key o, OrderRoutes.orders db !! key = Some o -> Inv o) ->
  forall key o,
    OrderRoutes.orders
      (fst (OrderRoutes.confirmPaymentRoute stripe now userId paymentIntentId
              orderId db)) !! key = Some o -> Inv o.
Proof.
  intros Hall. unfold OrderRoutes.confirmPaymentRoute, Order.completePayment.
  cbn zeta. route_cases Hall.
Qed.

Lemma cancelRoute_keeps userId orderId db :
  (forall key o, OrderRoutes.orders db !! key = Some o -> Inv o) ->
  forall key o,
    OrderRoutes.orders (fst (OrderRoutes.cancelRoute userId orderId db))
      !! key = Some o -> Inv o.
Proof.
  intros Hall. unfold OrderRoutes.cancelRoute. route_cases Hall.
Qed.

Lemma updateStatusRoute_keeps now user orderId status staffNotes db :
  (forall key o, OrderRoutes.orders db !! key = Some o -> Inv o) ->
  forall key o,
    OrderRoutes.orders
      (fst (OrderRoutes.updateStatusRoute now user orderId status staffNotes
              db)) !! key = Some o -> Inv o.
Proof.
  intros Hall. unfold OrderRoutes.updateStatusRoute, Order.updateStatus.
  destruct (negb _); [exact Hall|].
  destruct status as [status|]; [|exact Hall].
  destruct (negb _); [exact Hall|].
  destruct (OrderRoutes.findByOrderId db orderId) as [order|]; [|exact Hall].
  destruct (Order.save false _ (OrderRoutes.orders db))
    as [[order1 saved1]|] eqn:Hfirst; [|exact Hall].
  pose proof (save_keeps _ _ _ _ _ Hfirst Hall) as Hall1.
  cbn zeta. cbn [OrderRoutes.orders OrderRoutes.set_orders].
  match goal with
  | |- context [Order.save false ?o ?m] =>
      destruct (Order.save false o m) as [[order2 saved2]|] eqn:Hsecond
  end; cbn [fst OrderRoutes.orders OrderRoutes.set_orders]; [|exact Hall1].
  apply (save_keeps _ _ _ _ _ Hsecond Hall1).
Qed.

End OrdersAfter.

(** A cancellation or a status update that is answered with 500 has stored
    nothing: the second save of a status update meets the validators that
    the first one has passed. *)
Lemma cancelRoute_500 userId orderId db :
  let result := OrderRoutes.cancelRoute userId orderId db in
  code_of (snd result) = 500 -> fst result = db.
Proof.
  cbn zeta. unfold OrderRoutes.cancelRoute. cbn zeta.
  repeat match goal with
         | |- context [match ?x with _ => _ end] => destruct x
         | |- context [if ?x then _ else _] => destruct x
         end;
    cbn [fst snd code_of]; intros Hcode;
    first [reflexivity|discriminate Hcode].
Qed.

Lemma updateStatusRoute_500 now user orderId status staffNotes db :
  let result :=
    OrderRoutes.updateStatusRoute now user orderId status staffNotes db in
  code_of (snd result) = 500 -> fst result = db.
Proof.
  cbn zeta. unfold OrderRoutes.updateStatusRoute, Order.updateStatus.
  destruct (negb _); [discriminate|].
  destruct status as [status|]; [|discriminate].
  destruct (negb _); [discriminate|].
  destruct (OrderRoutes.findByOrderId db orderId) as [order|];
    [|discriminate].
  destruct (Order.save false _ (OrderRoutes.orders db))
    as [[order1 saved1]|] eqn:Hfirst; [|reflexivity].
  apply order_save_Some in Hfirst. destruct Hfirst as (Hv & -> & -> & _).
  pose proof (validate_pre_save _ Hv) as Hv1.
  cbn zeta. cbn [OrderRoutes.orders OrderRoutes.set_orders].
  rewrite order_save_loaded by (order_still_valid Hv1).
  discriminate.
Qed.

(** What an accepted status update stores, for an order that satisfies the
    schema. *)
Lemma updateStatusRoute_stores now user orderId status staffNotes db order :
  Js.includes ["admin"; "staff"; "manager"] (role user) = true ->
  Js.includes OrderRoutes.validStatuses status = true ->
  OrderRoutes.findByOrderId db orderId = Some order ->
  Order.validate order = true ->
  let updated :=
    let order := Order.set_status status order in
    if String.eqb status "delivered"
    then Order.set_actualDeliveryTime now order else order in
  let noted :=
    match OrderRoutes.truthy staffNotes with
    | Some staffNotes =>
        Order.set_staffNotes staffNotes (Order.pre_save updated)
    | None => Order.pre_save updated
    end in
  OrderRoutes.updateStatusRoute now user orderId (Some status) staffNotes db
  = (OrderRoutes.set_orders
       (<[orderId :=
            Order.pre_save (Order.set_assignedStaff (principalId user) noted)]>
          (<[orderId := Order.pre_save updated]> (OrderRoutes.orders db))) db,
     Success 200 ("Order status updated to " +:+ status)).
Proof.
  intros Hrole Hstatus Hfind Hv. cbn zeta.
  pose proof (findByOrderId_Some _ _ _ Hfind) as (_ & Hkey).
  unfold OrderRoutes.updateStatusRoute. rewrite Hrole, Hstatus, Hfind.
  cbn [negb]. unfold Order.updateStatus.
  assert (Hv1 : Order.validate
                  (if String.eqb status "delivered"
                   then Order.set_actualDeliveryTime now
                          (Order.set_status status order)
                   else Order.set_status status order) = true).
  { order_still_valid Hv. }
  rewrite (order_save_loaded _ _ Hv1).
  cbn [OrderRoutes.orders OrderRoutes.set_orders].
  pose proof (validate_pre_save _ Hv1) as Hv2.
  rewrite order_save_loaded by (order_still_valid Hv2).
  unfold OrderRoutes.set_orders.
  cbn [OrderRoutes.users OrderRoutes.menuItems OrderRoutes.orders].
  destruct (String.eqb status "delivered"), (OrderRoutes.truthy staffNotes);
    rewrite <- Hkey; reflexivity.
Qed.

(** C10. For an order on file, which satisfies the schema like every order
    written through it, and a target status of the accepted set, the status
    update of a staff member, manager or administrator succeeds and sets
    the status to the target, whatever the current status is: no ordering
    of the transitions is enforced, and an order can be moved back from
    delivered or cancelled.  The only way such an update fails is a save
    that the schema refuses, which is answered with 500 and leaves the
    store as it was. *)
Theorem updateStatusRoute_any_status (now : Js.Date) (user : Principal)
    (orderId status : string) (staffNotes : option string)
    (db : OrderRoutes.Db) (order : Order.t) :
  let result :=
    OrderRoutes.updateStatusRoute now user orderId (Some status) staffNotes db in
  In (role user) ["admin"; "staff"; "manager"] ->
  In status OrderRoutes.validStatuses ->
  OrderRoutes.findByOrderId db orderId = Some order ->
  (Order.validate order = true ->
   snd result = Success 200 ("Order status updated to " +:+ status)
   /\ exists order',
        OrderRoutes.orders (fst result) !! orderId = Some order'
        /\ Order.status order' = status)
  /\ (snd result = Success 200 ("Order status updated to " +:+ status)
      \/ (snd result = Failure 500 "Failed to update order status"
          /\ fst result = db)).
Proof.
  cbn zeta. intros Hrole Hstatus Hfind.
  apply includes_In in Hrole. apply includes_In in Hstatus.
  split.
  - intros Hv.
    rewrite (updateStatusRoute_stores now user orderId status staffNotes db
               order Hrole Hstatus Hfind Hv).
    cbn [fst snd OrderRoutes.orders OrderRoutes.set_orders].
    split; [reflexivity|].
    eexists. split; [apply lookup_insert_eq|].
    destruct (String.eqb status "delivered"), (OrderRoutes.truthy staffNotes);
      reflexivity.
  - pose proof (updateStatusRoute_500 now user orderId (Some status)
                  staffNotes db) as Hkept.
    cbn zeta in Hkept. revert Hkept.
    unfold OrderRoutes.updateStatusRoute. rewrite Hrole, Hstatus, Hfind.
    cbn [negb].
    destruct (Order.updateStatus now status order (OrderRoutes.orders db))
      as [[order1 saved1]|].
    + cbn zeta.
      match goal with
      | |- context [Order.save false ?o ?m] =>
          destruct (Order.save false o m) as [[order2 saved2]|]
      end; cbn [fst snd code_of]; intros Hkept.
      * left. reflexivity.
      * right. split; [reflexivity|apply Hkept; reflexivity].
    + intros _. right. split; reflexivity.
Qed.

Lemma updateStatusRoute_any_status_witness :
  exists order',
    OrderRoutes.orders
      (fst (OrderRoutes.updateStatusRoute (Sample.day 20000) Sample.staff
              "ORD-1" (Some "pending") None (Sample.restaurant "delivered")))
      !! "ORD-1" = Some order'
    /\ Order.status order' = "pending".
Proof.
  refine (proj2 (proj1
    (updateStatusRoute_any_status (Sample.day 20000) Sample.staff "ORD-1"
       "pending" None (Sample.restaurant "delivered")
       (Sample.teaOrder "delivered") _ _ _) _)).
  - right. left. reflexivity.
  - left. reflexivity.
  - reflexivity.
  - reflexivity.
Defined.

(** ** Packages *)

Lemma inSeason_inWindow (season : Package.Season) (date : Js.Date) :
  Package.inSeason date season = true <-> inWindow season date.
Proof.
  unfold Package.inSeason, inWindow.
  destruct (Package.seasonStart season) as [s|],
           (Package.seasonEnd season) as [e|].
  - rewrite andb_true_iff, Z.geb_le, Z.leb_le. split.
    + intros [H1 H2]. exists s, e. auto.
    + intros (s' & e' & [= <-] & [= <-] & H1). exact H1.
  - split; [discriminate|]. intros (s' & e' & _ & [=] & _).
  - split; [discriminate|]. intros (s' & e' & [=] & _).
  - split; [discriminate|]. intros (s' & e' & [=] & _).
Qed.

Lemma find_none_outside (date : Js.Date) (seasons : list Package.Season) :
  (forall season, In season seasons -> ~ inWindow season date) ->
  List.find (Package.inSeason date) seasons = None.
Proof.
  induction seasons as [|season rest IH]; intros Hout; [reflexivity|].
  cbn [List.find]. destruct (Package.inSeason date season) eqn:E.
  - apply inSeason_inWindow in E. exfalso. apply (Hout season); [left|]; auto.
  - apply IH. intros s Hs. apply Hout. right. exact Hs.
Qed.

Lemma find_first_inside (date : Js.Date)
    (before : list Package.Season) (season : Package.Season)
    (after : list Package.Season) :
  (forall s, In s before -> ~ inWindow s date) ->
  inWindow season date ->
  List.find (Package.inSeason date) (before ++ season :: after) = Some season.
Proof.
  intros Hout Hin. induction before as [|s rest IH]; cbn [app List.find].
  - apply inSeason_inWindow in Hin. rewrite Hin. reflexivity.
  - destruct (Package.inSeason date s) eqn:E.
    + apply inSeason_inWindow in E. exfalso. apply (Hout s); [left|]; auto.
    + apply IH. intros s' Hs'. apply Hout. right. exact Hs'.
Qed.

Lemma blackout_found `{Calendar} (date : Js.Date) (dates : list Js.Date) :
  existsb (fun d => String.eqb (toDateString d) (toDateString date)) dates
  = true
  <-> exists blackout, In blackout dates /\ sameDay blackout date.
Proof.
  rewrite existsb_exists. unfold sameDay.
  split; intros (d & Hin & Heq); exists d; split; auto;
    apply String.eqb_eq; exact Heq.
Qed.

(** The conjunction behind [isAvailable]. *)
Lemma isAvailable_true_iff `{Calendar} (p : Package.t) (date : Js.Date) :
  Package.isAvailable p date = true
  <-> Package.isActive p = true
      /\ (forall s, Package.startDate p = Some s -> s <= date)
      /\ (forall e, Package.endDate p = Some e -> date <= e)
      /\ ~ exists blackout,
             In blackout (Package.blackoutDates p) /\ sameDay blackout date.
Proof.
  unfold Package.isAvailable, Package.before, Package.after.
  rewrite <- blackout_found.
  destruct (Package.isActive p); cbn [negb].
  2:{ split; [discriminate|]. intros [[=] _]. }
  destruct (Package.startDate p) as [s|].
  - destruct (Z.ltb_spec date s) as [Hlt|Hge].
    { split; [discriminate|]. intros (_ & Hs & _).
      specialize (Hs s eq_refl). lia. }
    destruct (Package.endDate p) as [e|].
    + destruct (Z.gtb_spec date e) as [Hgt|Hle].
      { split; [discriminate|]. intros (_ & _ & He & _).
        specialize (He e eq_refl). lia. }
      destruct (existsb _ _).
      * split; [discriminate|]. intros (_ & _ & _ & Hb). tauto.
      * split; [|reflexivity]. intros _.
        repeat split; try (intros ? [= <-]; lia). discriminate.
    + destruct (existsb _ _).
      * split; [discriminate|]. intros (_ & _ & _ & Hb). tauto.
      * split; [|reflexivity]. intros _.
        repeat split; try (intros ? [= <-]; lia); try discriminate.
  - destruct (Package.endDate p) as [e|].
    + destruct (Z.gtb_spec date e) as [Hgt|Hle].
      { split; [discriminate|]. intros (_ & _ & He & _).
        specialize (He e eq_refl). lia. }
      destruct (existsb _ _).
      * split; [discriminate|]. intros (_ & _ & _ & Hb). tauto.
      * split; [|reflexivity]. intros _.
        repeat split; try (intros ? [= <-]; lia); try discriminate.
    + destruct (existsb _ _).
      * split; [discriminate|]. intros (_ & _ & _ & Hb). tauto.
      * split; [|reflexivity]. intros _.
        repeat split; try discriminate.
Qed.

(** C9. [isAvailable] answers false for a date that falls on the calendar
    day of a blackout date, wherever the date lies with respect to the
    window, and also for an inactive package, a date before the start and a
    date after the end.  [getSeasonalPrice] answers the effective price,
    price times (1 - discount / 100), when no season window contains the
    date, and the effective price times the multiplier of the first season
    whose window contains it otherwise. *)
Theorem package_rules `{Calendar} (p : Package.t) (date : Js.Date) :
  ((exists blackout,
      In blackout (Package.blackoutDates p) /\ sameDay blackout date) ->
   Package.isAvailable p date = false)
  /\ (Package.isActive p = false -> Package.isAvailable p date = false)
  /\ (forall s, Package.startDate p = Some s -> date < s ->
        Package.isAvailable p date = false)
  /\ (forall e, Package.endDate p = Some e -> e < date ->
        Package.isAvailable p date = false)
  /\ Package.effectivePrice p
     = (Package.price p * (1 - Package.discountPercentage p / 100))%Q
  /\ ((forall season, In season (Package.seasons p) ->
         ~ inWindow season date) ->
      Package.getSeasonalPrice p date = Package.effectivePrice p)
  /\ (forall before season after,
        Package.seasons p = before ++ season :: after ->
        (forall s, In s before -> ~ inWindow s date) ->
        inWindow season date ->
        Package.getSeasonalPrice p date
        = (Package.effectivePrice p * Package.priceModifier season)%Q).
Proof.
  pose proof (isAvailable_true_iff p date) as Hiff.
  repeat split.
  - intros Hb. apply not_true_is_false. rewrite Hiff. tauto.
  - intros Hoff. apply not_true_is_false. rewrite Hiff, Hoff.
    intros [[=] _].
  - intros s Hs Hlt. apply not_true_is_false. rewrite Hiff.
    intros (_ & Hstart & _). specialize (Hstart s Hs). lia.
  - intros e He Hlt. apply not_true_is_false. rewrite Hiff.
    intros (_ & _ & Hend & _). specialize (Hend e He). lia.
  - intros Hout. unfold Package.getSeasonalPrice.
    rewrite (find_none_outside date _ Hout). reflexivity.
  - intros before season after Hseasons Hout Hin.
    unfold Package.getSeasonalPrice.
    rewrite Hseasons, (find_first_inside date before season after Hout Hin).
    reflexivity.
Qed.

Lemma package_rules_witness :
  Package.isAvailable (H := Utc.calendar) Sample.getaway
    (Sample.day 20000 + 43200000) = false
  /\ Package.getSeasonalPrice Sample.getaway (Sample.day 20006)
     = (Package.effectivePrice Sample.getaway * (3 # 2))%Q.
Proof.
  pose proof (package_rules (H := Utc.calendar) Sample.getaway
                (Sample.day 20000 + 43200000)) as (Hblackout & _).
  pose proof (package_rules (H := Utc.calendar) Sample.getaway
                (Sample.day 20006)) as (_ & _ & _ & _ & _ & _ & Hseason).
  split.
  - apply Hblackout. exists (Sample.day 20000 + 3600000).
    split; [left; reflexivity|vm_compute; reflexivity].
  - apply (Hseason [] Sample.monsoon [Sample.festival]).
    + reflexivity.
    + intros s [].
    + exists (Sample.day 19990), (Sample.day 20010).
      split; [reflexivity|]. split; [reflexivity|]. vm_compute.
      split; discriminate.
Defined.

(** * Further properties *)

(** ** A stay from check-in to check-out *)

Lemma denied_owner (user : Principal) (booking : Booking.t) :
  Booking.user booking = principalId user ->
  BookingController.denied user booking = false.
Proof.
  intros Hown. unfold BookingController.denied.
  rewrite Hown, String.eqb_refl. apply andb_false_r.
Qed.

Lemma restoreRoom_rooms now booking db db' key :
  BookingController.restoreRoom now booking db = Some db' ->
  sameRoom now (BookingController.rooms db !! key)
    (BookingController.rooms db' !! key).
Proof.
  unfold BookingController.restoreRoom, Room.findById, sameRoom.
  destruct (BookingController.rooms db !! Booking.room booking)
    as [room|] eqn:Hroom.
  - unfold Room.save. cbn [Room.set_available Room.paths].
    destruct (negb (Room.validate room)); [discriminate|].
    intros [= <-]. cbn [BookingController.rooms BookingController.set_rooms].
    rewrite lookup_insert. case_decide as Hkey.
    + subst key. right. rewrite Hroom. reflexivity.
    + left. reflexivity.
  - intros [= <-]. left. reflexivity.
Qed.

Lemma sameRoom_none now (room : option Room.t) : sameRoom now room room.
Proof. left. reflexivity. Qed.

(** The rooms after a cancellation or a check-out. *)
Lemma cancelBooking_rooms now user id db key :
  sameRoom now (BookingController.rooms db !! key)
    (BookingController.rooms
       (fst (BookingController.cancelBooking now user id db)) !! key).
Proof.
  unfold BookingController.cancelBooking.
  destruct (BookingController.bookings db !! id) as [booking|];
    [|apply sameRoom_none].
  destruct (BookingController.denied user booking); [apply sameRoom_none|].
  destruct (negb _); [apply sameRoom_none|].
  destruct (Booking.save _ _ _ _ _) as [saved|]; [|apply sameRoom_none].
  destruct (BookingController.restoreRoom _ _ _) as [db'|] eqn:Hrestore;
    cbn [fst]; [|apply sameRoom_none].
  apply (restoreRoom_rooms _ _ _ _ key) in Hrestore. exact Hrestore.
Qed.

Lemma checkOutBooking_rooms now id db key :
  sameRoom now (BookingController.rooms db !! key)
    (BookingController.rooms
       (fst (BookingController.checkOutBooking now id db)) !! key).
Proof.
  unfold BookingController.checkOutBooking.
  destruct (BookingController.bookings db !! id) as [booking|];
    [|apply sameRoom_none].
  destruct (negb _); [apply sameRoom_none|].
  destruct (Booking.save _ _ _ _ _) as [saved|]; [|apply sameRoom_none].
  destruct (BookingController.restoreRoom _ _ _) as [db'|] eqn:Hrestore;
    cbn [fst]; [|apply sameRoom_none].
  apply (restoreRoom_rooms _ _ _ _ key) in Hrestore. exact Hrestore.
Qed.

(** X2. A stay that runs its course.  A confirmed booking on file that
    satisfies its schema, whose room satisfies its own, is checked in and
    then checked out: both requests are answered with 200, the booking ends
    as checked-out with both time stamps, the check-in leaves the rooms
    alone and the check-out leaves every room as it was, up to the time
    stamp of the save. *)
Theorem stay_runs_its_course (arrival departure : Js.Date) (id : string)
    (db : BookingController.Db) (booking : Booking.t) :
  let checkedIn := BookingController.checkInBooking arrival id db in
  let checkedOut :=
    BookingController.checkOutBooking departure id (fst checkedIn) in
  BookingController.bookings db !! id = Some booking ->
  Booking.status booking = "confirmed" ->
  Booking.validate booking = true ->
  roomReady db booking ->
  code_of (snd checkedIn) = 200
  /\ code_of (snd checkedOut) = 200
  /\ (exists booking',
        BookingController.bookings (fst checkedOut) !! id = Some booking'
        /\ Booking.status booking' = "checked-out"
        /\ Booking.actualCheckIn booking' = Some arrival
        /\ Booking.actualCheckOut booking' = Some departure)
  /\ BookingController.rooms (fst checkedIn) = BookingController.rooms db
  /\ forall key,
       sameRoom departure (BookingController.rooms db !! key)
         (BookingController.rooms (fst checkedOut) !! key).
Proof.
  cbn zeta. intros Hb Hs Hv Hready.
  rewrite (checkInBooking_accepted arrival id db booking Hb Hs), Hv.
  cbn [fst snd code_of]. split; [reflexivity|].
  set (b1 := Booking.pre_save arrival
               (Booking.set_actualCheckIn arrival
                  (Booking.set_status "checked-in" booking))).
  set (db1 := BookingController.set_bookings
                (<[id := b1]> (BookingController.bookings db)) db).
  assert (Hb1 : BookingController.bookings db1 !! id = Some b1)
    by apply lookup_insert_eq.
  assert (Hv1 : Booking.validate b1 = true).
  { apply (validate_set_status "checked-in" booking Hv). reflexivity. }
  destruct (checkOutBooking_accepted departure id db1 b1 Hb1 eq_refl Hv1)
    as [Hsaved Hok].
  split; [rewrite (Hok Hready); reflexivity|]. split; [|split].
  - rewrite Hsaved. eexists. split; [apply lookup_insert_eq|].
    repeat split.
  - reflexivity.
  - intros key. apply (checkOutBooking_rooms departure id db1 key).
Qed.

Lemma stay_runs_its_course_witness :
  exists booking',
    BookingController.bookings
      (fst (BookingController.checkOutBooking (Sample.day 20002) "b1"
        (fst (BookingController.checkInBooking (Sample.day 20000) "b1"
                Sample.hotel)))) !! "b1" = Some booking'
    /\ Booking.status booking' = "checked-out"
    /\ Booking.actualCheckIn booking' = Some (Sample.day 20000)
    /\ Booking.actualCheckOut booking' = Some (Sample.day 20002).
Proof.
  refine (proj1 (proj2 (proj2
    (stay_runs_its_course (Sample.day 20000) (Sample.day 20002) "b1"
       Sample.hotel Sample.stay _ _ _ _)))).
  - reflexivity.
  - reflexivity.
  - reflexivity.
  - apply sample_rooms_ready.
Defined.

(** ** The rooms are left alone *)

Lemma checkInBooking_rooms `{Calendar} now id db :
  BookingController.rooms (fst (BookingController.checkInBooking now id db))
  = BookingController.rooms db.
Proof.
  unfold BookingController.checkInBooking.
  repeat (match goal with
          | |- context [match ?x with _ => _ end] => destruct x
          end; try reflexivity).
Qed.

Lemma addServiceToBooking_rooms now user id body db :
  BookingController.rooms
    (fst (BookingLines.addServiceToBooking now user id body db))
  = BookingController.rooms db.
Proof.
  unfold BookingLines.addServiceToBooking.
  repeat (match goal with
          | |- context [match ?x with _ => _ end] => destruct x
          end; try reflexivity).
Qed.

Lemma addFoodOrder_rooms now uuid user id body db :
  BookingController.rooms
    (fst (BookingLines.addFoodOrder now uuid user id body db))
  = BookingController.rooms db.
Proof.
  unfold BookingLines.addFoodOrder.
  repeat (match goal with
          | |- context [match ?x with _ => _ end] => destruct x
          end; try reflexivity).
Qed.

Lemma updateBooking_rooms now user id body db :
  BookingController.rooms
    (fst (BookingLines.updateBooking now user id body db))
  = BookingController.rooms db.
Proof.
  unfold BookingLines.updateBooking.
  repeat (match goal with
          | |- context [match ?x with _ => _ end] => destruct x
          end; try reflexivity).
Qed.

(** X3. No handler of the booking controller changes a path of a room.  A
    creation, a check-in, the addition of a service or of a food order and
    an update leave the rooms as they were; a cancellation and a check-out
    leave every room as it was, up to the time stamp of the save.  The
    property [available] that a creation, a cancellation and a check-out
    assign is never stored. *)
Theorem rooms_are_left_alone `{Calendar} (db : BookingController.Db) :
  (forall now newId user body,
     BookingController.rooms
       (fst (BookingController.createBooking now newId user body db))
     = BookingController.rooms db)
  /\ (forall now user id key,
        sameRoom now (BookingController.rooms db !! key)
          (BookingController.rooms
             (fst (BookingController.cancelBooking now user id db)) !! key))
  /\ (forall now id,
        BookingController.rooms
          (fst (BookingController.checkInBooking now id db))
        = BookingController.rooms db)
  /\ (forall now id key,
        sameRoom now (BookingController.rooms db !! key)
          (BookingController.rooms
             (fst (BookingController.checkOutBooking now id db)) !! key))
  /\ (forall now user id body,
        BookingController.rooms
          (fst (BookingLines.addServiceToBooking now user id body db))
        = BookingController.rooms db)
  /\ (forall now uuid user id body,
        BookingController.rooms
          (fst (BookingLines.addFoodOrder now uuid user id body db))
        = BookingController.rooms db)
  /\ (forall now user id body,
        BookingController.rooms
          (fst (BookingLines.updateBooking now user id body db))
        = BookingController.rooms db).
Proof.
  split; [|split; [|split; [|split; [|split; [|split]]]]].
  - intros now newId user body.
    rewrite (proj1 (createBooking_answers now newId user body db)).
    reflexivity.
  - intros. apply cancelBooking_rooms.
  - intros. apply checkInBooking_rooms.
  - intros. apply checkOutBooking_rooms.
  - intros. apply addServiceToBooking_rooms.
  - intros. apply addFoodOrder_rooms.
  - intros. apply updateBooking_rooms.
Qed.

(** ** Pricing *)

(** X4. The recomputation reads the room rate, the nights, the package
    price, the discount, the services and the food orders, and nothing else:
    two bookings that agree on these get the same pricing record, whatever
    totals they carried before.  In particular recomputing twice in a row
    changes nothing. *)
Theorem calculateTotal_reads_inputs_only (b b' : Booking.t) :
  (Booking.roomRate (Booking.pricing b) = Booking.roomRate (Booking.pricing b') ->
   Booking.packagePrice (Booking.pricing b)
   = Booking.packagePrice (Booking.pricing b') ->
   Booking.discountAmount (Booking.pricing b)
   = Booking.discountAmount (Booking.pricing b') ->
   Booking.numberOfNights b = Booking.numberOfNights b' ->
   Booking.additionalServices b = Booking.additionalServices b' ->
   Booking.foodOrders b = Booking.foodOrders b' ->
   Booking.pricing (fst (Booking.calculateTotal b))
   = Booking.pricing (fst (Booking.calculateTotal b'))
   /\ snd (Booking.calculateTotal b) = snd (Booking.calculateTotal b'))
  /\ Booking.calculateTotal (fst (Booking.calculateTotal b))
     = Booking.calculateTotal b.
Proof.
  split; [|reflexivity].
  intros Hrate Hpkg Hdisc Hnights Hsvc Hfood.
  unfold Booking.calculateTotal. cbn [fst snd Booking.pricing Booking.set_pricing].
  assert (Heq : Booking.calculatePricing b = Booking.calculatePricing b').
  { unfold Booking.calculatePricing.
    rewrite Hrate, Hpkg, Hdisc, Hnights, Hsvc, Hfood. reflexivity. }
  rewrite Heq. split; reflexivity.
Qed.

Lemma calculateTotal_reads_inputs_only_witness :
  Booking.pricing (fst (Booking.calculateTotal Sample.stay))
  = Booking.pricing
      (fst (Booking.calculateTotal
              (Booking.set_pricing (Booking.mkPricing 2400 0 7 7 7 0 7)
                 (Sample.stayIn "cancelled")))).
Proof.
  refine (proj1 (proj1
    (calculateTotal_reads_inputs_only Sample.stay
       (Booking.set_pricing (Booking.mkPricing 2400 0 7 7 7 0 7)
          (Sample.stayIn "cancelled"))) _ _ _ _ _ _)); reflexivity.
Defined.

(** ** The document of a creation *)

(** The answer of a creation depends on the dates and on the room only. *)
Lemma createBooking_by_dates `{Calendar} now newId user body db :
  BookingController.createBooking now newId user body db
  = (db,
     if BookingController.checkInDate body <? now then
       Failure 400 "Check-in date cannot be in the past"
     else if BookingController.checkOutDate body
             <=? BookingController.checkInDate body then
       Failure 400 "Check-out date must be after check-in date"
     else
       match BookingController.rooms db !! BookingController.roomId body with
       | Some _ => Failure 500 "Failed to create booking"
       | None => Failure 404 "Room not found"
       end).
Proof.
  unfold BookingController.createBooking.
  destruct (BookingController.checkInDate body <? now); [reflexivity|].
  destruct (BookingController.checkOutDate body
            <=? BookingController.checkInDate body); [reflexivity|].
  unfold Room.findById.
  destruct (BookingController.rooms db !! BookingController.roomId body)
    as [room|]; [|reflexivity].
  cbn [Room.available Js.lt Room.paths].
  rewrite booking_save_refused by apply newBooking_refused.
  reflexivity.
Qed.

(** X5. The package of a creation request.  When the request names a
    package that is on file and available on the check-in date, the
    document that the handler builds keeps a copy of it at the seasonal
    price of that date, which is also the package price of the document.
    When it names a package that is not on file or not available on that
    date, the document is built without a package, at a package price of
    zero.  In no case does the package change the answer to the request:
    the answer is the one the request gets without a package. *)
Theorem createBooking_package `{Calendar} (now : Js.Date) (newId : string)
    (user : Principal) (body : BookingController.CreateBody)
    (db : BookingController.Db) (room : Room.t) (id : string) :
  let b := BookingController.newBooking now user body db room in
  let checkIn := BookingController.checkInDate body in
  BookingController.selectedPackage body = Some id ->
  (forall p,
     BookingController.packages db !! id = Some p ->
     Package.isAvailable p checkIn = true ->
     Booking.selectedPackage b
     = Some (Booking.mkPackageData id (Package.name p)
               (Package.description p)
               (Package.getSeasonalPrice p checkIn))
     /\ Booking.packagePrice (Booking.pricing b)
        = Package.getSeasonalPrice p checkIn)
  /\ (BookingController.packages db !! id = None
      \/ (exists p, BookingController.packages db !! id = Some p
                    /\ Package.isAvailable p checkIn = false) ->
      Booking.selectedPackage b = None
      /\ Booking.packagePrice (Booking.pricing b) = 0%Q)
  /\ BookingController.createBooking now newId user body db
     = BookingController.createBooking now newId user
         (BookingController.mkCreateBody (BookingController.roomId body)
            checkIn (BookingController.checkOutDate body) None
            (BookingController.additionalServices body)) db.
Proof.
  cbn zeta. intros Hsel. unfold BookingController.newBooking.
  unfold BookingController.packageFor. rewrite Hsel.
  split; [|split].
  - intros p Hp Havail. rewrite Hp, Havail. split; reflexivity.
  - intros [Hnone|(p & Hp & Havail)].
    + rewrite Hnone. split; reflexivity.
    + rewrite Hp, Havail. split; reflexivity.
  - rewrite !createBooking_by_dates. reflexivity.
Qed.

Lemma createBooking_package_witness :
  let b :=
    BookingController.newBooking (H := Utc.calendar) (Sample.day 19999)
      Sample.guest (Scenario.packageStay (Sample.day 20000)) Scenario.resort
      Sample.room101 in
  Booking.selectedPackage b = None
  /\ Booking.packagePrice (Booking.pricing b) = 0%Q.
Proof.
  refine (proj1 (proj2
    (createBooking_package (H := Utc.calendar) (Sample.day 19999) "b9"
       Sample.guest (Scenario.packageStay (Sample.day 20000))
       Scenario.resort Sample.room101 "p1" _)) _).
  - reflexivity.
  - right. exists Sample.getaway. split; [reflexivity|].
    vm_compute. reflexivity.
Defined.

(** ** The service lines of a creation *)

Lemma or_default_nonzero (x d : Q) :
  ~ (d == 0)%Q -> ~ (Js.or_default x d == 0)%Q.
Proof.
  intros Hd. unfold Js.or_default. destruct (Qeq_bool x 0) eqn:E.
  - exact Hd.
  - intros Hx. apply Qeq_eq_bool in Hx. congruence.
Qed.

Lemma opt_or_default_nonzero (x : option Q) (d : Q) :
  ~ (d == 0)%Q -> ~ (Js.opt_or_default x d == 0)%Q.
Proof.
  intros Hd. destruct x as [x|]; [apply or_default_nonzero|]; exact Hd.
Qed.

Lemma servicesWithPricing_lines db requested :
  Forall (fun line =>
            backedLine db line
            /\ ~ (Booking.serviceQuantity line == 0)%Q
            /\ Booking.serviceStatus line = "pending")
         (BookingController.servicesWithPricing db requested)
  /\ (length (BookingController.servicesWithPricing db requested)
      <= length requested)%nat.
Proof.
  induction requested as [|service rest [IHl IHn]]; cbn [BookingController.servicesWithPricing].
  - split; [constructor|reflexivity].
  - destruct (BookingController.services db !! BookingController.serviceId service)
      as [serviceObj|] eqn:Hlookup.
    + destruct (Service.isActive serviceObj) eqn:Hactive.
      * split; [|cbn [length]; lia].
        constructor; [|exact IHl]. split; [|split].
        -- exists serviceObj. cbn. auto.
        -- cbn. apply opt_or_default_nonzero. discriminate.
        -- reflexivity.
      * split; [exact IHl|cbn [length]; lia].
    + split; [exact IHl|cbn [length]; lia].
Qed.

Lemma servicesWithPricing_keeps db requested service serviceObj :
  In service requested ->
  BookingController.services db !! BookingController.serviceId service
  = Some serviceObj ->
  Service.isActive serviceObj = true ->
  exists line,
    In line (BookingController.servicesWithPricing db requested)
    /\ Booking.serviceId line = BookingController.serviceId service
    /\ Booking.servicePrice line = Service.price serviceObj.
Proof.
  intros Hin Hlookup Hactive.
  induction requested as [|first rest IH]; [destruct Hin|].
  cbn [BookingController.servicesWithPricing].
  destruct Hin as [->|Hin].
  - rewrite Hlookup, Hactive. eexists. split; [left; reflexivity|].
    split; reflexivity.
  - destruct (IH Hin) as (line & Hline & Hid & Hprice).
    exists line. split; [|auto].
    destruct (BookingController.services db !! BookingController.serviceId first)
      as [s|]; [destruct (Service.isActive s)|]; try right; exact Hline.
Qed.

Lemma newBooking_services `{Calendar} now user body db room :
  Booking.additionalServices
    (BookingController.newBooking now user body db room)
  = BookingController.servicesWithPricing db
      (BookingController.additionalServices body).
Proof.
  unfold BookingController.newBooking.
  destruct (BookingController.packageFor db _ _). reflexivity.
Qed.

(** X6. The services of a creation request.  The document that the handler
    builds carries one line for each requested service that is on file and
    active, at the catalog price, pending, and with a quantity that is
    never zero (a missing or zero quantity counts as one); a requested
    service that is not on file or not active is left out, so there are at
    most as many lines as requested services. *)
Theorem createBooking_services `{Calendar} (now : Js.Date)
    (user : Principal) (body : BookingController.CreateBody)
    (db : BookingController.Db) (room : Room.t) :
  let b := BookingController.newBooking now user body db room in
  Forall (fun line =>
            backedLine db line
            /\ ~ (Booking.serviceQuantity line == 0)%Q
            /\ Booking.serviceStatus line = "pending")
         (Booking.additionalServices b)
  /\ (length (Booking.additionalServices b)
      <= length (BookingController.additionalServices body))%nat
  /\ (forall service serviceObj,
        In service (BookingController.additionalServices body) ->
        BookingController.services db !! BookingController.serviceId service
        = Some serviceObj ->
        Service.isActive serviceObj = true ->
        exists line,
          In line (Booking.additionalServices b)
          /\ Booking.serviceId line = BookingController.serviceId service
          /\ Booking.servicePrice line = Service.price serviceObj).
Proof.
  cbn zeta. rewrite newBooking_services.
  destruct (servicesWithPricing_lines db
              (BookingController.additionalServices body)) as [Hl Hn].
  split; [exact Hl|]. split; [exact Hn|].
  intros service serviceObj. apply servicesWithPricing_keeps.
Qed.

Lemma createBooking_services_witness :
  exists line,
    In line
      (Booking.additionalServices
         (BookingController.newBooking (H := Utc.calendar) (Sample.day 19999)
            Sample.guest (Scenario.packageStay (Sample.day 20000))
            Scenario.resort Sample.room101))
    /\ Booking.serviceId line = "s1"
    /\ Booking.servicePrice line = 1500%Q.
Proof.
  refine (proj2 (proj2
    (createBooking_services (H := Utc.calendar) (Sample.day 19999)
       Sample.guest (Scenario.packageStay (Sample.day 20000))
       Scenario.resort Sample.room101))
    (BookingController.mkServiceRequest "s1" None None None) Scenario.spa
    _ _ _).
  - left. reflexivity.
  - reflexivity.
  - reflexivity.
Defined.

(** ** Stored totals do not go stale *)

Lemma upToDate_recomputed now (b : Booking.t) :
  Booking.numberOfNights b
  = Js.ceil_div (Booking.checkOutDate b - Booking.checkInDate b) Js.msPerDay ->
  upToDate (Booking.pre_save now (fst (Booking.calculateTotal b))).
Proof.
  intros Hn. unfold upToDate. split; [reflexivity|].
  assert (Hsub : bookingSubtotal
                   (Booking.pre_save now (fst (Booking.calculateTotal b)))
                 = bookingSubtotal b).
  { unfold bookingSubtotal. cbn. rewrite Hn. reflexivity. }
  unfold bookingTotal. rewrite Hsub. split.
  - apply calculatePricing_tax.
  - apply (calculatePricing_total b).
Qed.

Lemma upToDate_saved now (b b' : Booking.t) :
  upToDate b ->
  Booking.checkInDate b' = Booking.checkInDate b ->
  Booking.checkOutDate b' = Booking.checkOutDate b ->
  Booking.additionalServices b' = Booking.additionalServices b ->
  Booking.foodOrders b' = Booking.foodOrders b ->
  Booking.pricing b' = Booking.pricing b ->
  upToDate (Booking.pre_save now b').
Proof.
  intros (Hn & Htax & Htotal) Hin Hout Hsvc Hfood Hpricing.
  unfold upToDate, bookingTotal, bookingSubtotal in *.
  cbn [Booking.pre_save Booking.numberOfNights Booking.checkInDate
       Booking.checkOutDate Booking.pricing Booking.additionalServices
       Booking.foodOrders].
  rewrite Hin, Hout, Hsvc, Hfood, Hpricing.
  change (1000 * 3600 * 24) with Js.msPerDay.
  rewrite <- Hn. auto.
Qed.

Lemma allUpToDate_insert db id b :
  allUpToDate db ->
  upToDate b ->
  forall key b',
    <[id := b]> (BookingController.bookings db) !! key = Some b' ->
    upToDate b'.
Proof.
  intros Hall Hb key b'. rewrite lookup_insert. case_decide.
  - intros [= <-]. exact Hb.
  - apply Hall.
Qed.

(** What a handler that saves one booking leaves in the collection: the
    bookings as they were, or with the saved document, which satisfies the
    schema, in place. *)
Lemma saved_or_not isNew now id b bookings (P : gmap string Booking.t -> Prop) :
  P bookings ->
  (Booking.validate b = true ->
   P (<[id := Booking.pre_save now b]> bookings)) ->
  match Booking.save isNew now id b bookings with
  | Some saved => P saved
  | None => P bookings
  end.
Proof.
  intros Hold Hnew.
  destruct (Booking.save isNew now id b bookings) as [saved|] eqn:Hsave;
    [|exact Hold].
  apply booking_save_Some in Hsave. destruct Hsave as [Hv ->]. auto.
Qed.

(** The bookings after each handler, for a property of the collection. *)
Section BookingsAfter.

Variable P : gmap string Booking.t -> Prop.
Variable db : BookingController.Db.
Hypothesis Hold : P (BookingController.bookings db).

Lemma after_cancelBooking now user id :
  (forall booking,
     BookingController.bookings db !! id = Some booking ->
     let saved := Booking.set_status "cancelled" booking in
     Booking.validate saved = true ->
     P (<[id := Booking.pre_save now saved]> (BookingController.bookings db))) ->
  P (BookingController.bookings
       (fst (BookingController.cancelBooking now user id db))).
Proof.
  intros Hnew. unfold BookingController.cancelBooking.
  destruct (BookingController.bookings db !! id) as [booking|] eqn:Hb;
    [|exact Hold].
  destruct (BookingController.denied user booking); [exact Hold|].
  destruct (negb _); [exact Hold|].
  pose proof (saved_or_not false now id
                (Booking.set_status "cancelled" booking)
                (BookingController.bookings db) P Hold (Hnew _ eq_refl))
    as Hsaved.
  destruct (Booking.save _ _ _ _ _) as [saved|]; [|exact Hold].
  destruct (BookingController.restoreRoom _ _ _) as [db'|] eqn:Hrestore;
    cbn [fst]; [|exact Hsaved].
  rewrite (restoreRoom_bookings _ _ _ _ Hrestore). exact Hsaved.
Qed.

Lemma after_checkInBooking now id :
  (forall booking,
     BookingController.bookings db !! id = Some booking ->
     let saved :=
       Booking.set_actualCheckIn now
         (Booking.set_status "checked-in" booking) in
     Booking.validate saved = true ->
     P (<[id := Booking.pre_save now saved]> (BookingController.bookings db))) ->
  P (BookingController.bookings
       (fst (BookingController.checkInBooking now id db))).
Proof.
  intros Hnew. unfold BookingController.checkInBooking.
  destruct (BookingController.bookings db !! id) as [booking|] eqn:Hb;
    [|exact Hold].
  destruct (negb _); [exact Hold|].
  pose proof (saved_or_not false now id
                (Booking.set_actualCheckIn now
                   (Booking.set_status "checked-in" booking))
                (BookingController.bookings db) P Hold (Hnew _ eq_refl))
    as Hsaved.
  destruct (Booking.save _ _ _ _ _) as [saved|]; [exact Hsaved|exact Hold].
Qed.

Lemma after_checkOutBooking now id :
  (forall booking,
     BookingController.bookings db !! id = Some booking ->
     let saved :=
       Booking.set_actualCheckOut now
         (Booking.set_status "checked-out" booking) in
     Booking.validate saved = true ->
     P (<[id := Booking.pre_save now saved]> (BookingController.bookings db))) ->
  P (BookingController.bookings
       (fst (BookingController.checkOutBooking now id db))).
Proof.
  intros Hnew. unfold BookingController.checkOutBooking.
  destruct (BookingController.bookings db !! id) as [booking|] eqn:Hb;
    [|exact Hold].
  destruct (negb _); [exact Hold|].
  pose proof (saved_or_not false now id
                (Booking.set_actualCheckOut now
                   (Booking.set_status "checked-out" booking))
                (BookingController.bookings db) P Hold (Hnew _ eq_refl))
    as Hsaved.
  destruct (Booking.save _ _ _ _ _) as [saved|]; [|exact Hold].
  destruct (BookingController.restoreRoom _ _ _) as [db'|] eqn:Hrestore;
    cbn [fst]; [|exact Hsaved].
  rewrite (restoreRoom_bookings _ _ _ _ Hrestore). exact Hsaved.
Qed.

Lemma after_addServiceToBooking now user id body :
  (forall booking service,
     BookingController.bookings db !! id = Some booking ->
     BookingController.services db !! BookingLines.serviceId body
     = Some service ->
     let saved :=
       fst (Booking.calculateTotal
              (Booking.set_additionalServices
                 (Booking.additionalServices booking
                  ++ [Booking.mkServiceLine (BookingLines.serviceId body)
                        (Service.name service) (Service.category service)
                        (Service.price service)
                        (default 1%Q (BookingLines.quantity body))
                        (BookingLines.scheduledDate body)
                        (BookingLines.scheduledTime body) "pending"])
                 booking)) in
     Booking.validate saved = true ->
     P (<[id := Booking.pre_save now saved]> (BookingController.bookings db))) ->
  P (BookingController.bookings
       (fst (BookingLines.addServiceToBooking now user id body db))).
Proof.
  intros Hnew. unfold BookingLines.addServiceToBooking.
  destruct (BookingController.bookings db !! id) as [booking|] eqn:Hb;
    [|exact Hold].
  destruct (BookingController.denied user booking); [exact Hold|].
  destruct (BookingController.services db !! BookingLines.serviceId body)
    as [service|] eqn:Hservice; [|exact Hold].
  destruct (negb _); [exact Hold|].
  match goal with
  | |- context [Booking.save false now id ?b ?m] =>
      pose proof (saved_or_not false now id b m P Hold
                    (Hnew _ _ eq_refl eq_refl)) as Hsaved;
      destruct (Booking.save false now id b m)
  end; [exact Hsaved|exact Hold].
Qed.

Lemma after_addFoodOrder now uuid user id body :
  (forall booking,
     BookingController.bookings db !! id = Some booking ->
     let saved :=
       fst (Booking.calculateTotal
              (Booking.set_foodOrders
                 (Booking.foodOrders booking
                  ++ [Booking.mkFoodOrder uuid (BookingLines.items body)
                        (BookingLines.orderType body) "ordered"
                        (BookingLines.foodAmount (BookingLines.items body))])
                 booking)) in
     Booking.validate saved = true ->
     P (<[id := Booking.pre_save now saved]> (BookingController.bookings db))) ->
  P (BookingController.bookings
       (fst (BookingLines.addFoodOrder now uuid user id body db))).
Proof.
  intros Hnew. unfold BookingLines.addFoodOrder.
  destruct (BookingController.bookings db !! id) as [booking|] eqn:Hb;
    [|exact Hold].
  destruct (BookingController.denied user booking); [exact Hold|].
  match goal with
  | |- context [Booking.save false now id ?b ?m] =>
      pose proof (saved_or_not false now id b m P Hold (Hnew _ eq_refl))
        as Hsaved;
      destruct (Booking.save false now id b m)
  end; [exact Hsaved|exact Hold].
Qed.

Lemma after_updateBooking now user id body :
  (forall booking,
     BookingController.bookings db !! id = Some booking ->
     let saved :=
       if String.eqb (role user) "user" then booking
       else BookingLines.assignStaffFields body booking in
     Booking.validate saved = true ->
     P (<[id := Booking.pre_save now saved]> (BookingController.bookings db))) ->
  P (BookingController.bookings
       (fst (BookingLines.updateBooking now user id body db))).
Proof.
  intros Hnew. unfold BookingLines.updateBooking.
  destruct (BookingController.bookings db !! id) as [booking|] eqn:Hb;
    [|exact Hold].
  destruct (BookingController.denied user booking); [exact Hold|].
  specialize (Hnew _ eq_refl). cbn zeta in Hnew.
  destruct (String.eqb (role user) "user").
  - destruct (negb _); [exact Hold|].
    pose proof (saved_or_not false now id booking
                  (BookingController.bookings db) P Hold Hnew) as Hsaved.
    destruct (Booking.save _ _ _ _ _); [exact Hsaved|exact Hold].
  - pose proof (saved_or_not false now id
                  (BookingLines.assignStaffFields body booking)
                  (BookingController.bookings db) P Hold Hnew) as Hsaved.
    destruct (Booking.save _ _ _ _ _); [exact Hsaved|exact Hold].
Qed.

End BookingsAfter.

(** X7. Stored totals do not go stale.  When every booking on file has the
    nights of its dates, a tax of 18% of its subtotal and the total of the
    pricing rule, this is still so after a cancellation, a check-in, a
    check-out, the addition of a service or of a food order, and an update
    sent by a guest, whether the request is accepted, refused or fails. *)
Theorem totals_stay_up_to_date (db : BookingController.Db) :
  allUpToDate db ->
  (forall now user id,
     allUpToDate (fst (BookingController.cancelBooking now user id db)))
  /\ (forall now id,
        allUpToDate (fst (BookingController.checkInBooking now id db)))
  /\ (forall now id,
        allUpToDate (fst (BookingController.checkOutBooking now id db)))
  /\ (forall now user id body,
        allUpToDate (fst (BookingLines.addServiceToBooking now user id body db)))
  /\ (forall now uuid user id body,
        allUpToDate (fst (BookingLines.addFoodOrder now uuid user id body db)))
  /\ (forall now user id body,
        role user = "user" ->
        allUpToDate (fst (BookingLines.updateBooking now user id body db))).
Proof.
  intros Hall.
  set (P := fun bookings : gmap string Booking.t =>
              forall id b, bookings !! id = Some b -> upToDate b).
  assert (Hold : P (BookingController.bookings db)) by exact Hall.
  split; [|split; [|split; [|split; [|split]]]].
  - intros now user id. apply (after_cancelBooking P db Hold).
    intros booking Hb. cbn zeta. intros _. unfold P. apply allUpToDate_insert; [exact Hall|].
    apply (upToDate_saved now booking); auto. exact (Hall _ _ Hb).
  - intros now id. apply (after_checkInBooking P db Hold).
    intros booking Hb. cbn zeta. intros _. unfold P. apply allUpToDate_insert; [exact Hall|].
    apply (upToDate_saved now booking); auto. exact (Hall _ _ Hb).
  - intros now id. apply (after_checkOutBooking P db Hold).
    intros booking Hb. cbn zeta. intros _. unfold P. apply allUpToDate_insert; [exact Hall|].
    apply (upToDate_saved now booking); auto. exact (Hall _ _ Hb).
  - intros now user id body. apply (after_addServiceToBooking P db Hold).
    intros booking service Hb _. cbn zeta. intros _. unfold P. apply allUpToDate_insert; [exact Hall|].
    apply upToDate_recomputed. exact (proj1 (Hall _ _ Hb)).
  - intros now uuid user id body. apply (after_addFoodOrder P db Hold).
    intros booking Hb. cbn zeta. intros _. unfold P. apply allUpToDate_insert; [exact Hall|].
    apply upToDate_recomputed. exact (proj1 (Hall _ _ Hb)).
  - intros now user id body Hrole. apply (after_updateBooking P db Hold).
    intros booking Hb. cbn zeta. intros _. rewrite Hrole. cbn [String.eqb Ascii.eqb Bool.eqb].
    unfold P. apply allUpToDate_insert; [exact Hall|].
    apply (upToDate_saved now booking); auto. exact (Hall _ _ Hb).
Qed.

Lemma sample_hotel_upToDate : allUpToDate Sample.hotel.
Proof.
  intros id b. unfold Sample.hotel. cbn [BookingController.bookings].
  rewrite !lookup_insert, lookup_empty.
  repeat case_decide; intros [= <-]; repeat split; vm_compute; reflexivity.
Qed.

Lemma totals_stay_up_to_date_witness :
  allUpToDate
    (fst (BookingLines.addFoodOrder (Sample.day 20001) "f1" Sample.guest "b2"
            (BookingLines.mkFoodBody
               [Booking.mkFoodItem "m1" "Masala tea" 2 100]
               (Some "room-service"))
            Sample.hotel)).
Proof.
  exact (proj1 (proj2 (proj2 (proj2 (proj2
    (totals_stay_up_to_date Sample.hotel sample_hotel_upToDate)))))
    (Sample.day 20001) "f1" Sample.guest "b2"
    (BookingLines.mkFoodBody [Booking.mkFoodItem "m1" "Masala tea" 2 100]
       (Some "room-service"))).
Defined.

(** ** Adding a service or a food order *)

Lemma sumQ_app_one {A} (f : A -> Q) (l : list A) (x : A) :
  (sumQ (map f (l ++ [x])) == sumQ (map f l) + f x)%Q.
Proof.
  induction l as [|y l IH]; cbn [app map sumQ fold_right].
  - ring.
  - unfold sumQ in IH. rewrite IH. ring.
Qed.

Lemma forallb_app_one {A} (f : A -> bool) (l : list A) (x : A) :
  forallb f (l ++ [x]) = forallb f l && f x.
Proof.
  rewrite forallb_app. cbn [forallb]. rewrite andb_true_r. reflexivity.
Qed.

(** A booking with one more service line satisfies the schema exactly when
    the booking and the line do. *)
Lemma validate_with_service (booking : Booking.t) (line : Booking.ServiceLine) :
  Booking.validate booking = true ->
  Booking.validate
    (fst (Booking.calculateTotal
            (Booking.set_additionalServices
               (Booking.additionalServices booking ++ [line]) booking)))
  = Booking.validServiceLine line.
Proof.
  intros Hv. apply booking_validate_iff in Hv.
  destruct Hv as (H1 & H2 & H3 & H4 & H5).
  unfold Booking.validate.
  cbn [Booking.calculateTotal fst Booking.set_pricing
       Booking.set_additionalServices Booking.bookingNumber
       Booking.additionalServices Booking.foodOrders Booking.payment
       Booking.status].
  rewrite forallb_app_one, H1, H2, H3, H4, H5.
  cbn [andb]. rewrite !andb_true_r. reflexivity.
Qed.

Lemma validate_with_food (booking : Booking.t) (order : Booking.FoodOrder) :
  Booking.validate booking = true ->
  Booking.validate
    (fst (Booking.calculateTotal
            (Booking.set_foodOrders
               (Booking.foodOrders booking ++ [order]) booking)))
  = Booking.validFoodOrder order.
Proof.
  intros Hv. apply booking_validate_iff in Hv.
  destruct Hv as (H1 & H2 & H3 & H4 & H5).
  unfold Booking.validate.
  cbn [Booking.calculateTotal fst Booking.set_pricing
       Booking.set_foodOrders Booking.bookingNumber
       Booking.additionalServices Booking.foodOrders Booking.payment
       Booking.status].
  rewrite forallb_app_one, H1, H2, H3, H4, H5.
  cbn [andb]. rewrite !andb_true_r. reflexivity.
Qed.

(** X8. Adding a service.  For a booking on file that satisfies its
    schema, a caller whom the access check lets through and a service that
    is on file, active and of a category of the schema, the booking gets
    one more pending line at the catalog price, with the stated quantity or
    one when none is stated, whatever the status of the booking; the stored
    total is the total the pricing rule gave before, plus 118% of price
    times quantity.  A service that is not on file or not active is
    answered with 404, and a guest who does not own the booking with 403;
    a service of a category that the booking schema does not accept is
    answered with 500; all three leave the store as it was. *)
Theorem addServiceToBooking_adds (now : Js.Date) (user : Principal)
    (id : string) (body : BookingLines.ServiceBody)
    (db : BookingController.Db) (booking : Booking.t) :
  let result := BookingLines.addServiceToBooking now user id body db in
  let quantity := default 1%Q (BookingLines.quantity body) in
  BookingController.bookings db !! id = Some booking ->
  (BookingController.denied user booking = true ->
     result = (db, Failure 403 "Access denied"))
  /\ (BookingController.denied user booking = false ->
      (BookingController.services db !! BookingLines.serviceId body = None
       \/ exists service,
            BookingController.services db !! BookingLines.serviceId body
            = Some service /\ Service.isActive service = false) ->
      result = (db, Failure 404 "Service not found or not available"))
  /\ (forall service,
        BookingController.denied user booking = false ->
        BookingController.services db !! BookingLines.serviceId body
        = Some service ->
        Service.isActive service = true ->
        Booking.validate booking = true ->
        (Js.includes Booking.serviceTypes (Service.category service) = true ->
         code_of (snd result) = 200
         /\ exists booking',
              BookingController.bookings (fst result) !! id = Some booking'
              /\ Booking.status booking' = Booking.status booking
              /\ Booking.additionalServices booking'
                 = Booking.additionalServices booking
                   ++ [Booking.mkServiceLine (BookingLines.serviceId body)
                         (Service.name service) (Service.category service)
                         (Service.price service) quantity
                         (BookingLines.scheduledDate body)
                         (BookingLines.scheduledTime body) "pending"]
              /\ (Booking.totalAmount (Booking.pricing booking')
                  == bookingTotal booking
                     + Service.price service * quantity * (118 # 100))%Q)
        /\ (Js.includes Booking.serviceTypes (Service.category service) = false ->
            result = (db, Failure 500 "Failed to add service to booking"))).
Proof.
  cbn zeta. intros Hb. unfold BookingLines.addServiceToBooking. rewrite Hb.
  split; [|split].
  - intros ->. reflexivity.
  - intros -> [->|(service & -> & ->)]; reflexivity.
  - intros service -> -> -> Hv. cbn [negb]. split; intros Htype.
    + rewrite booking_save_loaded.
      2:{ rewrite (validate_with_service booking _ Hv).
          unfold Booking.validServiceLine.
          cbn [Booking.serviceType Booking.serviceStatus].
          rewrite Htype. reflexivity. }
      cbn [fst snd code_of]. split; [reflexivity|].
      cbn [BookingController.bookings BookingController.set_bookings].
      eexists. split; [apply lookup_insert_eq|].
      split; [reflexivity|]. split; [reflexivity|].
      cbn [Booking.pre_save Booking.pricing Booking.calculateTotal fst
           Booking.set_pricing].
      rewrite calculatePricing_total. unfold bookingTotal, bookingSubtotal.
      cbn [Booking.pricing Booking.numberOfNights Booking.additionalServices
           Booking.foodOrders Booking.set_additionalServices].
      rewrite sumQ_app_one. cbn [Booking.servicePrice Booking.serviceQuantity].
      ring.
    + rewrite booking_save_refused; [reflexivity|].
      rewrite (validate_with_service booking _ Hv).
      unfold Booking.validServiceLine.
      cbn [Booking.serviceType Booking.serviceStatus].
      rewrite Htype. reflexivity.
Qed.

Lemma addServiceToBooking_adds_witness :
  exists booking',
    BookingController.bookings
      (fst (BookingLines.addServiceToBooking (Sample.day 19999) Sample.guest
              "b4" (BookingLines.mkServiceBody "s1" None None None)
              Scenario.resort)) !! "b4" = Some booking'
    /\ Booking.status booking' = "cancelled"
    /\ (Booking.totalAmount (Booking.pricing booking') == 5664 + 1770)%Q.
Proof.
  destruct (addServiceToBooking_adds (Sample.day 19999) Sample.guest "b4"
              (BookingLines.mkServiceBody "s1" None None None)
              Scenario.resort (Sample.stayIn "cancelled") eq_refl)
    as (_ & _ & Hadd).
  destruct (Hadd Scenario.spa eq_refl eq_refl eq_refl eq_refl) as [Hok _].
  destruct (Hok eq_refl) as (_ & booking' & Hfile & Hstatus & _ & Htotal).
  exists booking'. split; [exact Hfile|]. split; [exact Hstatus|].
  rewrite Htotal. reflexivity.
Defined.

Lemma foodAmount_sum (items : list Booking.FoodItem) :
  (BookingLines.foodAmount items == foodSum items)%Q.
Proof.
  unfold BookingLines.foodAmount, foodSum.
  rewrite (fold_left_sumQ
             (fun item => Booking.itemPrice item * Booking.itemQuantity item)%Q).
  ring.
Qed.

(** X9. Adding a food order.  For a booking on file that satisfies its
    schema and a caller whom the access check lets through, an order whose
    kind is room-service, restaurant or takeaway, or that states no kind,
    is added to the booking in state ordered; its amount is the sum of
    price times quantity over the items at the prices the caller states,
    and the stored total is the total the pricing rule gave before, plus
    118% of that amount.  No status of the booking stands in the way.  An
    order of any other kind is answered with 500, and a guest who does not
    own the booking with 403; both leave the store as it was. *)
Theorem addFoodOrder_adds (now : Js.Date) (uuid : string) (user : Principal)
    (id : string) (body : BookingLines.FoodBody)
    (db : BookingController.Db) (booking : Booking.t) :
  let result := BookingLines.addFoodOrder now uuid user id body db in
  BookingController.bookings db !! id = Some booking ->
  (BookingController.denied user booking = true ->
     result = (db, Failure 403 "Access denied"))
  /\ (BookingController.denied user booking = false ->
      Booking.validate booking = true ->
      Js.enum Booking.orderTypes (BookingLines.orderType body) = true ->
      code_of (snd result) = 200
      /\ exists booking' order,
           BookingController.bookings (fst result) !! id = Some booking'
           /\ Booking.status booking' = Booking.status booking
           /\ Booking.foodOrders booking'
              = Booking.foodOrders booking ++ [order]
           /\ Booking.orderId order = uuid
           /\ Booking.items order = BookingLines.items body
           /\ Booking.orderType order = BookingLines.orderType body
           /\ Booking.orderStatus order = "ordered"
           /\ (Booking.orderTotal order == foodSum (BookingLines.items body))%Q
           /\ (Booking.totalAmount (Booking.pricing booking')
               == bookingTotal booking
                  + foodSum (BookingLines.items body) * (118 # 100))%Q)
  /\ (BookingController.denied user booking = false ->
      Booking.validate booking = true ->
      Js.enum Booking.orderTypes (BookingLines.orderType body) = false ->
      result = (db, Failure 500 "Failed to add food order")).
Proof.
  cbn zeta. intros Hb. unfold BookingLines.addFoodOrder. rewrite Hb.
  split; [|split].
  - intros ->. reflexivity.
  - intros -> Hv Htype.
    rewrite booking_save_loaded.
    2:{ rewrite (validate_with_food booking _ Hv).
        unfold Booking.validFoodOrder.
        cbn [Booking.orderType Booking.orderStatus].
        rewrite Htype. reflexivity. }
    cbn [fst snd code_of]. split; [reflexivity|].
    cbn [BookingController.bookings BookingController.set_bookings].
    eexists. eexists. split; [apply lookup_insert_eq|].
    split; [reflexivity|]. split; [reflexivity|].
    split; [reflexivity|]. split; [reflexivity|]. split; [reflexivity|].
    split; [reflexivity|].
    split; [apply foodAmount_sum|].
    cbn [Booking.pre_save Booking.pricing Booking.calculateTotal fst
         Booking.set_pricing].
    rewrite calculatePricing_total. unfold bookingTotal, bookingSubtotal.
    cbn [Booking.pricing Booking.numberOfNights Booking.additionalServices
         Booking.foodOrders Booking.set_foodOrders].
    rewrite sumQ_app_one. cbn [Booking.orderTotal].
    rewrite foodAmount_sum. ring.
  - intros -> Hv Htype.
    rewrite booking_save_refused; [reflexivity|].
    rewrite (validate_with_food booking _ Hv).
    unfold Booking.validFoodOrder.
    cbn [Booking.orderType Booking.orderStatus].
    rewrite Htype. reflexivity.
Qed.

Lemma addFoodOrder_adds_witness :
  BookingLines.addFoodOrder (Sample.day 20001) "f1" Sample.guest "b2"
    (BookingLines.mkFoodBody [Booking.mkFoodItem "m1" "Masala tea" 2 100]
       (Some "delivery"))
    Sample.hotel
  = (Sample.hotel, Failure 500 "Failed to add food order")
  /\ exists booking',
       BookingController.bookings
         (fst (BookingLines.addFoodOrder (Sample.day 20001) "f1" Sample.guest
                 "b2"
                 (BookingLines.mkFoodBody
                    [Booking.mkFoodItem "m1" "Masala tea" 2 100]
                    (Some "room-service"))
                 Sample.hotel)) !! "b2" = Some booking'
       /\ (Booking.totalAmount (Booking.pricing booking') == 5664 + 236)%Q.
Proof.
  split.
  - refine (proj2 (proj2
      (addFoodOrder_adds (Sample.day 20001) "f1" Sample.guest "b2"
         (BookingLines.mkFoodBody
            [Booking.mkFoodItem "m1" "Masala tea" 2 100] (Some "delivery"))
         Sample.hotel (Sample.stayIn "checked-in") eq_refl)) _ _ _);
      reflexivity.
  - destruct (addFoodOrder_adds (Sample.day 20001) "f1" Sample.guest "b2"
                (BookingLines.mkFoodBody
                   [Booking.mkFoodItem "m1" "Masala tea" 2 100]
                   (Some "room-service"))
                Sample.hotel (Sample.stayIn "checked-in") eq_refl)
      as (_ & Hadd & _).
    destruct (Hadd eq_refl eq_refl eq_refl)
      as (_ & booking' & order & Hfile & _ & _ & _ & _ & _ & _ & _ & Htotal).
    exists booking'. split; [exact Hfile|]. rewrite Htotal. reflexivity.
Defined.

(** ** Updates *)

Lemma denied_staff (user : Principal) (booking : Booking.t) :
  role user <> "user" -> BookingController.denied user booking = false.
Proof.
  intros Hrole. unfold BookingController.denied.
  apply String.eqb_neq in Hrole. rewrite Hrole. reflexivity.
Qed.

Lemma updateBooking_staff now user id body db booking :
  role user <> "user" ->
  BookingController.bookings db !! id = Some booking ->
  BookingLines.updateBooking now user id body db
  = match Booking.save false now id
            (BookingLines.assignStaffFields body booking)
            (BookingController.bookings db) with
    | Some saved =>
        (BookingController.set_bookings saved db,
         Success 200 "Booking updated successfully")
    | None => (db, Failure 500 "Failed to update booking")
    end.
Proof.
  intros Hrole Hb. unfold BookingLines.updateBooking.
  rewrite Hb, (denied_staff user booking Hrole).
  apply String.eqb_neq in Hrole. rewrite Hrole. reflexivity.
Qed.

Lemma validate_assign_status (s : string) (booking : Booking.t) :
  Booking.validate booking = true ->
  Booking.validate
    (BookingLines.assignStaffFields
       (BookingLines.mkUpdateBody (Some s) None None None) booking)
  = Js.includes Booking.statuses s.
Proof.
  intros Hv. apply booking_validate_iff in Hv.
  destruct Hv as (H1 & H2 & H3 & H4 & H5).
  unfold Booking.validate, BookingLines.assignStaffFields.
  cbn [Booking.bookingNumber Booking.additionalServices Booking.foodOrders
       Booking.payment Booking.status BookingLines.status
       BookingLines.pricing default from_option id].
  rewrite H1, H2, H3, H4. reflexivity.
Qed.

Lemma roomReady_after (db db' : BookingController.Db) (booking booking' : Booking.t)
    (now : Js.Date) :
  Booking.room booking' = Booking.room booking ->
  (forall key,
     sameRoom now (BookingController.rooms db !! key)
       (BookingController.rooms db' !! key)) ->
  roomReady db booking ->
  roomReady db' booking'.
Proof.
  intros Hroom Hsame Hready room. rewrite Hroom.
  destruct (Hsame (Booking.room booking)) as [->| ->].
  - apply Hready.
  - destruct (BookingController.rooms db !! Booking.room booking)
      as [r|] eqn:Hr; [|discriminate].
    intros [= <-]. exact (Hready r Hr).
Qed.

(** X10. A cancellation is not final.  An update sent by a staff member
    writes the status it states, when the schema accepts it, and touches no
    room; so it can undo a cancellation, and the revived booking can be
    cancelled again.  For a confirmed booking that satisfies its schema,
    and whose room satisfies its own, a cancellation, an update back to
    confirmed and a second cancellation are all answered with 200, the
    booking being cancelled, confirmed and cancelled in turn.  An update
    that states a status outside the schema is answered with 500 and
    leaves the store as it was. *)
Theorem cancelled_booking_can_be_revived (first second third : Js.Date)
    (user : Principal) (id : string) (db : BookingController.Db)
    (booking : Booking.t) :
  let cancelled := BookingController.cancelBooking first user id db in
  let revived :=
    BookingLines.updateBooking second user id
      (BookingLines.mkUpdateBody (Some "confirmed") None None None)
      (fst cancelled) in
  let again := BookingController.cancelBooking third user id (fst revived) in
  role user <> "user" ->
  BookingController.bookings db !! id = Some booking ->
  Booking.status booking = "confirmed" ->
  Booking.validate booking = true ->
  roomReady db booking ->
  code_of (snd cancelled) = 200
  /\ code_of (snd revived) = 200
  /\ code_of (snd again) = 200
  /\ BookingController.rooms (fst revived)
     = BookingController.rooms (fst cancelled)
  /\ (exists b,
        BookingController.bookings (fst cancelled) !! id = Some b
        /\ Booking.status b = "cancelled")
  /\ (exists b,
        BookingController.bookings (fst revived) !! id = Some b
        /\ Booking.status b = "confirmed")
  /\ (exists b,
        BookingController.bookings (fst again) !! id = Some b
        /\ Booking.status b = "cancelled")
  /\ (forall now status,
        ~ In status Booking.statuses ->
        BookingLines.updateBooking now user id
          (BookingLines.mkUpdateBody (Some status) None None None) db
        = (db, Failure 500 "Failed to update booking")).
Proof.
  cbn zeta. intros Hrole Hb Hs Hv Hready.
  assert (Hcancellable :
    Js.includes ["confirmed"; "checked-in"] (Booking.status booking) = true)
    by (rewrite Hs; reflexivity).
  destruct (cancelBooking_accepted first user id db booking Hb
              (denied_staff user booking Hrole) Hcancellable Hv)
    as [Hsaved1 Hok1].
  pose proof (Hok1 Hready) as Hres1.
  set (b1 := Booking.pre_save first (Booking.set_status "cancelled" booking))
    in *.
  assert (Hv1 : Booking.validate b1 = true).
  { apply (validate_set_status "cancelled" booking Hv). reflexivity. }
  set (db1 := fst (BookingController.cancelBooking first user id db)) in *.
  assert (Hb1 : BookingController.bookings db1 !! id = Some b1).
  { rewrite Hsaved1. apply lookup_insert_eq. }
  assert (Hready1 : roomReady db1 b1).
  { apply (roomReady_after db db1 booking b1 first); [reflexivity| |exact Hready].
    intros key. apply cancelBooking_rooms. }
  split; [rewrite Hres1; reflexivity|].
  rewrite (updateBooking_staff second user id _ db1 b1 Hrole Hb1).
  set (b2 := BookingLines.assignStaffFields
               (BookingLines.mkUpdateBody (Some "confirmed") None None None) b1).
  assert (Hv2 : Booking.validate b2 = true).
  { unfold b2. rewrite (validate_assign_status "confirmed" b1 Hv1).
    reflexivity. }
  rewrite (booking_save_loaded second id b2 _ Hv2).
  cbn [fst snd code_of]. split; [reflexivity|].
  set (db2 := BookingController.set_bookings
                (<[id := Booking.pre_save second b2]>
                   (BookingController.bookings db1)) db1).
  assert (Hb2 : BookingController.bookings db2 !! id
                = Some (Booking.pre_save second b2)).
  { apply lookup_insert_eq. }
  assert (Hready2 : roomReady db2 (Booking.pre_save second b2)).
  { intros room. apply Hready1. }
  destruct (cancelBooking_accepted third user id db2 (Booking.pre_save second b2)
              Hb2 (denied_staff user _ Hrole) eq_refl Hv2)
    as [Hsaved3 Hok3].
  split; [rewrite (Hok3 Hready2); reflexivity|].
  split; [reflexivity|]. split; [|split; [|split]].
  - exists b1. split; [exact Hb1|reflexivity].
  - eexists. split; [exact Hb2|reflexivity].
  - rewrite Hsaved3. eexists. split; [apply lookup_insert_eq|reflexivity].
  - intros now status Hout.
    rewrite (updateBooking_staff now user id _ db booking Hrole Hb).
    rewrite booking_save_refused; [reflexivity|].
    rewrite (validate_assign_status status booking Hv).
    apply not_true_is_false. rewrite includes_In. exact Hout.
Qed.

Lemma cancelled_booking_can_be_revived_witness :
  exists b,
    BookingController.bookings
      (fst (BookingController.cancelBooking (Sample.day 20003) Sample.staff "b1"
        (fst (BookingLines.updateBooking (Sample.day 20002) Sample.staff "b1"
                (BookingLines.mkUpdateBody (Some "confirmed") None None None)
          (fst (BookingController.cancelBooking (Sample.day 20001) Sample.staff
                  "b1" Sample.hotel)))))) !! "b1" = Some b
    /\ Booking.status b = "cancelled".
Proof.
  refine (proj1 (proj2 (proj2 (proj2 (proj2 (proj2 (proj2
    (cancelled_booking_can_be_revived (Sample.day 20001) (Sample.day 20002)
       (Sample.day 20003) Sample.staff "b1" Sample.hotel Sample.stay
       _ _ _ _ _)))))))).
  - discriminate.
  - reflexivity.
  - reflexivity.
  - reflexivity.
  - apply sample_rooms_ready.
Defined.

(** X11. An update sent by a guest leaves the status, the pricing, the
    lines, the dates and the check-in and check-out stamps of the booking
    alone, whatever the body states: it is answered with 403 when the guest
    does not own the booking and with 400 unless the booking is confirmed,
    both leaving the store as it was; otherwise the booking, when it
    satisfies its schema, is saved again as it was, with the answer 200,
    and no room is touched. *)
Theorem guest_update_changes_nothing (now : Js.Date) (user : Principal)
    (id : string) (body : BookingLines.UpdateBody)
    (db : BookingController.Db) (booking : Booking.t) :
  let result := BookingLines.updateBooking now user id body db in
  role user = "user" ->
  BookingController.bookings db !! id = Some booking ->
  (Booking.user booking <> principalId user ->
     result = (db, Failure 403 "Access denied"))
  /\ (Booking.user booking = principalId user ->
      Booking.status booking <> "confirmed" ->
      result = (db, Failure 400 "Cannot modify booking in current status"))
  /\ (Booking.user booking = principalId user ->
      Booking.status booking = "confirmed" ->
      Booking.validate booking = true ->
      code_of (snd result) = 200
      /\ BookingController.bookings (fst result) !! id
         = Some (Booking.pre_save now booking)
      /\ BookingController.rooms (fst result) = BookingController.rooms db)
  /\ (Booking.user booking = principalId user ->
      Booking.status booking = "confirmed" ->
      Booking.validate booking = false ->
      result = (db, Failure 500 "Failed to update booking")).
Proof.
  cbn zeta. intros Hrole Hb. unfold BookingLines.updateBooking.
  rewrite Hb. unfold BookingController.denied. rewrite Hrole.
  cbn [String.eqb Ascii.eqb Bool.eqb andb].
  split; [|split; [|split]].
  - intros Hother. apply String.eqb_neq in Hother. rewrite Hother. reflexivity.
  - intros Hown Hs. rewrite Hown, String.eqb_refl. cbn [negb].
    apply String.eqb_neq in Hs. rewrite Hs. reflexivity.
  - intros Hown Hs Hv. rewrite Hown, String.eqb_refl, Hs.
    cbn [negb String.eqb Ascii.eqb Bool.eqb].
    rewrite booking_save_loaded by exact Hv.
    split; [reflexivity|]. split; [apply lookup_insert_eq|reflexivity].
  - intros Hown Hs Hv. rewrite Hown, String.eqb_refl, Hs.
    cbn [negb String.eqb Ascii.eqb Bool.eqb].
    rewrite booking_save_refused by exact Hv. reflexivity.
Qed.

Lemma guest_update_changes_nothing_witness :
  BookingLines.updateBooking (Sample.day 20001) Sample.guest "b2"
    (BookingLines.mkUpdateBody (Some "checked-out") None None None)
    Sample.hotel
  = (Sample.hotel, Failure 400 "Cannot modify booking in current status").
Proof.
  refine (proj1 (proj2
    (guest_update_changes_nothing (Sample.day 20001) Sample.guest "b2"
       (BookingLines.mkUpdateBody (Some "checked-out") None None None)
       Sample.hotel (Sample.stayIn "checked-in") _ _)) _ _).
  - reflexivity.
  - reflexivity.
  - reflexivity.
  - discriminate.
Defined.

(** ** The virtual fields of a booking *)

Ltac status_cases H :=
  unfold bookingStatuses in H; cbn [In] in H;
  repeat (destruct H as [H|H]); [..|destruct H].

(** X12. What [currentStatus] reports for a booking whose status is one of
    the schema.  It reports overdue exactly for a confirmed booking whose
    check-in and check-out dates have both passed, current exactly for a
    booking that is neither cancelled nor checked-out on a day from
    check-in to check-out, and upcoming exactly for such a booking before
    check-in; a checked-in guest who stays past the check-out date is
    reported as checked-in.  [daysUntilCheckIn] is at least one exactly
    when check-in lies ahead. *)
Theorem currentStatus_reports (today : Js.Date) (b : Booking.t) :
  In (Booking.status b) bookingStatuses ->
  let open := Booking.status b <> "cancelled"
              /\ Booking.status b <> "checked-out" in
  (BookingViews.currentStatus today b = "overdue"
   <-> Booking.status b = "confirmed"
       /\ Booking.checkInDate b <= today
       /\ Booking.checkOutDate b < today)
  /\ (BookingViews.currentStatus today b = "current"
      <-> open /\ Booking.checkInDate b <= today <= Booking.checkOutDate b)
  /\ (BookingViews.currentStatus today b = "upcoming"
      <-> open /\ today < Booking.checkInDate b)
  /\ (Booking.status b = "checked-in" ->
      Booking.checkInDate b <= today ->
      Booking.checkOutDate b < today ->
      BookingViews.currentStatus today b = "checked-in")
  /\ (1 <= BookingViews.daysUntilCheckIn today b
      <-> today < Booking.checkInDate b).
Proof.
  intros Hs. cbn zeta.
  assert (Hdays : 1 <= BookingViews.daysUntilCheckIn today b
                  <-> today < Booking.checkInDate b).
  { unfold BookingViews.daysUntilCheckIn. cbn zeta.
    pose proof (ceil_div_spec (Booking.checkInDate b - today)
                  (1000 * 3600 * 24) ltac:(lia)). lia. }
  unfold BookingViews.currentStatus. cbn zeta.
  status_cases Hs; rewrite <- Hs; cbn [String.eqb Ascii.eqb Bool.eqb andb];
    destruct (Z.ltb_spec today (Booking.checkInDate b));
    destruct (Z.geb_spec today (Booking.checkInDate b));
    destruct (Z.leb_spec today (Booking.checkOutDate b));
    destruct (Z.gtb_spec today (Booking.checkOutDate b));
    cbn [andb]; try lia;
    (repeat split; try exact (proj1 Hdays); try exact (proj2 Hdays);
     try discriminate; try reflexivity; try lia;
     try (intros; exfalso; intuition (discriminate || lia || congruence));
     try (intros; intuition (discriminate || lia || congruence))).
Qed.

Lemma currentStatus_reports_witness :
  BookingViews.currentStatus (Sample.day 20005) (Sample.stayIn "checked-in")
  = "checked-in".
Proof.
  refine (proj1 (proj2 (proj2 (proj2
    (currentStatus_reports (Sample.day 20005) (Sample.stayIn "checked-in") _))))
    _ _ _).
  - right. left. reflexivity.
  - reflexivity.
  - vm_compute. discriminate.
  - vm_compute. reflexivity.
Defined.

(** ** Booking numbers *)

Lemma app_cons (c : Ascii.ascii) (p s : string) :
  String c p +:+ s = String c (p +:+ s).
Proof. reflexivity. Qed.

Lemma app_empty (s : string) : "" +:+ s = s.
Proof. reflexivity. Qed.

Lemma substring_all (s : string) : String.substring 0 (String.length s) s = s.
Proof. induction s as [|c s IH]; cbn; [reflexivity|]. rewrite IH. reflexivity. Qed.

Lemma substring_skip (p s : string) (n : nat) :
  String.substring (String.length p) n (p +:+ s) = String.substring 0 n s.
Proof.
  induction p as [|c p IH]; [reflexivity|].
  rewrite app_cons. cbn. exact IH.
Qed.

Lemma length_app (p s : string) :
  String.length (p +:+ s) = (String.length p + String.length s)%nat.
Proof.
  induction p as [|c p IH]; [reflexivity|].
  rewrite app_cons. cbn. f_equal. exact IH.
Qed.

Lemma sliceLast_app (n : nat) (p s : string) :
  String.length s = n -> BookingNumber.sliceLast n (p +:+ s) = s.
Proof.
  intros <-. unfold BookingNumber.sliceLast.
  rewrite length_app.
  replace (String.length p + String.length s - String.length s)%nat
    with (String.length p) by lia.
  rewrite substring_skip. apply substring_all.
Qed.

Lemma prefix_app (p s : string) : String.prefix p (p +:+ s) = true.
Proof.
  induction p as [|c p IH].
  - rewrite app_empty. destruct s; reflexivity.
  - rewrite app_cons. cbn.
    destruct (Ascii.ascii_dec c c); [exact IH|congruence].
Qed.

Lemma ascii_compare_refl (c : Ascii.ascii) : Ascii.compare c c = Eq.
Proof. unfold Ascii.compare. apply N.compare_refl. Qed.

Lemma compare_app (p a b : string) :
  String.compare (p +:+ a) (p +:+ b) = String.compare a b.
Proof.
  induction p as [|c p IH]; [reflexivity|].
  rewrite !app_cons. cbn. rewrite ascii_compare_refl. exact IH.
Qed.

Lemma ltb_app (p a b : string) :
  String.ltb (p +:+ a) (p +:+ b) = String.ltb a b.
Proof. unfold String.ltb. rewrite compare_app. reflexivity. Qed.

Lemma in_sequences (k : Z) : 0 <= k <= 999 -> In k sequences.
Proof.
  intros Hk. unfold sequences. apply in_map_iff. exists (Z.to_nat k).
  split; [lia|]. apply in_seq. lia.
Qed.

Lemma threeDigits_checked :
  forallb (fun k =>
             (String.length (threeDigits k) =? 3)%nat
             && bool_decide (BookingNumber.parseInt (threeDigits k) = Some k)
             && ((k =? 999) || String.ltb (threeDigits k) (threeDigits (k + 1))))
          sequences = true.
Proof. vm_compute. reflexivity. Qed.

Lemma threeDigits_facts (k : Z) :
  0 <= k <= 999 ->
  String.length (threeDigits k) = 3%nat
  /\ BookingNumber.parseInt (threeDigits k) = Some k
  /\ (k <= 998 -> String.ltb (threeDigits k) (threeDigits (k + 1)) = true).
Proof.
  intros Hk. pose proof threeDigits_checked as Hall.
  rewrite forallb_forall in Hall. specialize (Hall k (in_sequences k Hk)).
  apply andb_true_iff in Hall. destruct Hall as [Hall Hlt].
  apply andb_true_iff in Hall. destruct Hall as [Hlen Hparse].
  split; [apply Nat.eqb_eq; exact Hlen|].
  split; [apply bool_decide_eq_true in Hparse; exact Hparse|].
  intros Hk'. apply orb_true_iff in Hlt. destruct Hlt as [Hlast|Hlt]; [|exact Hlt].
  apply Z.eqb_eq in Hlast. lia.
Qed.

Lemma string_compare_refl (s : string) : String.compare s s = Eq.
Proof.
  induction s as [|c s IH]; cbn; [reflexivity|].
  rewrite ascii_compare_refl. exact IH.
Qed.

Lemma string_compare_lt_trans (a b c : string) :
  String.compare a b = Lt -> String.compare b c = Lt -> String.compare a c = Lt.
Proof.
  revert b c. induction a as [|x a IH]; intros [|y b] [|z c]; cbn;
    try discriminate; try reflexivity.
  unfold Ascii.compare.
  destruct (N.compare_spec (Ascii.N_of_ascii x) (Ascii.N_of_ascii y)) as [Hxy|Hxy|Hxy];
    destruct (N.compare_spec (Ascii.N_of_ascii y) (Ascii.N_of_ascii z)) as [Hyz|Hyz|Hyz];
    try discriminate; intros H1 H2.
  - rewrite Hxy, Hyz, N.compare_refl. exact (IH b c H1 H2).
  - rewrite Hxy. apply N.compare_lt_iff in Hyz. rewrite Hyz. reflexivity.
  - rewrite <- Hyz. apply N.compare_lt_iff in Hxy. rewrite Hxy. reflexivity.
  - assert (Hxz : (Ascii.N_of_ascii x < Ascii.N_of_ascii z)%N) by lia.
    apply N.compare_lt_iff in Hxz. rewrite Hxz. reflexivity.
Qed.

Lemma ltb_irrefl (s : string) : String.ltb s s = false.
Proof. unfold String.ltb. rewrite string_compare_refl. reflexivity. Qed.

Lemma ltb_asym (a b : string) : String.ltb a b = true -> String.ltb b a = false.
Proof.
  unfold String.ltb. rewrite (String.compare_antisym a b).
  destruct (String.compare b a); cbn; congruence.
Qed.

Lemma ltb_below (a b c : string) :
  String.ltb a b = false -> String.ltb b c = false -> String.ltb a c = false.
Proof.
  unfold String.ltb. intros Hab Hbc.
  destruct (String.compare a c) eqn:Hac; try reflexivity.
  destruct (String.compare b c) eqn:Hbc'; try discriminate.
  - apply String.compare_eq_iff in Hbc'. subst c. rewrite Hac in Hab.
    discriminate.
  - assert (Hcb : String.compare c b = Lt).
    { rewrite String.compare_antisym, Hbc'. reflexivity. }
    rewrite (string_compare_lt_trans a c b Hac Hcb) in Hab. discriminate.
Qed.

(** The booking that the query finds is the greatest of the day. *)
Lemma lastBooking_greatest (prefix : string) (numbers : list string) last :
  BookingNumber.lastBooking prefix numbers = Some last ->
  String.prefix prefix last = true
  /\ In last numbers
  /\ forall number,
       In number numbers -> String.prefix prefix number = true ->
       String.ltb last number = false.
Proof.
  revert last. induction numbers as [|first rest IH]; intros last;
    cbn [BookingNumber.lastBooking]; [discriminate|].
  destruct (String.prefix prefix first) eqn:Hfirst.
  - destruct (BookingNumber.lastBooking prefix rest) as [other|] eqn:Hrest.
    + destruct (IH other eq_refl) as (Hp & Hin & Hmax).
      unfold BookingNumber.later. intros [= <-].
      destruct (String.ltb first other) eqn:Hlt.
      * split; [exact Hp|]. split; [right; exact Hin|].
        intros number [<-|Hn] Hpn; [apply ltb_asym; exact Hlt|auto].
      * split; [exact Hfirst|]. split; [left; reflexivity|].
        intros number [<-|Hn] Hpn; [apply ltb_irrefl|].
        apply (ltb_below first other number); [exact Hlt|auto].
    + intros [= <-]. split; [exact Hfirst|]. split; [left; reflexivity|].
      intros number [<-|Hn] Hpn; [apply ltb_irrefl|].
      exfalso. clear IH. induction rest as [|r rest IHr]; [destruct Hn|].
      cbn [BookingNumber.lastBooking] in Hrest.
      destruct Hn as [->|Hn].
      * rewrite Hpn in Hrest.
        destruct (BookingNumber.lastBooking prefix rest); discriminate.
      * destruct (String.prefix prefix r);
          [destruct (BookingNumber.lastBooking prefix rest); discriminate|].
        exact (IHr Hrest Hn).
  - intros Hlast. destruct (IH last Hlast) as (Hp & Hin & Hmax).
    split; [exact Hp|]. split; [right; exact Hin|].
    intros number [<-|Hn] Hpn; [congruence|auto].
Qed.

Lemma lastBooking_none (prefix : string) (numbers : list string) :
  BookingNumber.lastBooking prefix numbers = None ->
  forall number, In number numbers -> String.prefix prefix number = false.
Proof.
  induction numbers as [|first rest IH]; intros Hnone number Hin;
    [destruct Hin|].
  cbn [BookingNumber.lastBooking] in Hnone.
  destruct (String.prefix prefix first) eqn:Hfirst.
  - destruct (BookingNumber.lastBooking prefix rest); discriminate.
  - destruct Hin as [<-|Hin]; [exact Hfirst|auto].
Qed.

(** X13. The numbers of a day count up.  When no booking of the day is on
    file the hook gives the day prefix followed by 001; when the last one
    carries the sequence [k], from 0 to 998, it gives the prefix followed by
    the three digits of [k + 1].  In both cases the number is not on file
    yet. *)
Theorem generate_counts_up (date : BookingNumber.LocalDate)
    (numbers : list string) :
  let prefix := BookingNumber.dayPrefix date in
  (BookingNumber.lastBooking prefix numbers = None ->
   BookingNumber.generate date numbers = prefix +:+ "001"
   /\ ~ In (BookingNumber.generate date numbers) numbers)
  /\ (forall k,
        0 <= k <= 998 ->
        BookingNumber.lastBooking prefix numbers
        = Some (prefix +:+ threeDigits k) ->
        BookingNumber.generate date numbers = prefix +:+ threeDigits (k + 1)
        /\ ~ In (BookingNumber.generate date numbers) numbers).
Proof.
  cbn zeta. split.
  - intros Hnone. unfold BookingNumber.generate. rewrite Hnone.
    split; [reflexivity|]. intros Hin.
    pose proof (lastBooking_none _ _ Hnone _ Hin) as Hp.
    rewrite prefix_app in Hp. discriminate.
  - intros k Hk Hlast.
    destruct (threeDigits_facts k ltac:(lia)) as (Hlen & Hparse & Hlt).
    assert (Hgen : BookingNumber.generate date numbers
                   = BookingNumber.dayPrefix date +:+ threeDigits (k + 1)).
    { unfold BookingNumber.generate. rewrite Hlast.
      rewrite (sliceLast_app 3 _ _ Hlen), Hparse. reflexivity. }
    split; [exact Hgen|]. rewrite Hgen. intros Hin.
    destruct (lastBooking_greatest _ _ _ Hlast) as (_ & _ & Hmax).
    specialize (Hmax _ Hin (prefix_app _ _)).
    rewrite ltb_app, (Hlt ltac:(lia)) in Hmax. discriminate.
Qed.

Lemma generate_counts_up_witness :
  BookingNumber.generate (BookingNumber.mkLocalDate 2025 0 7)
    ["GH250106004"; "GH250107001"; "GH250107002"]
  = "GH250107003".
Proof.
  refine (proj1 (proj2
    (generate_counts_up (BookingNumber.mkLocalDate 2025 0 7)
       ["GH250106004"; "GH250107001"; "GH250107002"]) 2 _ _)).
  - lia.
  - vm_compute. reflexivity.
Defined.

(** X14. The numbers of a day run out after 999.  When the last booking of
    the day carries the sequence 999, the hook gives the prefix followed by
    1000; once that number is on file the query still finds 999 as the
    last one, since 1000 sorts before it, and the hook gives the number
    that is already on file again. *)
Theorem generate_repeats_after_999 (date : BookingNumber.LocalDate)
    (numbers : list string) :
  let prefix := BookingNumber.dayPrefix date in
  BookingNumber.lastBooking prefix numbers = Some (prefix +:+ "999") ->
  BookingNumber.generate date numbers = prefix +:+ "1000"
  /\ BookingNumber.lastBooking prefix ((prefix +:+ "1000") :: numbers)
     = Some (prefix +:+ "999")
  /\ In (BookingNumber.generate date ((prefix +:+ "1000") :: numbers))
        ((prefix +:+ "1000") :: numbers).
Proof.
  cbn zeta. intros Hlast.
  assert (Hgen : forall l,
            BookingNumber.lastBooking (BookingNumber.dayPrefix date) l
            = Some (BookingNumber.dayPrefix date +:+ "999") ->
            BookingNumber.generate date l
            = BookingNumber.dayPrefix date +:+ "1000").
  { intros l Hl. unfold BookingNumber.generate. rewrite Hl.
    rewrite (sliceLast_app 3 _ "999" eq_refl). reflexivity. }
  assert (Hstill : BookingNumber.lastBooking (BookingNumber.dayPrefix date)
                     ((BookingNumber.dayPrefix date +:+ "1000") :: numbers)
                   = Some (BookingNumber.dayPrefix date +:+ "999")).
  { cbn [BookingNumber.lastBooking]. rewrite prefix_app, Hlast.
    unfold BookingNumber.later. rewrite ltb_app. reflexivity. }
  split; [exact (Hgen _ Hlast)|]. split; [exact Hstill|].
  rewrite (Hgen _ Hstill). left. reflexivity.
Qed.

Lemma generate_repeats_after_999_witness :
  BookingNumber.generate (BookingNumber.mkLocalDate 2025 0 7)
    ["GH250107999"; "GH250107998"]
  = "GH2501071000".
Proof.
  refine (proj1
    (generate_repeats_after_999 (BookingNumber.mkLocalDate 2025 0 7)
       ["GH250107999"; "GH250107998"] _)).
  vm_compute. reflexivity.
Defined.

(** ** Who passes [authorize] *)

Lemma level_values (role : string) :
  Auth.level role = None
  \/ (role = "user" /\ Auth.level role = Some 1)
  \/ (role = "staff" /\ Auth.level role = Some 2)
  \/ (role = "manager" /\ Auth.level role = Some 3)
  \/ (role = "admin" /\ Auth.level role = Some 4)
  \/ (role = "ceo" /\ Auth.level role = Some 5)
  \/ (~ In role ["user"; "staff"; "manager"; "admin"; "ceo"]
      /\ Auth.level role = Some 0).
Proof.
  unfold Auth.level. destruct (Js.includes Auth.inherited role); [auto|].
  destruct (String.eqb_spec role "user"); [auto|].
  destruct (String.eqb_spec role "staff"); [auto 6|].
  destruct (String.eqb_spec role "manager"); [auto 6|].
  destruct (String.eqb_spec role "admin"); [auto 7|].
  destruct (String.eqb_spec role "ceo"); [auto 8|].
  do 6 right. split; [|reflexivity]. cbn [In]. intuition congruence.
Qed.

Lemma authorize_desk (user : Principal) :
  Auth.authorize ["staff"; "manager"; "admin"] (Some user)
  = if bool_decide (In (role user) deskRoles) then Next
    else Reject 403 "Not authorized to access this resource".
Proof.
  unfold Auth.authorize, deskRoles. cbn zeta.
  destruct (level_values (role user))
    as [Hl|[[Hr Hl]|[[Hr Hl]|[[Hr Hl]|[[Hr Hl]|[[Hr Hl]|[Hr Hl]]]]]]];
    try (rewrite Hr; reflexivity).
  - rewrite Hl.
    assert (Hout : ~ In (role user) ["staff"; "manager"; "admin"; "ceo"]).
    { intros Hin. cbn [In] in Hin.
      destruct Hin as [Heq|[Heq|[Heq|[Heq|[]]]]];
        rewrite <- Heq in Hl; vm_compute in Hl; discriminate. }
    rewrite (bool_decide_eq_false_2 _ Hout).
    assert (Hdirect : Js.includes ["staff"; "manager"; "admin"] (role user)
                      = false).
    { apply not_true_is_false. rewrite includes_In. cbn [In] in *. tauto. }
    rewrite Hdirect. reflexivity.
  - assert (Hout : ~ In (role user) ["staff"; "manager"; "admin"; "ceo"]).
    { cbn [In] in *. tauto. }
    rewrite (bool_decide_eq_false_2 _ Hout).
    assert (Hdirect : Js.includes ["staff"; "manager"; "admin"] (role user)
                      = false).
    { apply not_true_is_false. rewrite includes_In. cbn [In] in *. tauto. }
    rewrite Hdirect, Hl. reflexivity.
Qed.

(** X15. The check-in and check-out routes.  A principal whose role is
    staff, manager, admin or ceo reaches the handler, ceo although the
    route does not list it; every other principal, a guest in particular,
    is answered with 403 and the store is left as it was. *)
Theorem desk_routes_roles (now : Js.Date) (user : Principal) (id : string)
    (db : BookingController.Db) :
  (In (role user) deskRoles ->
   BookingRoutes.checkIn now user id db
   = BookingController.checkInBooking now id db
   /\ BookingRoutes.checkOut now user id db
      = BookingController.checkOutBooking now id db)
  /\ (~ In (role user) deskRoles ->
      BookingRoutes.checkIn now user id db
      = (db, Failure 403 "Not authorized to access this resource")
      /\ BookingRoutes.checkOut now user id db
         = (db, Failure 403 "Not authorized to access this resource")).
Proof.
  unfold BookingRoutes.checkIn, BookingRoutes.checkOut, BookingRoutes.guarded.
  rewrite authorize_desk. split; intros Hrole.
  - rewrite (bool_decide_eq_true_2 _ Hrole). split; reflexivity.
  - rewrite (bool_decide_eq_false_2 _ Hrole). split; reflexivity.
Qed.

Lemma desk_routes_roles_witness :
  BookingRoutes.checkIn (Sample.day 20000) Sample.guest "b1" Sample.hotel
  = (Sample.hotel, Failure 403 "Not authorized to access this resource")
  /\ BookingRoutes.checkIn (Sample.day 20000) (mkPrincipal "c1" "ceo") "b1"
       Sample.hotel
     = BookingController.checkInBooking (Sample.day 20000) "b1" Sample.hotel.
Proof.
  split.
  - refine (proj1 (proj2
      (desk_routes_roles (Sample.day 20000) Sample.guest "b1" Sample.hotel) _)).
    cbn. intuition discriminate.
  - refine (proj1 (proj1
      (desk_routes_roles (Sample.day 20000) (mkPrincipal "c1" "ceo") "b1"
         Sample.hotel) _)).
    cbn. auto.
Defined.

Lemma authorize_guest_list (user : Principal) :
  Auth.authorize ["user"] (Some user)
  = if bool_decide (In (role user) knownRoles) then Next
    else Reject 403 "Not authorized to access this resource".
Proof.
  unfold Auth.authorize, knownRoles. cbn zeta.
  destruct (level_values (role user))
    as [Hl|[[Hr Hl]|[[Hr Hl]|[[Hr Hl]|[[Hr Hl]|[[Hr Hl]|[Hr Hl]]]]]]];
    try (rewrite Hr; reflexivity).
  - rewrite Hl.
    assert (Hout : ~ In (role user) ["user"; "staff"; "manager"; "admin"; "ceo"]).
    { intros Hin. cbn [In] in Hin.
      destruct Hin as [Heq|[Heq|[Heq|[Heq|[Heq|[]]]]]];
        rewrite <- Heq in Hl; vm_compute in Hl; discriminate. }
    rewrite (bool_decide_eq_false_2 _ Hout).
    assert (Hdirect : Js.includes ["user"] (role user) = false).
    { apply not_true_is_false. rewrite includes_In. cbn [In] in *. tauto. }
    rewrite Hdirect. reflexivity.
  - rewrite (bool_decide_eq_false_2 _ Hr).
    assert (Hdirect : Js.includes ["user"] (role user) = false).
    { apply not_true_is_false. rewrite includes_In. cbn [In] in *. tauto. }
    rewrite Hdirect, Hl. reflexivity.
Qed.

(** X16. The creation route lists the role user only, yet it lets every
    role of the hierarchy through to the handler: a request of a staff
    member, a manager, an administrator or the ceo is handled like the one
    of a guest.
    A principal with any other role is answered with 403 and the store is
    left as it was. *)
Theorem create_route_roles `{Calendar} (now : Js.Date) (newId : string)
    (user : Principal) (body : BookingController.CreateBody)
    (db : BookingController.Db) :
  (In (role user) knownRoles ->
   BookingRoutes.create now newId user body db
   = BookingController.createBooking now newId user body db)
  /\ (~ In (role user) knownRoles ->
      BookingRoutes.create now newId user body db
      = (db, Failure 403 "Not authorized to access this resource")).
Proof.
  unfold BookingRoutes.create, BookingRoutes.guarded.
  rewrite authorize_guest_list. split; intros Hrole.
  - rewrite (bool_decide_eq_true_2 _ Hrole). reflexivity.
  - rewrite (bool_decide_eq_false_2 _ Hrole). reflexivity.
Qed.

Lemma create_route_roles_witness :
  BookingRoutes.create (H := Utc.calendar) (Sample.day 19999) "b9"
    Sample.staff (Sample.twoNights "r101") Sample.hotel
  = BookingController.createBooking (H := Utc.calendar) (Sample.day 19999)
      "b9" Sample.staff (Sample.twoNights "r101") Sample.hotel.
Proof.
  refine (proj1
    (create_route_roles (H := Utc.calendar) (Sample.day 19999) "b9"
       Sample.staff (Sample.twoNights "r101") Sample.hotel) _).
  cbn. auto.
Defined.

Lemma authorize_passes (roles : list string) (user : Principal) :
  Auth.authorize roles (Some user) = Next
  <-> In (role user) roles
      \/ exists r, In r roles
                   /\ Auth.geq (Auth.level (role user)) (Auth.level r) = true.
Proof.
  unfold Auth.authorize. cbn zeta.
  destruct (Js.includes roles (role user)) eqn:Hdirect.
  - cbn [negb andb]. apply includes_In in Hdirect. tauto.
  - cbn [negb andb].
    assert (Hnot : ~ In (role user) roles).
    { rewrite <- includes_In, Hdirect. discriminate. }
    destruct (existsb _ roles) eqn:Hhigher; cbn [negb].
    + apply existsb_exists in Hhigher. split; [eauto|reflexivity].
    + split; [discriminate|]. intros [Hin|Hex]; [tauto|].
      apply existsb_exists in Hex. congruence.
Qed.

(** X17. [authorize] is a threshold on the level of the role.  A request
    without a principal is answered with 401.  When a principal passes, so
    does every principal whose level is at least as high.  And when the
    allowed list names a role that the hierarchy does not know, whose level
    is therefore zero, every principal whose role has a level passes. *)
Theorem authorize_threshold (roles : list string) (user other : Principal)
    (a b : Z) :
  Auth.authorize roles None = Reject 401 "Authentication required"
  /\ (Auth.level (role user) = Some a ->
      Auth.level (role other) = Some b ->
      a <= b ->
      Auth.authorize roles (Some user) = Next ->
      Auth.authorize roles (Some other) = Next)
  /\ (forall unknown,
        In unknown roles ->
        Auth.level unknown = Some 0 ->
        Auth.level (role user) = Some a ->
        Auth.authorize roles (Some user) = Next).
Proof.
  split; [reflexivity|]. split.
  - intros Ha Hb Hab Hpass. apply authorize_passes in Hpass.
    apply authorize_passes. right.
    destruct Hpass as [Hin|(r & Hin & Hgeq)].
    + exists (role user). split; [exact Hin|]. rewrite Ha, Hb. cbn.
      apply Z.geb_le. exact Hab.
    + exists r. split; [exact Hin|]. rewrite Ha in Hgeq. rewrite Hb.
      destruct (Auth.level r) as [c|]; [|discriminate]. cbn in *.
      apply Z.geb_le. apply Z.geb_le in Hgeq. lia.
  - intros unknown Hin Hzero Ha. apply authorize_passes. right.
    exists unknown. split; [exact Hin|]. rewrite Ha, Hzero. cbn.
    apply Z.geb_le.
    destruct (level_values (role user))
      as [Hl|[[_ Hl]|[[_ Hl]|[[_ Hl]|[[_ Hl]|[[_ Hl]|[_ Hl]]]]]]];
      rewrite Hl in Ha; inversion Ha; lia.
Qed.

Lemma authorize_threshold_witness :
  Auth.authorize ["concierge"; "ceo"] (Some Sample.guest) = Next.
Proof.
  refine (proj2 (proj2
    (authorize_threshold ["concierge"; "ceo"] Sample.guest Sample.guest 1 1))
    "concierge" _ _ _).
  - left. reflexivity.
  - reflexivity.
  - reflexivity.
Defined.

(** X18. [authorizeUserAccess] refuses exactly a guest who asks for the
    data of somebody else; a staff member is handed on whichever user the
    request names. *)
Theorem authorizeUserAccess_refuses (user : Principal)
    (target : option string) :
  (Auth.authorizeUserAccess user target
   = Reject 403 "Can only access your own data"
   <-> role user = "user" /\ target <> Some (principalId user))
  /\ (role user <> "user" -> Auth.authorizeUserAccess user target = Next)
  /\ (Auth.authorizeUserAccess user target = Next
      \/ Auth.authorizeUserAccess user target
         = Reject 403 "Can only access your own data").
Proof.
  unfold Auth.authorizeUserAccess. cbn zeta.
  assert (Hown : (match target with
                  | Some t => String.eqb (principalId user) t
                  | None => false
                  end) = true <-> target = Some (principalId user)).
  { destruct target as [t|]; [|split; discriminate].
    rewrite String.eqb_eq. split; [intros ->; reflexivity|intros [= ->]; reflexivity]. }
  destruct (match target with
            | Some t => String.eqb (principalId user) t
            | None => false
            end) eqn:Hmatch;
    destruct (String.eqb_spec (role user) "user") as [Hrole|Hrole];
    cbn [negb andb];
    destruct (String.eqb (role user) "staff");
    destruct (Js.includes ["manager"; "admin"; "ceo"] (role user));
    cbn [andb];
    (split; [split; [try discriminate; try (intros _; split; [assumption|]);
                     try (intros Heq; apply Hown in Heq; discriminate)
                    |try (intros [_ Hne]; exfalso; apply Hne, Hown; reflexivity);
                     try (intros [Hu _]; contradiction); try reflexivity]
            |split; [try (intros; reflexivity); try contradiction
                    |auto]]).
Qed.

Lemma authorizeUserAccess_refuses_witness :
  Auth.authorizeUserAccess Sample.staff (Some "u1") = Next.
Proof.
  refine (proj1 (proj2
    (authorizeUserAccess_refuses Sample.staff (Some "u1"))) _).
  discriminate.
Defined.

(** ** Uploads *)

(** X19. The size limits of an upload.  [fileFilter] refuses exactly the
    files whose type is neither an image nor a video.  For a file it has
    accepted, [uploadToCloudinary] answers 400 when the file is larger than
    the limit of its kind, 5 MB (5242880 bytes) for an image and 10 MB for
    a video, and otherwise hands the file to the storage service: so a file
    that is stored is never larger than the limit of its kind.  Without a
    file the answer is 400. *)
Theorem upload_limits (uploadFile : Upload.File -> option string)
    (file : Upload.File) (kind : Upload.FileType) :
  (Upload.fileFilter file = inl "Only images and videos are allowed"
   <-> String.prefix "image/" (Upload.mimetype file) = false
       /\ String.prefix "video/" (Upload.mimetype file) = false)
  /\ Upload.uploadToCloudinary uploadFile (Some kind) None
     = Upload.Refused 400 "No file uploaded"
  /\ (Upload.fileFilter file = inr kind ->
      let result :=
        Upload.uploadToCloudinary uploadFile (Some kind) (Some file) in
      let limit := match kind with
                   | Upload.IMAGE => 5242880
                   | Upload.VIDEO => 10485760
                   end in
      (Upload.size file > limit ->
       result
       = Upload.Refused 400
           match kind with
           | Upload.IMAGE => "File too large. image must be less than 5MB"
           | Upload.VIDEO => "File too large. video must be less than 10MB"
           end)
      /\ (Upload.size file <= limit ->
          result = match uploadFile file with
                   | Some fileUrl => Upload.Stored fileUrl
                   | None => Upload.Refused 500 "Failed to upload file"
                   end)
      /\ (forall fileUrl,
            result = Upload.Stored fileUrl ->
            Upload.size file <= limit /\ uploadFile file = Some fileUrl)).
Proof.
  split; [|split; [reflexivity|]].
  - unfold Upload.fileFilter.
    destruct (String.prefix "image/" (Upload.mimetype file));
      destruct (String.prefix "video/" (Upload.mimetype file));
      cbn [negb andb]; split; try discriminate; try tauto;
      intros [? ?]; discriminate.
  - intros _. cbn zeta. unfold Upload.uploadToCloudinary.
    cbn [default from_option id].
    assert (Hlimit : Upload.FILE_SIZE_LIMIT kind
                     = match kind with
                       | Upload.IMAGE => 5242880
                       | Upload.VIDEO => 10485760
                       end) by (destruct kind; reflexivity).
    rewrite Hlimit.
    destruct (Z.gtb_spec (Upload.size file)
                match kind with
                | Upload.IMAGE => 5242880
                | Upload.VIDEO => 10485760
                end) as [Hbig|Hsmall].
    + split; [|split].
      * intros _. destruct kind; vm_compute; reflexivity.
      * lia.
      * intros fileUrl. discriminate.
    + split; [lia|]. split; [reflexivity|].
      intros fileUrl. destruct (uploadFile file) as [url|]; [|discriminate].
      intros [= ->]. split; [lia|reflexivity].
Qed.

Lemma upload_limits_witness :
  Upload.uploadToCloudinary (fun _ => Some "https://cdn.example/f")
    (Some Upload.IMAGE) (Some (Upload.mkFile "image/png" 6000000))
  = Upload.Refused 400 "File too large. image must be less than 5MB".
Proof.
  refine (proj1 (proj2 (proj2
    (upload_limits (fun _ => Some "https://cdn.example/f")
       (Upload.mkFile "image/png" 6000000) Upload.IMAGE)) _) _).
  - reflexivity.
  - cbn. lia.
Defined.

(** ** Pages of the booking list *)

(** X20. The pagination of the booking list, for a positive limit, a page
    from 1 on and [total] the number of bookings that match.  [hasNext] is
    set exactly when bookings remain after this page, [hasPrev] exactly
    after the first page; the page shows at most [limit] bookings and is
    not empty exactly up to page number [pages]; and [pages] is the least
    number of pages that hold all the bookings. *)
Theorem pagination_arithmetic {A} (matching : list A) (pageNum limitNum : Z) :
  let total := Z.of_nat (length matching) in
  let p := Paging.pagination pageNum limitNum total in
  0 < limitNum ->
  1 <= pageNum ->
  (Paging.hasNext p = true
   <-> drop (Z.to_nat (pageNum * limitNum)) matching <> [])
  /\ (Paging.hasNext p = true <-> pageNum * limitNum < total)
  /\ (Paging.hasPrev p = true <-> 1 < pageNum)
  /\ (Z.of_nat (length (Paging.pageOf matching pageNum limitNum)) <= limitNum)
  /\ (Paging.pageOf matching pageNum limitNum <> []
      <-> pageNum <= Paging.pages p)
  /\ (Paging.pages p - 1) * limitNum < total <= Paging.pages p * limitNum.
Proof.
  cbn zeta. intros Hlimit Hpage.
  pose proof (ceil_div_spec (Z.of_nat (length matching)) limitNum Hlimit)
    as Hceil.
  unfold Paging.pagination, Paging.pageOf, Paging.skip.
  cbn [Paging.hasNext Paging.hasPrev Paging.pages].
  assert (Hnext : (pageNum <? Js.ceil_div (Z.of_nat (length matching)) limitNum)
                  = true
                  <-> pageNum * limitNum < Z.of_nat (length matching)).
  { rewrite Z.ltb_lt. split; intros; nia. }
  assert (Hnonempty : forall l : list A, l <> [] <-> (0 < length l)%nat).
  { intros [|x l]; cbn; split; try lia; try congruence. }
  split; [|split; [exact Hnext|split; [|split; [|split; [|exact Hceil]]]]].
  - rewrite Hnext, Hnonempty, length_drop. lia.
  - rewrite Z.gtb_lt. reflexivity.
  - rewrite length_take. lia.
  - rewrite Hnonempty, length_take, length_drop. split; intros; nia.
Qed.

Lemma pagination_arithmetic_witness :
  Paging.hasNext (Paging.pagination 2 2 5) = true
  /\ Paging.pageOf ["a"; "b"; "c"; "d"; "e"] 3 2 = ["e"].
Proof.
  pose proof (pagination_arithmetic ["a"; "b"; "c"; "d"; "e"] 2 2
                ltac:(lia) ltac:(lia)) as (_ & Hnext & _).
  split.
  - apply Hnext. cbn. lia.
  - reflexivity.
Defined.

(** ** The prices of a package *)

(** X21. The effective price and the savings of a package add up to its
    price.  With a discount between 0 and 100 and a price that is not
    negative, as the schema requires, both lie between zero and the
    price. *)
Theorem package_prices (p : Package.t) :
  (Package.effectivePrice p + PackageViews.savings p == Package.price p)%Q
  /\ ((0 <= Package.discountPercentage p)%Q ->
      (Package.discountPercentage p <= 100)%Q ->
      (0 <= Package.price p)%Q ->
      (0 <= Package.effectivePrice p)%Q
      /\ (Package.effectivePrice p <= Package.price p)%Q
      /\ (0 <= PackageViews.savings p)%Q
      /\ (PackageViews.savings p <= Package.price p)%Q).
Proof.
  assert (Hsum : (Package.effectivePrice p + PackageViews.savings p
                  == Package.price p)%Q).
  { unfold Package.effectivePrice, PackageViews.savings. field. }
  split; [exact Hsum|]. intros Hd0 Hd100 Hprice.
  assert (Heff : (0 <= Package.effectivePrice p)%Q).
  { unfold Package.effectivePrice. apply Qmult_le_0_compat; [exact Hprice|].
    assert (Package.discountPercentage p / 100 <= 1)%Q.
    { apply Qle_shift_div_r; [reflexivity|]. rewrite Qmult_1_l. exact Hd100. }
    lra. }
  assert (Hsav : (0 <= PackageViews.savings p)%Q).
  { unfold PackageViews.savings. apply Qmult_le_0_compat; [exact Hprice|].
    apply Qle_shift_div_l; [reflexivity|]. rewrite Qmult_0_l. exact Hd0. }
  repeat split; try assumption; lra.
Qed.

Lemma package_prices_witness :
  (Package.effectivePrice Sample.getaway <= Package.price Sample.getaway)%Q.
Proof.
  refine (proj1 (proj2
    (proj2 (package_prices Sample.getaway) _ _ _))); vm_compute; discriminate.
Defined.

(** ** What an order request stores *)

Lemma priceItems_items db submitted acc orderItems calculatedTotal orderItems' :
  OrderRoutes.priceItems db submitted acc orderItems
  = inr (calculatedTotal, orderItems') ->
  exists added,
    orderItems' = orderItems ++ added
    /\ length added = length submitted
    /\ (calculatedTotal
        == acc + sumQ (map (fun item => Order.price item * Order.quantity item)
                           added))%Q
    /\ Forall2 (fun item orderItem =>
                  is_Some (OrderRoutes.menuItems db !! OrderRoutes.itemId item)
                  /\ Order.quantity orderItem = OrderRoutes.itemQuantity item)
               submitted added.
Proof.
  revert acc orderItems.
  induction submitted as [|item rest IH]; intros acc orderItems;
    cbn [OrderRoutes.priceItems].
  - intros [= <- <-]. exists []. rewrite app_nil_r.
    split; [reflexivity|]. split; [reflexivity|].
    split; [cbn; ring|constructor].
  - destruct (OrderRoutes.menuItems db !! OrderRoutes.itemId item)
      as [menuItem|] eqn:Hmenu; [|discriminate].
    intros Hloop.
    destruct (IH _ _ Hloop) as (added & -> & Hlen & Hsum & Hall).
    exists (Order.mkItem (OrderRoutes.itemId item) (OrderRoutes.menuName menuItem)
              (OrderRoutes.menuPrice menuItem) (OrderRoutes.itemQuantity item)
              (OrderRoutes.menuCategory menuItem)
              (OrderRoutes.menuPrice menuItem * OrderRoutes.itemQuantity item)%Q
            :: added).
    rewrite <- app_assoc. split; [reflexivity|].
    split; [cbn [length]; rewrite Hlen; reflexivity|].
    split.
    + rewrite Hsum. cbn [map Order.price Order.quantity].
      unfold sumQ. cbn [fold_right]. ring.
    + constructor; [|exact Hall]. rewrite Hmenu. split; [eauto|reflexivity].
Qed.

Lemma mismatch_false (calculatedTotal totalAmount : Q) :
  OrderRoutes.mismatch calculatedTotal totalAmount = false ->
  (Qabs (calculatedTotal - totalAmount) <= 1 # 100)%Q.
Proof.
  unfold OrderRoutes.mismatch. intros H. apply negb_false_iff in H.
  apply Qle_bool_iff. exact H.
Qed.

Lemma taken_false_lookup (o : Order.t) (orders : gmap string Order.t) :
  Order.taken o orders = false -> orders !! Order.orderId o = None.
Proof.
  unfold Order.taken. destruct (orders !! Order.orderId o); [discriminate|].
  reflexivity.
Qed.

Lemma validItems_quantities db (submitted : list OrderRoutes.ItemRequest)
    (added : list Order.Item) :
  Forall2 (fun item orderItem =>
             is_Some (OrderRoutes.menuItems db !! OrderRoutes.itemId item)
             /\ Order.quantity orderItem = OrderRoutes.itemQuantity item)
          submitted added ->
  forallb Order.validItem added = true ->
  Forall (fun item =>
            is_Some (OrderRoutes.menuItems db !! OrderRoutes.itemId item)
            /\ (1 <= OrderRoutes.itemQuantity item)%Q) submitted.
Proof.
  induction 1 as [|item orderItem submitted added [Hmenu Hq] _ IH];
    cbn [forallb]; [constructor|].
  rewrite andb_true_iff. intros [Hitem Hrest].
  constructor; [|exact (IH Hrest)].
  split; [exact Hmenu|].
  unfold Order.validItem in Hitem. rewrite !andb_true_iff in Hitem.
  destruct Hitem as ((_ & Hone) & _). apply Qle_bool_iff in Hone.
  rewrite <- Hq. exact Hone.
Qed.

(** The outcome of an order request, step by step. *)
Lemma createPaymentIntentRoute_200 stripe now newOrderId userId body db :
  let result :=
    OrderRoutes.createPaymentIntentRoute stripe now newOrderId userId body db in
  code_of (snd result) = 200 ->
  exists submitted stated user calculatedTotal orderItems roomNumber intent
         order,
    OrderRoutes.items body = Some submitted
    /\ OrderRoutes.totalAmount body = Some stated
    /\ OrderRoutes.users db !! userId = Some user
    /\ OrderRoutes.priceItems db submitted 0%Q []
       = inr (calculatedTotal, orderItems)
    /\ OrderRoutes.mismatch calculatedTotal stated = false
    /\ OrderRoutes.customerInfo body = Some roomNumber
    /\ order
       = Order.mk newOrderId userId (OrderRoutes.email user)
           (OrderRoutes.firstName user +:+ " " +:+ OrderRoutes.lastName user)
           roomNumber orderItems calculatedTotal
           (inject_Z (Js.round (stated * (1 # 10))))
           (if String.eqb
                 (default "room_service" (OrderRoutes.deliveryType body))
                 "room_service"
            then 50%Q else 0%Q)
           (stated + inject_Z (Js.round (stated * (1 # 10)))
            + (if String.eqb
                    (default "room_service" (OrderRoutes.deliveryType body))
                    "room_service"
               then 50%Q else 0%Q))%Q
           "pending" "pending" (intentId intent) None None
           (default "room_service" (OrderRoutes.deliveryType body))
           (Some (now + 30 * 60 * 1000)) None None None
    /\ PaymentService.createPaymentIntent stripe (Order.finalAmount order)
         newOrderId = Some intent
    /\ Order.validate order = true
    /\ Order.taken order (OrderRoutes.orders db) = false
    /\ result
       = (OrderRoutes.set_orders
            (<[newOrderId := Order.pre_save order]> (OrderRoutes.orders db)) db,
          Success 200 (clientSecret intent)).
Proof.
  cbn zeta. unfold OrderRoutes.createPaymentIntentRoute.
  destruct (OrderRoutes.items body) as [[|item rest]|] eqn:Hitems;
    try discriminate.
  destruct (OrderRoutes.totalAmount body) as [stated|] eqn:Hstated;
    [|discriminate].
  destruct (Qle_bool stated 0); [discriminate|].
  destruct (OrderRoutes.users db !! userId) as [user|]; [|discriminate].
  destruct (OrderRoutes.priceItems db (item :: rest) 0%Q [])
    as [name|[calculatedTotal orderItems]] eqn:Hloop; [discriminate|].
  destruct (OrderRoutes.mismatch calculatedTotal stated) eqn:Hmis;
    [discriminate|].
  destruct (OrderRoutes.customerInfo body) as [roomNumber|]; [|discriminate].
  destruct (PaymentService.createPaymentIntent stripe _ newOrderId)
    as [intent|] eqn:Hstripe; [|discriminate].
  destruct (Order.save true _ (OrderRoutes.orders db))
    as [[o saved]|] eqn:Hsave; [|discriminate].
  intros _. apply order_save_Some in Hsave.
  destruct Hsave as (Hv & -> & -> & Htaken).
  eexists (item :: rest), stated, user, calculatedTotal, orderItems,
    roomNumber, intent, _.
  split; [reflexivity|]. split; [reflexivity|]. split; [reflexivity|].
  split; [exact Hloop|]. split; [exact Hmis|]. split; [reflexivity|].
  split; [reflexivity|]. split; [exact Hstripe|]. split; [exact Hv|].
  split; [exact (Htaken eq_refl)|]. reflexivity.
Qed.

Lemma createPaymentIntentRoute_unchanged stripe now newOrderId userId body db :
  let result :=
    OrderRoutes.createPaymentIntentRoute stripe now newOrderId userId body db in
  code_of (snd result) <> 200 ->
  In (code_of (snd result)) [400; 404; 500] /\ fst result = db.
Proof.
  cbn zeta. unfold OrderRoutes.createPaymentIntentRoute.
  repeat (match goal with
          | |- context [match ?x with _ => _ end] => destruct x
          | |- context [if ?x then _ else _] => destruct x
          end;
          try (intros _; split; [cbn; auto|reflexivity]));
    cbn [snd code_of]; congruence.
Qed.

(** X22. An order request is all or nothing.  Either it is answered with
    200 and exactly one order is added, under the identifier drawn for it,
    which was not in use, every other order, the users and the menu staying
    as they were; or it is answered with an error and the store is left as
    it was.  An answer of 200 is given only when every submitted item is on
    the menu with a quantity of at least 1, the body carries customer
    information, the delivery type, room service when none is stated, is
    one of the schema, the payment service has answered with an intent that
    has an identifier, and neither the order identifier nor the intent is
    in use: in every other case nothing is created.  In particular a
    submitted item that is not on the menu, a body without customer
    information, a payment service that fails and an order identifier that
    is already on file each leave the store as it was, with an answer other
    than 200. *)
Theorem createPaymentIntent_all_or_nothing (stripe : Stripe) (now : Js.Date)
    (newOrderId userId : string) (body : OrderRoutes.IntentBody)
    (db : OrderRoutes.Db) :
  let result :=
    OrderRoutes.createPaymentIntentRoute stripe now newOrderId userId body db in
  ((code_of (snd result) = 200
    /\ OrderRoutes.users (fst result) = OrderRoutes.users db
    /\ OrderRoutes.menuItems (fst result) = OrderRoutes.menuItems db
    /\ OrderRoutes.orders db !! newOrderId = None
    /\ exists o,
         OrderRoutes.orders (fst result)
         = <[newOrderId := o]> (OrderRoutes.orders db)
         /\ Order.orderId o = newOrderId
         /\ Order.customerId o = userId
         /\ Order.status o = "pending"
         /\ Order.paymentStatus o = "pending"
         /\ persisted o
         /\ Order.validate o = true)
   \/ (In (code_of (snd result)) [400; 404; 500] /\ fst result = db))
  /\ (code_of (snd result) = 200 ->
      exists submitted roomNumber amount intent,
        OrderRoutes.items body = Some submitted
        /\ Forall (fun item =>
                     is_Some (OrderRoutes.menuItems db
                                !! OrderRoutes.itemId item)
                     /\ (1 <= OrderRoutes.itemQuantity item)%Q) submitted
        /\ OrderRoutes.customerInfo body = Some roomNumber
        /\ In (default "room_service" (OrderRoutes.deliveryType body))
              Order.deliveryTypes
        /\ PaymentService.createPaymentIntent stripe amount newOrderId
           = Some intent
        /\ intentId intent <> ""
        /\ newOrderId <> ""
        /\ forall key other,
             OrderRoutes.orders db !! key = Some other ->
             Order.paymentIntentId other <> intentId intent)
  /\ ((exists submitted item,
         OrderRoutes.items body = Some submitted
         /\ In item submitted
         /\ OrderRoutes.menuItems db !! OrderRoutes.itemId item = None)
      \/ OrderRoutes.customerInfo body = None
      \/ (forall amount,
            PaymentService.createPaymentIntent stripe amount newOrderId
            = None)
      \/ is_Some (OrderRoutes.orders db !! newOrderId) ->
      fst result = db /\ code_of (snd result) <> 200).
Proof.
  cbn zeta.
  match goal with
  | |- ?A /\ ?B /\ _ =>
      assert (Hfirst : A); [|assert (Hsecond : B)]
  end.
  3:{ split; [exact Hfirst|]. split; [exact Hsecond|].
      intros Hcase.
      assert (Hnot : code_of
                (snd (OrderRoutes.createPaymentIntentRoute stripe now
                        newOrderId userId body db)) <> 200).
      { intros Hcode.
        destruct (Hsecond Hcode)
          as (submitted & roomNumber & amount & intent & Hitems & Hall
              & Hinfo & _ & Hstripe & _).
        destruct Hcase
          as [(submitted' & item & Hitems' & Hin & Hnone)
             |[Hnoinfo|[Hdown|Hused]]].
        - rewrite Hitems in Hitems'. injection Hitems' as <-.
          destruct (proj1 (List.Forall_forall _ _) Hall item Hin)
            as [[menuItem Hmenu] _].
          congruence.
        - congruence.
        - rewrite Hdown in Hstripe. discriminate.
        - destruct Hfirst as [(_ & _ & _ & Hfree & _)|[Hin _]].
          + rewrite Hfree in Hused. destruct Hused as [o Ho]. discriminate.
          + rewrite Hcode in Hin. cbn [In] in Hin.
            destruct Hin as [Hin|[Hin|[Hin|[]]]]; discriminate. }
      split; [|exact Hnot].
      destruct Hfirst as [(Hcode & _)|[_ Hdb]]; [contradiction|exact Hdb]. }
  - destruct (Z.eq_dec
                (code_of (snd (OrderRoutes.createPaymentIntentRoute stripe now
                                 newOrderId userId body db))) 200)
      as [Hcode|Hcode].
    + left. split; [exact Hcode|].
      destruct (createPaymentIntentRoute_200 stripe now newOrderId userId body
                  db Hcode)
        as (submitted & stated & user & calculatedTotal & orderItems
            & roomNumber & intent & order & _ & _ & _ & _ & _ & _ & Horder
            & _ & Hv & Htaken & ->).
      cbn [fst OrderRoutes.users OrderRoutes.menuItems OrderRoutes.orders
           OrderRoutes.set_orders].
      split; [reflexivity|]. split; [reflexivity|].
      split.
      { apply taken_false_lookup in Htaken. rewrite Horder in Htaken.
        exact Htaken. }
      exists (Order.pre_save order). split; [reflexivity|].
      rewrite Horder at 1 2 3 4.
      split; [reflexivity|]. split; [reflexivity|]. split; [reflexivity|].
      split; [reflexivity|].
      split; [apply pre_save_idempotent|apply validate_pre_save; exact Hv].
    + right. apply createPaymentIntentRoute_unchanged. exact Hcode.
  - intros Hcode.
    destruct (createPaymentIntentRoute_200 stripe now newOrderId userId body
                db Hcode)
      as (submitted & stated & user & calculatedTotal & orderItems
          & roomNumber & intent & order & Hitems & _ & _ & Hloop & _ & Hinfo
          & Horder & Hstripe & Hv & Htaken & _).
    exists submitted, roomNumber, (Order.finalAmount order), intent.
    apply order_validate_iff in Hv. rewrite Horder in Hv. order_fields.
    destruct Hv as (Hid & _ & _ & Hvalid & _ & _ & _ & _ & _ & _ & Hintent
                    & Hdelivery).
    destruct (priceItems_items _ _ _ _ _ _ Hloop)
      as (added & Hadded & _ & _ & Hall).
    cbn [app] in Hadded. subst orderItems.
    split; [exact Hitems|].
    split; [exact (validItems_quantities db submitted added Hall Hvalid)|].
    split; [exact Hinfo|].
    split; [apply includes_In; exact Hdelivery|].
    split; [exact Hstripe|].
    split.
    { intros Hempty. rewrite Hempty in Hintent. discriminate. }
    split.
    { intros Hempty. rewrite Hempty in Hid. discriminate. }
    intros key other Hother Hsame.
    unfold Order.taken in Htaken.
    destruct (OrderRoutes.orders db !! Order.orderId order); [discriminate|].
    assert (Hin : In (key, other) (map_to_list (OrderRoutes.orders db))).
    { apply list_elem_of_In, elem_of_map_to_list. exact Hother. }
    assert (Hex : existsb
              (fun entry =>
                 String.eqb (Order.orderId (snd entry)) (Order.orderId order)
                 || String.eqb (Order.paymentIntentId (snd entry))
                      (Order.paymentIntentId order))
              (map_to_list (OrderRoutes.orders db)) = true).
    { apply existsb_exists. exists (key, other). split; [exact Hin|].
      cbn [snd]. rewrite Hsame, Horder. cbn [Order.paymentIntentId].
      rewrite String.eqb_refl. apply orb_true_r. }
    congruence.
Qed.

Lemma createPaymentIntent_all_or_nothing_witness :
  exists submitted,
    OrderRoutes.items Sample.thaliBody = Some submitted
    /\ Forall (fun item =>
                 is_Some (OrderRoutes.menuItems (Sample.restaurant "pending")
                            !! OrderRoutes.itemId item)
                 /\ (1 <= OrderRoutes.itemQuantity item)%Q) submitted.
Proof.
  destruct (proj1 (proj2
    (createPaymentIntent_all_or_nothing Sample.stripe (Sample.day 20000)
       "ORD-9" "u1" Sample.thaliBody (Sample.restaurant "pending"))))
    as (submitted & _ & _ & _ & Hitems & Hall & _).
  - vm_compute. reflexivity.
  - exists submitted. split; [exact Hitems|exact Hall].
Defined.

(** X23. The amounts of an order that is created.  The stored total is the
    catalog total of the submitted items, which the stated total matches
    within 0.01; the tax is 10% of the stated total, rounded; the delivery
    fee is 50 for room service, which is also the kind of an order that
    states none, and zero otherwise; the stored final amount is the sum of
    the three.  The amount sent to the payment service is the stated total
    plus tax plus fee, and so may differ from the stored final amount, by
    at most 0.01. *)
Theorem createPaymentIntent_amounts (stripe : Stripe) (now : Js.Date)
    (newOrderId userId : string) (body : OrderRoutes.IntentBody)
    (db : OrderRoutes.Db) :
  let result :=
    OrderRoutes.createPaymentIntentRoute stripe now newOrderId userId body db in
  code_of (snd result) = 200 ->
  exists o submitted stated expected intent,
    OrderRoutes.items body = Some submitted
    /\ OrderRoutes.totalAmount body = Some stated
    /\ catalogTotal db submitted = Some expected
    /\ (Qabs (expected - stated) <= 1 # 100)%Q
    /\ OrderRoutes.orders (fst result) !! newOrderId = Some o
    /\ length (Order.items o) = length submitted
    /\ (Order.totalAmount o == expected)%Q
    /\ Order.tax o = inject_Z (Js.round (stated * (1 # 10)))
    /\ Order.deliveryFee o
       = (if String.eqb (default "room_service" (OrderRoutes.deliveryType body))
                        "room_service"
          then 50%Q else 0%Q)
    /\ (Order.finalAmount o
        == expected + Order.tax o + Order.deliveryFee o)%Q
    /\ PaymentService.createPaymentIntent stripe
         (stated + Order.tax o + Order.deliveryFee o)%Q newOrderId
       = Some intent
    /\ Order.paymentIntentId o = intentId intent
    /\ snd result = Success 200 (clientSecret intent)
    /\ (Qabs ((stated + Order.tax o + Order.deliveryFee o)
              - Order.finalAmount o) <= 1 # 100)%Q.
Proof.
  cbn zeta. intros Hcode.
  destruct (createPaymentIntentRoute_200 stripe now newOrderId userId body
              db Hcode)
    as (submitted & stated & user & calculatedTotal & orderItems
        & roomNumber & intent & order & Hitems & Hstated & _ & Hloop & Hmis
        & _ & Horder & Hstripe & _ & _ & ->).
  cbn [fst snd OrderRoutes.orders OrderRoutes.set_orders].
  pose proof (priceItems_total db submitted 0%Q []) as Hcat.
  destruct (catalogTotal db submitted) as [expected|] eqn:Hexpected.
  2:{ destruct Hcat as [name Hname]. congruence. }
  destruct Hcat as (calc' & items' & Hloop' & Hexp).
  rewrite Hloop in Hloop'. injection Hloop' as <- <-.
  assert (Hcalc : (calculatedTotal == expected)%Q) by (rewrite Hexp; ring).
  destruct (priceItems_items _ _ _ _ _ _ Hloop)
    as (added & Hadded & Hlen & Hsum & _).
  cbn [app] in Hadded. subst orderItems.
  apply mismatch_false in Hmis.
  assert (Htotal :
    (fold_left (fun total item => total + Order.subtotal item)
       (map Order.with_subtotal added) 0 == expected)%Q).
  { rewrite (fold_left_sumQ Order.subtotal), subtotals_sum, <- Hcalc, Hsum.
    ring. }
  exists (Order.pre_save order), submitted, stated, expected, intent.
  split; [exact Hitems|]. split; [exact Hstated|]. split; [exact Hexpected|].
  split; [rewrite <- Hcalc; exact Hmis|].
  split; [apply lookup_insert_eq|].
  rewrite Horder in Hstripe |- *.
  cbn [Order.pre_save Order.items Order.totalAmount
       Order.tax Order.deliveryFee Order.finalAmount Order.paymentIntentId]
    in Hstripe |- *.
  split; [rewrite length_map; exact Hlen|].
  split; [exact Htotal|].
  split; [reflexivity|]. split; [reflexivity|].
  split; [rewrite Htotal; reflexivity|].
  split; [exact Hstripe|]. split; [reflexivity|]. split; [reflexivity|].
  rewrite Htotal.
  match goal with
  | |- (Qabs ?x <= _)%Q =>
      assert (Hdiff : (x == - (expected - stated))%Q) by ring
  end.
  rewrite Hdiff, Qabs_opp, <- Hcalc. exact Hmis.
Qed.

Lemma createPaymentIntent_amounts_witness :
  exists o,
    OrderRoutes.orders
      (fst (OrderRoutes.createPaymentIntentRoute Sample.stripe
              (Sample.day 20000) "ORD-9" "u1" Sample.thaliBody
              (Sample.restaurant "pending"))) !! "ORD-9" = Some o
    /\ Order.deliveryFee o = 50%Q.
Proof.
  destruct (createPaymentIntent_amounts Sample.stripe (Sample.day 20000)
              "ORD-9" "u1" Sample.thaliBody (Sample.restaurant "pending"))
    as (o & submitted & stated & expected & intent & _ & _ & _ & _ & Hfile
        & _ & _ & _ & Hfee & _).
  - vm_compute. reflexivity.
  - exists o. split; [exact Hfile|exact Hfee].
Defined.

(** ** Confirming a payment *)

Lemma truthy_Some (s : option string) (v : string) :
  OrderRoutes.truthy s = Some v <-> s = Some v /\ v <> "".
Proof.
  destruct s as [[|c s]|]; cbn; split.
  - discriminate.
  - intros [[= <-] Hne]. congruence.
  - intros [= <-]. split; [reflexivity|discriminate].
  - intros [[= <-] _]. reflexivity.
  - discriminate.
  - intros [[=] _].
Qed.

(** X24. The refusals of a payment confirmation.  A request that lacks the
    payment intent or the order identifier, or states an empty one, is
    answered with 400; an order that is not on file, or belongs to another
    customer, with 404; both leave the store as it was, so a customer can
    never change the order of somebody else.  An error of the payment
    provider is not a refusal of its own: the payment service answers that
    the payment has not succeeded, the order of the customer is stored with
    the payment status failed and the answer is 400. *)
Theorem confirmPayment_refusals (stripe : Stripe) (now : Js.Date)
    (userId : string) (paymentIntentId orderId : option string)
    (db : OrderRoutes.Db) :
  let result :=
    OrderRoutes.confirmPaymentRoute stripe now userId paymentIntentId orderId
      db in
  (OrderRoutes.truthy paymentIntentId = None
   \/ OrderRoutes.truthy orderId = None ->
   result = (db, Failure 400 "Missing payment intent ID or order ID"))
  /\ (forall pid oid,
        OrderRoutes.truthy paymentIntentId = Some pid ->
        OrderRoutes.truthy orderId = Some oid ->
        (OrderRoutes.orders db !! oid = None
         \/ exists order,
              OrderRoutes.orders db !! oid = Some order
              /\ Order.customerId order <> userId) ->
        result = (db, Failure 404 "Order not found or access denied"))
  /\ (forall pid oid order,
        OrderRoutes.truthy paymentIntentId = Some pid ->
        OrderRoutes.truthy orderId = Some oid ->
        OrderRoutes.findOwn db oid userId = Some order ->
        Order.validate order = true ->
        paymentIntentsRetrieve stripe pid = None ->
        PaymentService.confirmPayment stripe pid = false
        /\ result
           = (OrderRoutes.set_orders
                (<[oid := Order.set_paymentStatus "failed"
                            (Order.pre_save order)]>
                   (OrderRoutes.orders db)) db,
              Failure 400 "Payment verification failed")).
Proof.
  cbn zeta. split; [|split].
  - unfold OrderRoutes.confirmPaymentRoute.
    intros [H|H]; rewrite H;
      [|destruct (OrderRoutes.truthy paymentIntentId)]; reflexivity.
  - unfold OrderRoutes.confirmPaymentRoute.
    intros pid oid -> -> Hmissing.
    assert (Hfind : OrderRoutes.findOwn db oid userId = None).
    { unfold OrderRoutes.findOwn, OrderRoutes.findByOrderId.
      destruct Hmissing as [->|(order & -> & Hother)]; [reflexivity|].
      destruct (String.eqb (Order.orderId order) oid); [|reflexivity].
      apply String.eqb_neq in Hother. rewrite Hother. reflexivity. }
    rewrite Hfind. reflexivity.
  - intros pid oid order Hpid Hoid Hfind Hv Hdown.
    apply truthy_Some in Hpid, Hoid.
    destruct Hpid as [-> Hpid], Hoid as [-> Hoid].
    assert (Hfailed : PaymentService.confirmPayment stripe pid = false).
    { unfold PaymentService.confirmPayment. rewrite Hdown. reflexivity. }
    split; [exact Hfailed|].
    rewrite (confirmPaymentRoute_stores stripe now userId pid oid db order
               Hpid Hoid Hfind Hv), Hfailed.
    reflexivity.
Qed.

Lemma confirmPayment_refusals_witness :
  OrderRoutes.confirmPaymentRoute Sample.stripe (Sample.day 20000) "u2"
    (Some "pi_1") (Some "ORD-1") (Sample.restaurant "pending")
  = (Sample.restaurant "pending",
     Failure 404 "Order not found or access denied")
  /\ code_of
       (snd (OrderRoutes.confirmPaymentRoute Sample.stripe (Sample.day 20000)
               "u1" (Some "pi_down") (Some "ORD-1")
               (Sample.restaurant "pending"))) = 400.
Proof.
  split.
  - refine (proj1 (proj2
      (confirmPayment_refusals Sample.stripe (Sample.day 20000) "u2"
         (Some "pi_1") (Some "ORD-1") (Sample.restaurant "pending")))
      "pi_1" "ORD-1" _ _ _).
    + reflexivity.
    + reflexivity.
    + right. exists (Sample.teaOrder "pending").
      split; [reflexivity|discriminate].
  - rewrite (proj2 (proj2 (proj2
      (confirmPayment_refusals Sample.stripe (Sample.day 20000) "u1"
         (Some "pi_down") (Some "ORD-1") (Sample.restaurant "pending")))
      "pi_down" "ORD-1" (Sample.teaOrder "pending")
      eq_refl eq_refl eq_refl eq_refl eq_refl)).
    reflexivity.
Defined.

(** X25. A confirmation does not compare the payment intent it is given
    with the one of the order.  For an order of the customer that
    satisfies the schema and is as the hooks of a save left it, and any
    intent, other than the order's own, that the payment service reports
    as succeeded, the order is stored as completed and confirmed, with the
    given intent as its Stripe payment, a transaction identifier made of
    the time, and every other field, its own payment intent included, as it
    was.  A confirmation that is answered with 500, because the schema
    refuses the document, leaves the store as it was. *)
Theorem confirmPayment_any_intent (stripe : Stripe) (now : Js.Date)
    (userId paymentIntentId orderId : string) (db : OrderRoutes.Db)
    (order : Order.t) :
  let result :=
    OrderRoutes.confirmPaymentRoute stripe now userId (Some paymentIntentId)
      (Some orderId) db in
  paymentIntentId <> "" ->
  orderId <> "" ->
  OrderRoutes.findOwn db orderId userId = Some order ->
  Order.paymentIntentId order <> paymentIntentId ->
  PaymentService.confirmPayment stripe paymentIntentId = true ->
  (Order.validate order = true ->
   persisted order ->
   code_of (snd result) = 200
   /\ OrderRoutes.orders (fst result) !! orderId
      = Some (Order.set_status "confirmed"
                (Order.set_payment_ids paymentIntentId ("txn_" +:+ pretty now)
                   (Order.set_paymentStatus "completed" order)))
   /\ forall order',
        OrderRoutes.orders (fst result) !! orderId = Some order' ->
        Order.stripePaymentId order' = Some paymentIntentId
        /\ Order.paymentIntentId order' = Order.paymentIntentId order
        /\ Order.paymentIntentId order' <> paymentIntentId
        /\ Order.finalAmount order' = Order.finalAmount order)
  /\ (code_of (snd result) = 500 -> fst result = db).
Proof.
  cbn zeta. intros Hpid Hoid Hfind Hother Hok.
  split; [|apply confirmPaymentRoute_500].
  intros Hv Hpersisted.
  rewrite (confirmPaymentRoute_stores stripe now userId paymentIntentId
             orderId db order Hpid Hoid Hfind Hv), Hok.
  cbn [fst snd code_of OrderRoutes.orders OrderRoutes.set_orders].
  split; [reflexivity|].
  assert (Hstored :
    Order.pre_save
      (Order.set_status "confirmed"
         (Order.set_payment_ids paymentIntentId ("txn_" +:+ pretty now)
            (Order.set_paymentStatus "completed" order)))
    = Order.set_status "confirmed"
        (Order.set_payment_ids paymentIntentId ("txn_" +:+ pretty now)
           (Order.set_paymentStatus "completed" order))).
  { change (Order.pre_save
              (Order.set_status "confirmed"
                 (Order.set_payment_ids paymentIntentId ("txn_" +:+ pretty now)
                    (Order.set_paymentStatus "completed" order))))
      with (Order.set_status "confirmed"
              (Order.set_payment_ids paymentIntentId ("txn_" +:+ pretty now)
                 (Order.set_paymentStatus "completed" (Order.pre_save order)))).
    unfold persisted in Hpersisted. rewrite Hpersisted. reflexivity. }
  rewrite lookup_insert_eq, Hstored.
  split; [reflexivity|].
  intros order'. intros [= <-].
  repeat split. exact Hother.
Qed.

Lemma confirmPayment_any_intent_witness :
  OrderRoutes.orders
    (fst (OrderRoutes.confirmPaymentRoute Sample.stripe (Sample.day 20000)
            "u1" (Some "pi_of_somebody_else") (Some "ORD-1")
            (Sample.restaurant "delivered"))) !! "ORD-1"
  = Some (Order.set_status "confirmed"
            (Order.set_payment_ids "pi_of_somebody_else"
               ("txn_" +:+ pretty (Sample.day 20000))
               (Order.set_paymentStatus "completed"
                  (Sample.teaOrder "delivered")))).
Proof.
  refine (proj1 (proj2 (proj1
    (confirmPayment_any_intent Sample.stripe (Sample.day 20000) "u1"
       "pi_of_somebody_else" "ORD-1" (Sample.restaurant "delivered")
       (Sample.teaOrder "delivered") _ _ _ _ _) _ _))).
  - discriminate.
  - discriminate.
  - reflexivity.
  - discriminate.
  - reflexivity.
  - reflexivity.
  - reflexivity.
Defined.

(** ** Cancelling an order *)

Lemma includes_open (s : string) :
  Js.includes ["pending"; "confirmed"] s = true
  <-> s = "pending" \/ s = "confirmed".
Proof.
  rewrite includes_In. cbn [In]. intuition congruence.
Qed.

Lemma cancelRoute_accepted userId orderId db order :
  OrderRoutes.findOwn db orderId userId = Some order ->
  Order.status order = "pending" \/ Order.status order = "confirmed" ->
  Order.validate order = true ->
  persisted order ->
  OrderRoutes.cancelRoute userId orderId db
  = (OrderRoutes.set_orders
       (<[orderId := Order.set_paymentStatus "refunded"
                       (Order.set_status "cancelled" order)]>
          (OrderRoutes.orders db)) db,
     Success 200 "Order cancelled successfully").
Proof.
  intros Hfind Hs Hv Hp.
  pose proof (findOwn_Some _ _ _ _ Hfind) as (_ & Hkey & _).
  unfold OrderRoutes.cancelRoute. rewrite Hfind.
  apply includes_open in Hs. rewrite Hs. cbn [negb].
  rewrite order_save_loaded by (order_still_valid Hv).
  change (Order.pre_save
            (Order.set_paymentStatus "refunded"
               (Order.set_status "cancelled" order)))
    with (Order.set_paymentStatus "refunded"
            (Order.set_status "cancelled" (Order.pre_save order))).
  unfold persisted in Hp. rewrite Hp.
  cbn [Order.orderId Order.set_paymentStatus Order.set_status].
  rewrite Hkey. reflexivity.
Qed.

Lemma findOwn_inserted db orders orderId userId order :
  Order.orderId order = orderId ->
  Order.customerId order = userId ->
  OrderRoutes.findOwn
    (OrderRoutes.set_orders (<[orderId := order]> orders) db) orderId userId
  = Some order.
Proof.
  intros Hkey Hcustomer. unfold OrderRoutes.findOwn, OrderRoutes.findByOrderId.
  cbn [OrderRoutes.orders OrderRoutes.set_orders].
  rewrite lookup_insert_eq, Hkey, String.eqb_refl, Hcustomer, String.eqb_refl.
  reflexivity.
Qed.

(** X26. A customer cancels an own order once.  An order of the customer
    that is pending or confirmed, satisfies the schema and is as the hooks
    of a save left it, is stored as cancelled with its payment marked
    refunded, every other field as it was; an order in any other state is
    answered with 400 and an order that is not on file or belongs to
    somebody else with 404, the store staying as it was.  Cancelling the
    same order again is answered with 400 and changes nothing.  A
    cancellation that is answered with 500, because the schema refuses the
    document, leaves the store as it was. *)
Theorem cancelRoute_once (userId orderId : string) (db : OrderRoutes.Db) :
  let result := OrderRoutes.cancelRoute userId orderId db in
  (OrderRoutes.findOwn db orderId userId = None ->
   result = (db, Failure 404 "Order not found"))
  /\ (forall order,
        OrderRoutes.findOwn db orderId userId = Some order ->
        Order.status order <> "pending" ->
        Order.status order <> "confirmed" ->
        result = (db, Failure 400 "Cannot cancel order in current status"))
  /\ (forall order,
        OrderRoutes.findOwn db orderId userId = Some order ->
        Order.status order = "pending" \/ Order.status order = "confirmed" ->
        Order.validate order = true ->
        persisted order ->
        code_of (snd result) = 200
        /\ OrderRoutes.orders (fst result) !! orderId
           = Some (Order.set_paymentStatus "refunded"
                     (Order.set_status "cancelled" order))
        /\ OrderRoutes.cancelRoute userId orderId (fst result)
           = (fst result, Failure 400 "Cannot cancel order in current status"))
  /\ (code_of (snd result) = 500 -> fst result = db).
Proof.
  cbn zeta. split; [|split; [|split]]; [| | |apply cancelRoute_500].
  - intros Hnone. unfold OrderRoutes.cancelRoute. rewrite Hnone. reflexivity.
  - intros order Hfind Hs1 Hs2. unfold OrderRoutes.cancelRoute. rewrite Hfind.
    assert (Hclosed : Js.includes ["pending"; "confirmed"] (Order.status order)
                      = false).
    { apply not_true_is_false. rewrite includes_open. tauto. }
    rewrite Hclosed. reflexivity.
  - intros order Hfind Hs Hv Hp.
    pose proof (findOwn_Some _ _ _ _ Hfind) as (_ & Hkey & Hcustomer).
    rewrite (cancelRoute_accepted userId orderId db order Hfind Hs Hv Hp).
    cbn [fst snd code_of OrderRoutes.orders OrderRoutes.set_orders].
    split; [reflexivity|]. split; [apply lookup_insert_eq|].
    unfold OrderRoutes.cancelRoute.
    rewrite (findOwn_inserted db (OrderRoutes.orders db) orderId userId
               (Order.set_paymentStatus "refunded"
                  (Order.set_status "cancelled" order)) Hkey Hcustomer).
    reflexivity.
Qed.

Lemma cancelRoute_once_witness :
  OrderRoutes.orders
    (fst (OrderRoutes.cancelRoute "u1" "ORD-1" (Sample.restaurant "confirmed")))
    !! "ORD-1"
  = Some (Order.set_paymentStatus "refunded"
            (Order.set_status "cancelled" (Sample.teaOrder "confirmed"))).
Proof.
  refine (proj1 (proj2 (proj1 (proj2 (proj2
    (cancelRoute_once "u1" "ORD-1" (Sample.restaurant "confirmed"))))
    (Sample.teaOrder "confirmed") _ _ _ _))).
  - reflexivity.
  - right. reflexivity.
  - reflexivity.
  - reflexivity.
Defined.

(** ** The status update of the staff *)

Lemma pre_save_set_status s o :
  Order.pre_save (Order.set_status s o) = Order.set_status s (Order.pre_save o).
Proof. reflexivity. Qed.

Lemma pre_save_set_actualDeliveryTime d o :
  Order.pre_save (Order.set_actualDeliveryTime d o)
  = Order.set_actualDeliveryTime d (Order.pre_save o).
Proof. reflexivity. Qed.

Lemma pre_save_set_staffNotes n o :
  Order.pre_save (Order.set_staffNotes n o)
  = Order.set_staffNotes n (Order.pre_save o).
Proof. reflexivity. Qed.

Lemma pre_save_set_assignedStaff u o :
  Order.pre_save (Order.set_assignedStaff u o)
  = Order.set_assignedStaff u (Order.pre_save o).
Proof. reflexivity. Qed.

(** X27. The status update of an order.  Only the roles admin, staff and
    manager pass, by plain membership: every other role, ceo included, is
    answered with 403; a status outside the accepted set, or none, is
    answered with 400 and an order that is not on file with 404; all three
    leave the store as it was.  An accepted update of an order that
    satisfies the schema and is as the hooks of a save left it writes the
    status, the delivery stamp when the status is delivered, the staff
    notes when they are not empty, and the caller as assigned staff, and
    nothing else: the payment status stays as it was, also when the new
    status is cancelled.  An update that is answered with 500, because the
    schema refuses the document, leaves the store as it was. *)
Theorem updateStatusRoute_writes (now : Js.Date) (user : Principal)
    (orderId : string) (status staffNotes : option string)
    (db : OrderRoutes.Db) :
  let result :=
    OrderRoutes.updateStatusRoute now user orderId status staffNotes db in
  (~ In (role user) ["admin"; "staff"; "manager"] ->
   result = (db, Failure 403 "Access denied"))
  /\ (In (role user) ["admin"; "staff"; "manager"] ->
      (status = None
       \/ exists s, status = Some s /\ ~ In s OrderRoutes.validStatuses) ->
      result = (db, Failure 400 "Invalid status"))
  /\ (forall s,
        In (role user) ["admin"; "staff"; "manager"] ->
        status = Some s ->
        In s OrderRoutes.validStatuses ->
        OrderRoutes.findByOrderId db orderId = None ->
        result = (db, Failure 404 "Order not found"))
  /\ (forall s order,
        In (role user) ["admin"; "staff"; "manager"] ->
        status = Some s ->
        In s OrderRoutes.validStatuses ->
        OrderRoutes.findByOrderId db orderId = Some order ->
        Order.validate order = true ->
        persisted order ->
        exists order',
          OrderRoutes.orders (fst result) !! orderId = Some order'
          /\ Order.status order' = s
          /\ Order.paymentStatus order' = Order.paymentStatus order
          /\ Order.assignedStaff order' = Some (principalId user)
          /\ Order.staffNotes order'
             = match OrderRoutes.truthy staffNotes with
               | Some notes => Some notes
               | None => Order.staffNotes order
               end
          /\ Order.actualDeliveryTime order'
             = (if String.eqb s "delivered" then Some now
                else Order.actualDeliveryTime order)
          /\ Order.items order' = Order.items order
          /\ Order.totalAmount order' = Order.totalAmount order
          /\ Order.tax order' = Order.tax order
          /\ Order.deliveryFee order' = Order.deliveryFee order
          /\ Order.finalAmount order' = Order.finalAmount order
          /\ Order.paymentIntentId order' = Order.paymentIntentId order
          /\ Order.stripePaymentId order' = Order.stripePaymentId order
          /\ Order.transactionId order' = Order.transactionId order
          /\ Order.customerId order' = Order.customerId order)
  /\ (code_of (snd result) = 500 -> fst result = db).
Proof.
  cbn zeta. split; [|split; [|split; [|split]]];
    [| | | |apply updateStatusRoute_500].
  - unfold OrderRoutes.updateStatusRoute.
    intros Hrole. rewrite <- includes_In in Hrole.
    apply not_true_is_false in Hrole. rewrite Hrole. reflexivity.
  - unfold OrderRoutes.updateStatusRoute.
    intros Hrole Hbad. apply includes_In in Hrole. rewrite Hrole.
    destruct Hbad as [->|(s & -> & Hs)]; [reflexivity|].
    rewrite <- includes_In in Hs. apply not_true_is_false in Hs.
    rewrite Hs. reflexivity.
  - unfold OrderRoutes.updateStatusRoute.
    intros s Hrole -> Hs Hfind. apply includes_In in Hrole, Hs.
    rewrite Hrole, Hs, Hfind. reflexivity.
  - intros s order Hrole -> Hs Hfind Hv Hp.
    apply includes_In in Hrole, Hs.
    rewrite (updateStatusRoute_stores now user orderId s staffNotes db order
               Hrole Hs Hfind Hv).
    cbn [fst OrderRoutes.orders OrderRoutes.set_orders].
    unfold persisted in Hp.
    eexists. split; [apply lookup_insert_eq|].
    destruct (String.eqb s "delivered"), (OrderRoutes.truthy staffNotes);
      rewrite ?pre_save_set_assignedStaff, ?pre_save_set_staffNotes,
        ?pre_save_idempotent, ?pre_save_set_actualDeliveryTime,
        ?pre_save_set_status, Hp;
      repeat split.
Qed.

Lemma updateStatusRoute_writes_witness :
  OrderRoutes.updateStatusRoute (Sample.day 20000) (mkPrincipal "c1" "ceo")
    "ORD-1" (Some "preparing") None (Sample.restaurant "confirmed")
  = (Sample.restaurant "confirmed", Failure 403 "Access denied").
Proof.
  refine (proj1
    (updateStatusRoute_writes (Sample.day 20000) (mkPrincipal "c1" "ceo")
       "ORD-1" (Some "preparing") None (Sample.restaurant "confirmed")) _).
  cbn. intuition discriminate.
Defined.

(** ** The orders on file *)

Lemma persisted_fields (o : Order.t) :
  persisted o ->
  Order.items o = map Order.with_subtotal (Order.items o)
  /\ Order.totalAmount o
     = fold_left (fun total item => (total + Order.subtotal item)%Q)
         (map Order.with_subtotal (Order.items o)) 0%Q
  /\ Order.finalAmount o
     = (Order.totalAmount o + Order.tax o + Order.deliveryFee o)%Q.
Proof.
  intros Hp. unfold persisted in Hp.
  pose proof (f_equal Order.items Hp) as Hitems.
  pose proof (f_equal Order.totalAmount Hp) as Htotal.
  pose proof (f_equal Order.finalAmount Hp) as Hfinal.
  cbn [Order.pre_save Order.items Order.totalAmount Order.finalAmount]
    in Hitems, Htotal, Hfinal.
  split; [symmetry; exact Hitems|]. split; [symmetry; exact Htotal|].
  rewrite <- Hfinal at 1. rewrite Htotal. reflexivity.
Qed.

(** X28. The orders on file stay as a save leaves them.  When every order
    on file has item subtotals equal to price times quantity, a total equal
    to their sum and a final amount equal to total plus tax plus delivery
    fee, because a save has left it so, this is still the case after an
    order request, a payment confirmation, a cancellation by the customer
    and a status update. *)
Theorem orders_stay_as_saved (db : OrderRoutes.Db) :
  all_persisted db ->
  (forall key o,
     OrderRoutes.orders db !! key = Some o ->
     Forall (fun item =>
               Order.subtotal item
               = (Order.price item * Order.quantity item)%Q) (Order.items o)
     /\ (Order.totalAmount o
         == sumQ (map (fun item => Order.price item * Order.quantity item)
                      (Order.items o)))%Q
     /\ Order.finalAmount o
        = (Order.totalAmount o + Order.tax o + Order.deliveryFee o)%Q)
  /\ (forall stripe now newOrderId userId body,
        all_persisted
          (fst (OrderRoutes.createPaymentIntentRoute stripe now newOrderId
                  userId body db)))
  /\ (forall stripe now userId paymentIntentId orderId,
        all_persisted
          (fst (OrderRoutes.confirmPaymentRoute stripe now userId
                  paymentIntentId orderId db)))
  /\ (forall userId orderId,
        all_persisted (fst (OrderRoutes.cancelRoute userId orderId db)))
  /\ (forall now user orderId status staffNotes,
        all_persisted
          (fst (OrderRoutes.updateStatusRoute now user orderId status
                  staffNotes db))).
Proof.
  intros Hall.
  assert (Hhooks : forall o, Order.validate o = true ->
                             persisted (Order.pre_save o)).
  { intros o _. apply pre_save_idempotent. }
  split; [|split; [|split; [|split]]].
  - intros key o Hfile.
    destruct (persisted_fields o (Hall key o Hfile))
      as (Hitems & Htotal & Hfinal).
    split; [|split; [|exact Hfinal]].
    + rewrite Hitems. clear Hitems Htotal.
      induction (Order.items o) as [|item items IH]; cbn [map]; constructor;
        [reflexivity|exact IH].
    + rewrite Htotal, (fold_left_sumQ Order.subtotal), subtotals_sum. ring.
  - intros. unfold all_persisted.
    apply (createPaymentIntentRoute_keeps persisted Hhooks). exact Hall.
  - intros. unfold all_persisted.
    apply (confirmPaymentRoute_keeps persisted Hhooks). exact Hall.
  - intros. unfold all_persisted.
    apply (cancelRoute_keeps persisted Hhooks). exact Hall.
  - intros. unfold all_persisted.
    apply (updateStatusRoute_keeps persisted Hhooks). exact Hall.
Qed.

Lemma restaurant_persisted (status : string) :
  all_persisted (Sample.restaurant status).
Proof.
  intros key o. unfold Sample.restaurant. cbn [OrderRoutes.orders].
  rewrite lookup_insert. case_decide; [|rewrite lookup_empty; discriminate].
  intros [= <-]. reflexivity.
Qed.

Lemma orders_stay_as_saved_witness :
  all_persisted
    (fst (OrderRoutes.cancelRoute "u1" "ORD-1" (Sample.restaurant "pending"))).
Proof.
  exact (proj1 (proj2 (proj2 (proj2
    (orders_stay_as_saved (Sample.restaurant "pending")
       (restaurant_persisted "pending"))))) "u1" "ORD-1").
Defined.

(** ** The documents on file satisfy their schemas *)

(** X29. The orders on file stay valid.  When every order on file satisfies
    the validators of the order schema, this is still so after an order
    request, a payment confirmation, a cancellation by the customer and a
    status update: what a route stores has passed the validation, and the
    hooks that run after it keep the amounts within their bounds. *)
Theorem orders_stay_valid (db : OrderRoutes.Db) :
  ordersValid db ->
  (forall stripe now newOrderId userId body,
     ordersValid
       (fst (OrderRoutes.createPaymentIntentRoute stripe now newOrderId
               userId body db)))
  /\ (forall stripe now userId paymentIntentId orderId,
        ordersValid
          (fst (OrderRoutes.confirmPaymentRoute stripe now userId
                  paymentIntentId orderId db)))
  /\ (forall userId orderId,
        ordersValid (fst (OrderRoutes.cancelRoute userId orderId db)))
  /\ (forall now user orderId status staffNotes,
        ordersValid
          (fst (OrderRoutes.updateStatusRoute now user orderId status
                  staffNotes db))).
Proof.
  intros Hall.
  pose proof validate_pre_save as Hhooks.
  split; [|split; [|split]]; intros.
  - unfold ordersValid.
    apply (createPaymentIntentRoute_keeps (fun o => Order.validate o = true) Hhooks).
    exact Hall.
  - unfold ordersValid.
    apply (confirmPaymentRoute_keeps (fun o => Order.validate o = true) Hhooks).
    exact Hall.
  - unfold ordersValid.
    apply (cancelRoute_keeps (fun o => Order.validate o = true) Hhooks).
    exact Hall.
  - unfold ordersValid.
    apply (updateStatusRoute_keeps (fun o => Order.validate o = true) Hhooks).
    exact Hall.
Qed.

Lemma restaurant_valid (status : string) :
  Js.includes Order.statuses status = true ->
  ordersValid (Sample.restaurant status).
Proof.
  intros Hs key o. unfold Sample.restaurant. cbn [OrderRoutes.orders].
  rewrite lookup_insert. case_decide; [|rewrite lookup_empty; discriminate].
  intros [= <-]. apply order_validate_iff. cbn.
  repeat split; try reflexivity. exact Hs.
Qed.

Lemma orders_stay_valid_witness :
  ordersValid
    (fst (OrderRoutes.createPaymentIntentRoute Sample.stripe
            (Sample.day 20000) "ORD-9" "u1" Sample.thaliBody
            (Sample.restaurant "pending"))).
Proof.
  exact (proj1 (orders_stay_valid (Sample.restaurant "pending")
                  (restaurant_valid "pending" eq_refl))
           Sample.stripe (Sample.day 20000) "ORD-9" "u1" Sample.thaliBody).
Defined.

Lemma validate_room_pre_save now (r : Room.t) :
  Room.validate (Room.pre_save now r) = Room.validate r.
Proof. reflexivity. Qed.

Lemma roomsValid_same now (db db' : BookingController.Db) :
  (forall key,
     sameRoom now (BookingController.rooms db !! key)
       (BookingController.rooms db' !! key)) ->
  roomsValid db -> roomsValid db'.
Proof.
  intros Hsame Hall key r.
  destruct (Hsame key) as [->| ->]; [apply Hall|].
  destruct (BookingController.rooms db !! key) as [r0|] eqn:Hr0;
    [|discriminate].
  intros [= <-]. rewrite validate_room_pre_save. exact (Hall key r0 Hr0).
Qed.

Lemma bookingsValid_insert (bookings : gmap string Booking.t) id b now :
  (forall key b', bookings !! key = Some b' -> Booking.validate b' = true) ->
  Booking.validate b = true ->
  forall key b',
    <[id := Booking.pre_save now b]> bookings !! key = Some b' ->
    Booking.validate b' = true.
Proof.
  intros Hall Hb key b'. rewrite lookup_insert. case_decide.
  - intros [= <-]. exact Hb.
  - apply Hall.
Qed.

(** X30. The bookings and the rooms on file stay valid.  When every booking
    and every room on file satisfies the validators of its schema, this is
    still so after each handler of the booking controller: a booking is
    stored only after it has passed the validation, and a room is stored
    as it was, with a new time stamp. *)
Theorem bookings_stay_valid `{Calendar} (db : BookingController.Db) :
  bookingsValid db ->
  roomsValid db ->
  (forall now newId user body,
     let db' := fst (BookingController.createBooking now newId user body db) in
     bookingsValid db' /\ roomsValid db')
  /\ (forall now user id,
        let db' := fst (BookingController.cancelBooking now user id db) in
        bookingsValid db' /\ roomsValid db')
  /\ (forall now id,
        let db' := fst (BookingController.checkInBooking now id db) in
        bookingsValid db' /\ roomsValid db')
  /\ (forall now id,
        let db' := fst (BookingController.checkOutBooking now id db) in
        bookingsValid db' /\ roomsValid db')
  /\ (forall now user id body,
        let db' :=
          fst (BookingLines.addServiceToBooking now user id body db) in
        bookingsValid db' /\ roomsValid db')
  /\ (forall now uuid user id body,
        let db' := fst (BookingLines.addFoodOrder now uuid user id body db) in
        bookingsValid db' /\ roomsValid db')
  /\ (forall now user id body,
        let db' := fst (BookingLines.updateBooking now user id body db) in
        bookingsValid db' /\ roomsValid db').
Proof.
  intros Hbookings Hrooms.
  set (P := fun bookings : gmap string Booking.t =>
              forall id b, bookings !! id = Some b ->
                           Booking.validate b = true).
  assert (Hold : P (BookingController.bookings db)) by exact Hbookings.
  assert (Hsame : forall db' : BookingController.Db,
            BookingController.rooms db' = BookingController.rooms db ->
            roomsValid db').
  { intros db' Heq key r. rewrite Heq. apply Hrooms. }
  split; [|split; [|split; [|split; [|split; [|split]]]]]; cbn zeta.
  - intros now newId user body.
    rewrite (proj1 (createBooking_answers now newId user body db)).
    split; assumption.
  - intros now user id. split.
    + apply (after_cancelBooking P db Hold). intros booking Hb. cbn zeta.
      intros Hv. unfold P. apply bookingsValid_insert; assumption.
    + apply (roomsValid_same now db); [intros key; apply cancelBooking_rooms|exact Hrooms].
  - intros now id. split; [|apply Hsame, checkInBooking_rooms].
    apply (after_checkInBooking P db Hold). intros booking Hb. cbn zeta.
    intros Hv. unfold P. apply bookingsValid_insert; assumption.
  - intros now id. split.
    + apply (after_checkOutBooking P db Hold). intros booking Hb. cbn zeta.
      intros Hv. unfold P. apply bookingsValid_insert; assumption.
    + apply (roomsValid_same now db); [intros key; apply checkOutBooking_rooms|exact Hrooms].
  - intros now user id body. split; [|apply Hsame, addServiceToBooking_rooms].
    apply (after_addServiceToBooking P db Hold).
    intros booking service Hb Hservice. cbn zeta.
    intros Hv. unfold P. apply bookingsValid_insert; assumption.
  - intros now uuid user id body. split; [|apply Hsame, addFoodOrder_rooms].
    apply (after_addFoodOrder P db Hold). intros booking Hb. cbn zeta.
    intros Hv. unfold P. apply bookingsValid_insert; assumption.
  - intros now user id body. split; [|apply Hsame, updateBooking_rooms].
    apply (after_updateBooking P db Hold). intros booking Hb. cbn zeta.
    intros Hv. unfold P. apply bookingsValid_insert; assumption.
Qed.

Lemma sample_hotel_valid : bookingsValid Sample.hotel /\ roomsValid Sample.hotel.
Proof.
  split.
  - intros id b. unfold Sample.hotel. cbn [BookingController.bookings].
    rewrite !lookup_insert, lookup_empty.
    repeat case_decide; intros [= <-]; reflexivity.
  - intros id r. unfold Sample.hotel. cbn [BookingController.rooms].
    rewrite !lookup_insert, lookup_empty.
    repeat case_decide; intros [= <-]; reflexivity.
Qed.

Lemma bookings_stay_valid_witness :
  bookingsValid
    (fst (BookingLines.updateBooking (Sample.day 20001) Sample.staff "b1"
            (BookingLines.mkUpdateBody (Some "no-show") None None None)
            Sample.hotel)).
Proof.
  exact (proj1 (proj2 (proj2 (proj2 (proj2 (proj2 (proj2
    (bookings_stay_valid (H := Utc.calendar) Sample.hotel
       (proj1 sample_hotel_valid) (proj2 sample_hotel_valid)))))))
    (Sample.day 20001) Sample.staff "b1"
    (BookingLines.mkUpdateBody (Some "no-show") None None None))).
Defined.

(** ** Worked examples *)

Example utc_epoch : Utc.dateString 0 = "Thu Jan 01 1970".
Proof. reflexivity. Qed.

Example utc_2023 : Utc.dateString 1700000000000 = "Tue Nov 14 2023".
Proof. reflexivity. Qed.

Example utc_leap_day : Utc.dateString 951782400000 = "Tue Feb 29 2000".
Proof. reflexivity. Qed.

Example utc_before_epoch : Utc.dateString (-1) = "Wed Dec 31 1969".
Proof. reflexivity. Qed.

Example round_half_up : Js.round (21 # 2) = 11 /\ Js.round (104995 # 10000) = 10.
Proof. split; reflexivity. Qed.

Example ceil_div_days :
  Js.ceil_div 1 Js.msPerDay = 1
  /\ Js.ceil_div Js.msPerDay Js.msPerDay = 1
  /\ Js.ceil_div (Js.msPerDay + 1) Js.msPerDay = 2.
Proof. repeat split; reflexivity. Qed.

(** Two teas at 100 for room service: total 200, tax 20, fee 50, 270 due. *)
Example two_teas_room_service :
  let body :=
    OrderRoutes.mkIntentBody
      (Some [OrderRoutes.mkItemRequest "m1" "Masala tea" 2])
      (Some 200%Q) (Some (Some "101")) None in
  let result :=
    OrderRoutes.createPaymentIntentRoute Sample.stripe (Sample.day 20000)
      "ORD-9" "u1" body (Sample.restaurant "pending") in
  exists o,
    OrderRoutes.orders (fst result) !! "ORD-9" = Some o
    /\ (Order.totalAmount o == 200)%Q
    /\ (Order.tax o == 20)%Q
    /\ (Order.deliveryFee o == 50)%Q
    /\ (Order.finalAmount o == 270)%Q.
Proof.
  cbn zeta. eexists. split; [vm_compute; reflexivity|].
  repeat split; reflexivity.
Qed.

(** The two-night stay in room 101, as the handler prices it: 4800 for the
    room, 864 of tax, 5664 due.  The document has no booking number, so the
    save refuses it and the request ends with 500. *)
Example two_nights_room_101 :
  let b :=
    BookingController.newBooking (H := Utc.calendar) (Sample.day 19999)
      Sample.guest (Sample.twoNights "r101") Sample.hotel Sample.room101 in
  (Booking.taxAmount (Booking.pricing b) == 864)%Q
  /\ (Booking.totalAmount (Booking.pricing b) == 5664)%Q
  /\ Booking.bookingNumber b = None
  /\ BookingController.createBooking (H := Utc.calendar) (Sample.day 19999)
       "b9" Sample.guest (Sample.twoNights "r101") Sample.hotel
     = (Sample.hotel, Failure 500 "Failed to create booking").
Proof.
  cbn zeta. repeat split; vm_compute; reflexivity.
Qed.
